(** * CardStock: document model, stack manager and nested-stack viewer

    A shallow embedding of the parts of CardStock that carry the
    document/selection/undo protocol and the stack call/return control
    flow:

    - [page.py]                 ([PageWindow.GetNextAvailableName])
    - [cardstock/stackModel.py] ([StackModel], [Stack] proxy)
    - [stackManager.py]         ([StackManager])
    - [cardstock/viewer.py]     ([ViewerFrame])

    Python objects live in a heap indexed by object identity; every method
    is a function in a small state-and-exception monad over that heap. *)

From Stdlib Require Import ZArith Ascii String DecimalString List Bool Lia.
From stdpp Require Import base option list gmap strings.

Import ListNotations.
Local Open Scope string_scope.
Local Open Scope list_scope.
Local Open Scope Z_scope.

(* ===================================================================== *)
(** ** Python values, exceptions and built-ins                            *)
(* ===================================================================== *)

Module Py.

(** Object identities (what [is] compares). *)
Abbreviation oid := nat.

(** The values scripts pass around: setup values, return values, the
    argument of [card_with_number], proxies of model objects. *)
Inductive PyVal :=
| PyNone
| PyBool (b : bool)
| PyInt (z : Z)
| PyStr (s : string)
| PyProxy (model : oid).

(** The exceptions raised by the modelled code and by the built-ins it
    calls.  [JSONDecodeError] and [UnicodeDecodeError] are subclasses of
    [ValueError]; [FileNotFoundError], [NotADirectoryError],
    [IsADirectoryError] and [PermissionError] are subclasses of [OSError].
    None of them is a subclass of another one of the list, so an [except]
    clause naming some of them catches exactly those. *)
Inductive Exn :=
| TypeError
| ValueError
| IndexError
| AttributeError
| FileNotFoundError
| NotADirectoryError
| IsADirectoryError
| PermissionError
| UnicodeDecodeError
| JSONDecodeError.

Inductive Res (A : Type) :=
| Ok (a : A)
| Raise (e : Exn).
Arguments Ok {A} a.
Arguments Raise {A} e.

(** [isinstance(v, int)], together with the integer [v] then denotes:
    [bool] is a subclass of [int], [True == 1] and [False == 0]. *)
Definition as_int (v : PyVal) : option Z :=
  match v with
  | PyInt z => Some z
  | PyBool b => Some (if b then 1 else 0)
  | _ => None
  end.

(** [l[i]]: negative indices count from the end, anything outside
    [-len .. len-1] raises [IndexError]. *)
Definition py_index {A} (l : list A) (i : Z) : Res A :=
  let n := Z.of_nat (length l) in
  let j := if i <? 0 then i + n else i in
  if (0 <=? j) && (j <? n)
  then match nth_error l (Z.to_nat j) with
       | Some a => Ok a
       | None => Raise IndexError
       end
  else Raise IndexError.

(** [l.remove(x)] on a list of object references: drops the first
    occurrence.  (Python raises [ValueError] when there is none; every
    call site below removes an element it has just found in the list.) *)
Fixpoint py_remove (x : oid) (l : list oid) : list oid :=
  match l with
  | [] => []
  | y :: l' => if Nat.eqb x y then l' else y :: py_remove x l'
  end.

(** [x in l] on a list of object references. *)
Definition py_in (x : oid) (l : list oid) : bool := existsb (Nat.eqb x) l.

(** [name in names] on a list of strings. *)
Definition str_in (x : string) (l : list string) : bool :=
  existsb (String.eqb x) l.

(** [str(i)] for a non-negative [int]. *)
Definition str (i : nat) : string := NilEmpty.string_of_uint (Nat.to_uint i).

(** [s.split(sep)] for a one-character separator: always at least one
    part, empty parts are kept. *)
Fixpoint split (sep : ascii) (s : string) : list string :=
  match s with
  | EmptyString => [EmptyString]
  | String c s' =>
      if Ascii.eqb c sep then EmptyString :: split sep s'
      else match split sep s' with
           | [] => [String c EmptyString]
           | p :: ps => String c p :: ps
           end
  end.

(** [l[-n:]]: the last [n] elements, and the whole list for [n = 0]
    (because [-0 == 0]). *)
Definition py_last_n {A} (n : nat) (l : list A) : list A :=
  match n with
  | O => l
  | _ => skipn (length l - n)%nat l
  end.

End Py.
Import Py.

(* ===================================================================== *)
(** ** page.py                                                            *)
(* ===================================================================== *)

Module Page.

(** [PageWindow.GetNextAvailableName(base)].

    [names] stands for [self.uiViews] mapped to their ["name"] property.
    page.py is Python 3 code (argument-less [super()], [list.copy()]), so
    [names = map(...)] is a one-shot iterator and every
    [name not in names] test resumes the iterator where the previous test
    stopped: a test that finds [name] leaves the elements after the match,
    a test that does not find it exhausts the iterator and returns.

    The inner [fix] is one membership test over the remaining elements;
    the outer recursion is the [while True] loop, entered again with [i+1]
    and what is left of the iterator. *)
Fixpoint GetNextAvailableName_from (base : string) (i : nat)
         (names : list string) {struct names} : string :=
  let name := base +:+ str i in
  (fix not_in (rest : list string) : string :=
     match rest with
     | [] => name
     | n :: rest' =>
         if String.eqb n name
         then GetNextAvailableName_from base (S i) rest'
         else not_in rest'
     end) names.

Definition GetNextAvailableName (base : string) (names : list string) : string :=
  GetNextAvailableName_from base 1 names.

End Page.

(* ===================================================================== *)
(** ** Objects and the heap                                               *)
(* ===================================================================== *)

Module Obj.

(** A [ViewModel] (and its subclasses [StackModel], [CardModel],
    [GroupModel]): the attributes the modelled methods read or write.
    [name] is [properties["name"]]; [handlers] maps an event name to its
    script text. *)
Record ViewModel := MkViewModel {
  type : string;
  name : string;
  handlers : gmap string string;
  parent : option oid;
  childModels : list oid;
  didSetDown : bool
}.

Definition set_name (v : string) (o : ViewModel) : ViewModel :=
  {| type := type o; name := v; handlers := handlers o; parent := parent o;
     childModels := childModels o; didSetDown := didSetDown o |}.
Definition set_parent (v : option oid) (o : ViewModel) : ViewModel :=
  {| type := type o; name := name o; handlers := handlers o; parent := v;
     childModels := childModels o; didSetDown := didSetDown o |}.
Definition set_childModels (v : list oid) (o : ViewModel) : ViewModel :=
  {| type := type o; name := name o; handlers := handlers o; parent := parent o;
     childModels := v; didSetDown := didSetDown o |}.
Definition set_didSetDown (v : bool) (o : ViewModel) : ViewModel :=
  {| type := type o; name := name o; handlers := handlers o; parent := parent o;
     childModels := childModels o; didSetDown := v |}.

(** A [UiView]: the model it shows, the [UiView] it sits in ([None] for
    the card's own [UiCard]) and its selection flag. *)
Record UiView := MkUiView {
  model : oid;
  ui_parent : option oid;
  isSelected : bool
}.

Definition set_model (v : oid) (u : UiView) : UiView :=
  {| model := v; ui_parent := ui_parent u; isSelected := isSelected u |}.
Definition set_isSelected (v : bool) (u : UiView) : UiView :=
  {| model := model u; ui_parent := ui_parent u; isSelected := v |}.

(** Modelled from the spec: the handler runner ([runner.py], not part of
    the sources) is an opaque collaborator that is handed lifecycle events
    and the setup / return values.  A [Runner] object keeps its
    [stackSetupValue] attribute and the sequence of calls made on it. *)
Inductive RunnerCall :=
| RunHandler (model : oid) (event : string)
| SetupForCard (card : oid)
| RunSetup (stack : oid)
| StopTimers
| CleanupFromRun
| DoReturnFromStack (value : PyVal).

Record Runner := MkRunner {
  stackSetupValue : PyVal;
  calls : list RunnerCall
}.

Definition set_stackSetupValue (v : PyVal) (r : Runner) : Runner :=
  {| stackSetupValue := v; calls := calls r |}.
Definition add_call (c : RunnerCall) (r : Runner) : Runner :=
  {| stackSetupValue := stackSetupValue r; calls := calls r ++ [c] |}.

(** The commands submitted by the modelled methods. *)
Inductive Command :=
| AddUiViewsCommand (cardIndex : option Z) (viewModels : list oid).

(** [wx.lib.docview.CommandProcessor]: the undo history and the redo
    branch. *)
Record CommandProcessor := MkCommandProcessor {
  commands : list Command;
  redoCommands : list Command
}.

(** The heap ([models], [uis], [runners], [next_oid]) together with the
    attributes of the one [StackManager] instance. *)
Record World := MkWorld {
  models : gmap oid ViewModel;
  uis : gmap oid UiView;
  runners : gmap oid Runner;
  next_oid : oid;
  isEditing : bool;
  runner : option oid;
  filename : option string;
  stackModel : oid;
  selectedViews : list oid;
  uiViews : list oid;
  cardIndex : option Z;
  uiCard : oid;
  lastFocusedTextField : option oid;
  noIdling : bool;
  command_processor : CommandProcessor
}.

Definition set_models (v : gmap oid ViewModel) (w : World) : World :=
  {| models := v; uis := uis w; runners := runners w;
     next_oid := next_oid w; isEditing := isEditing w; runner := runner w;
     filename := filename w; stackModel := stackModel w;
     selectedViews := selectedViews w; uiViews := uiViews w;
     cardIndex := cardIndex w; uiCard := uiCard w;
     lastFocusedTextField := lastFocusedTextField w; noIdling := noIdling w;
     command_processor := command_processor w |}.
Definition set_uis (v : gmap oid UiView) (w : World) : World :=
  {| models := models w; uis := v; runners := runners w;
     next_oid := next_oid w; isEditing := isEditing w; runner := runner w;
     filename := filename w; stackModel := stackModel w;
     selectedViews := selectedViews w; uiViews := uiViews w;
     cardIndex := cardIndex w; uiCard := uiCard w;
     lastFocusedTextField := lastFocusedTextField w; noIdling := noIdling w;
     command_processor := command_processor w |}.
Definition set_runners (v : gmap oid Runner) (w : World) : World :=
  {| models := models w; uis := uis w; runners := v; next_oid := next_oid w;
     isEditing := isEditing w; runner := runner w; filename := filename w;
     stackModel := stackModel w; selectedViews := selectedViews w;
     uiViews := uiViews w; cardIndex := cardIndex w; uiCard := uiCard w;
     lastFocusedTextField := lastFocusedTextField w; noIdling := noIdling w;
     command_processor := command_processor w |}.
Definition set_next_oid (v : oid) (w : World) : World :=
  {| models := models w; uis := uis w; runners := runners w; next_oid := v;
     isEditing := isEditing w; runner := runner w; filename := filename w;
     stackModel := stackModel w; selectedViews := selectedViews w;
     uiViews := uiViews w; cardIndex := cardIndex w; uiCard := uiCard w;
     lastFocusedTextField := lastFocusedTextField w; noIdling := noIdling w;
     command_processor := command_processor w |}.
Definition set_isEditing (v : bool) (w : World) : World :=
  {| models := models w; uis := uis w; runners := runners w;
     next_oid := next_oid w; isEditing := v; runner := runner w;
     filename := filename w; stackModel := stackModel w;
     selectedViews := selectedViews w; uiViews := uiViews w;
     cardIndex := cardIndex w; uiCard := uiCard w;
     lastFocusedTextField := lastFocusedTextField w; noIdling := noIdling w;
     command_processor := command_processor w |}.
Definition set_runner (v : option oid) (w : World) : World :=
  {| models := models w; uis := uis w; runners := runners w;
     next_oid := next_oid w; isEditing := isEditing w; runner := v;
     filename := filename w; stackModel := stackModel w;
     selectedViews := selectedViews w; uiViews := uiViews w;
     cardIndex := cardIndex w; uiCard := uiCard w;
     lastFocusedTextField := lastFocusedTextField w; noIdling := noIdling w;
     command_processor := command_processor w |}.
Definition set_filename (v : option string) (w : World) : World :=
  {| models := models w; uis := uis w; runners := runners w;
     next_oid := next_oid w; isEditing := isEditing w; runner := runner w;
     filename := v; stackModel := stackModel w;
     selectedViews := selectedViews w; uiViews := uiViews w;
     cardIndex := cardIndex w; uiCard := uiCard w;
     lastFocusedTextField := lastFocusedTextField w; noIdling := noIdling w;
     command_processor := command_processor w |}.
Definition set_stackModel (v : oid) (w : World) : World :=
  {| models := models w; uis := uis w; runners := runners w;
     next_oid := next_oid w; isEditing := isEditing w; runner := runner w;
     filename := filename w; stackModel := v;
     selectedViews := selectedViews w; uiViews := uiViews w;
     cardIndex := cardIndex w; uiCard := uiCard w;
     lastFocusedTextField := lastFocusedTextField w; noIdling := noIdling w;
     command_processor := command_processor w |}.
Definition set_selectedViews (v : list oid) (w : World) : World :=
  {| models := models w; uis := uis w; runners := runners w;
     next_oid := next_oid w; isEditing := isEditing w; runner := runner w;
     filename := filename w; stackModel := stackModel w; selectedViews := v;
     uiViews := uiViews w; cardIndex := cardIndex w; uiCard := uiCard w;
     lastFocusedTextField := lastFocusedTextField w; noIdling := noIdling w;
     command_processor := command_processor w |}.
Definition set_uiViews (v : list oid) (w : World) : World :=
  {| models := models w; uis := uis w; runners := runners w;
     next_oid := next_oid w; isEditing := isEditing w; runner := runner w;
     filename := filename w; stackModel := stackModel w;
     selectedViews := selectedViews w; uiViews := v;
     cardIndex := cardIndex w; uiCard := uiCard w;
     lastFocusedTextField := lastFocusedTextField w; noIdling := noIdling w;
     command_processor := command_processor w |}.
Definition set_cardIndex (v : option Z) (w : World) : World :=
  {| models := models w; uis := uis w; runners := runners w;
     next_oid := next_oid w; isEditing := isEditing w; runner := runner w;
     filename := filename w; stackModel := stackModel w;
     selectedViews := selectedViews w; uiViews := uiViews w; cardIndex := v;
     uiCard := uiCard w; lastFocusedTextField := lastFocusedTextField w;
     noIdling := noIdling w; command_processor := command_processor w |}.
Definition set_lastFocusedTextField (v : option oid) (w : World) : World :=
  {| models := models w; uis := uis w; runners := runners w;
     next_oid := next_oid w; isEditing := isEditing w; runner := runner w;
     filename := filename w; stackModel := stackModel w;
     selectedViews := selectedViews w; uiViews := uiViews w;
     cardIndex := cardIndex w; uiCard := uiCard w;
     lastFocusedTextField := v; noIdling := noIdling w;
     command_processor := command_processor w |}.
Definition set_noIdling (v : bool) (w : World) : World :=
  {| models := models w; uis := uis w; runners := runners w;
     next_oid := next_oid w; isEditing := isEditing w; runner := runner w;
     filename := filename w; stackModel := stackModel w;
     selectedViews := selectedViews w; uiViews := uiViews w;
     cardIndex := cardIndex w; uiCard := uiCard w;
     lastFocusedTextField := lastFocusedTextField w; noIdling := v;
     command_processor := command_processor w |}.
Definition set_command_processor (v : CommandProcessor) (w : World) : World :=
  {| models := models w; uis := uis w; runners := runners w;
     next_oid := next_oid w; isEditing := isEditing w; runner := runner w;
     filename := filename w; stackModel := stackModel w;
     selectedViews := selectedViews w; uiViews := uiViews w;
     cardIndex := cardIndex w; uiCard := uiCard w;
     lastFocusedTextField := lastFocusedTextField w; noIdling := noIdling w;
     command_processor := v |}.

(** Attribute reads through a reference.  Python references never dangle;
    the defaults below are not reached on a heap that holds every object
    it mentions. *)
Definition type_of (w : World) (m : oid) : string :=
  from_option type "" (models w !! m).
Definition name_of (w : World) (m : oid) : string :=
  from_option name "" (models w !! m).
Definition children_of (w : World) (m : oid) : list oid :=
  from_option childModels [] (models w !! m).
Definition model_of (w : World) (u : oid) : oid :=
  from_option model O (uis w !! u).
Definition ui_type (w : World) (u : oid) : string :=
  type_of w (model_of w u).

(** [uiView.parent and uiView.parent.model.type == "group"]. *)
Definition parent_is_group (w : World) (u : oid) : bool :=
  match uis w !! u with
  | Some o =>
      match ui_parent o with
      | Some p => String.eqb (ui_type w p) "group"
      | None => false
      end
  | None => false
  end.

(** Attribute writes through a reference. *)
Definition upd_model (m : oid) (f : ViewModel -> ViewModel) (w : World) : World :=
  set_models (alter f m (models w)) w.
Definition upd_ui (u : oid) (f : UiView -> UiView) (w : World) : World :=
  set_uis (alter f u (uis w)) w.
Definition upd_runner (r : oid) (f : Runner -> Runner) (w : World) : World :=
  set_runners (alter f r (runners w)) w.

(** A method call on a runner, recorded on that runner. *)
Definition call_runner (r : oid) (c : RunnerCall) (w : World) : World :=
  upd_runner r (add_call c) w.

(** ** The state-and-exception monad of the methods *)

Definition M (S A : Type) : Type := S -> Res (A * S).

Definition ret {S A} (a : A) : M S A := fun s => Ok (a, s).
Definition bind {S A B} (c : M S A) (k : A -> M S B) : M S B :=
  fun s => match c s with
           | Ok (a, s') => k a s'
           | Raise e => Raise e
           end.
Definition raise {S A} (e : Exn) : M S A := fun _ => Raise e.
Definition gets {S A} (f : S -> A) : M S A := fun s => Ok (f s, s).
Definition modify {S} (f : S -> S) : M S unit := fun s => Ok (tt, f s).
Definition lift_res {S A} (r : Res A) : M S A :=
  fun s => match r with Ok a => Ok (a, s) | Raise e => Raise e end.
Definition when {S} (b : bool) (c : M S unit) : M S unit :=
  if b then c else ret tt.

End Obj.
Import Obj.

Declare Scope py_scope.
Delimit Scope py_scope with py.
Notation "x <- c ;; k" := (bind c (fun x => k))
  (at level 100, c at next level, right associativity) : py_scope.
Notation "c ;;; k" := (bind c (fun _ => k))
  (at level 100, right associativity) : py_scope.

(* ===================================================================== *)
(** ** cardstock/stackModel.py                                            *)
(* ===================================================================== *)

Module StackModel.

(** [StackModel.GetCardModel(i)]: [self.childModels[i]]. *)
Definition GetCardModel (self : oid) (i : Z) (w : World) : Res oid :=
  py_index (children_of w self) i.

(** The inner loop of [GetModelFromPath]: the first child of [m] whose
    ["name"] property is [p]. *)
Definition child_named (w : World) (m : oid) (p : string) : option oid :=
  find (fun c => String.eqb (name_of w c) p) (children_of w m).

(** The outer loop of [GetModelFromPath] over the parts of the path;
    [None] is Python's [None]. *)
Fixpoint GetModelFromPath_parts (w : World) (m : oid) (parts : list string)
  : option oid :=
  match parts with
  | [] => Some m
  | p :: parts' =>
      match child_named w m p with
      | Some c => GetModelFromPath_parts w c parts'
      | None => None
      end
  end.

(** [StackModel.GetModelFromPath(path)]. *)
Definition GetModelFromPath (self : oid) (path : string) (w : World)
  : option oid :=
  GetModelFromPath_parts w self (split "." path).

(** [ViewModel.GetProxy()] ([uiView.py], not part of the sources): the
    script-facing proxy object of a model. *)
Definition GetProxy (m : oid) : PyVal := PyProxy m.

(** [Stack.card_with_number(number)]; [self] is the proxy's [_model]. *)
Definition card_with_number (self : oid) (number : PyVal) : M World PyVal :=
  (down <- gets (fun w => from_option didSetDown false (models w !! self)) ;;
   if down then ret PyNone
   else match as_int number with
        | None => raise TypeError
        | Some n =>
            len <- gets (fun w => Z.of_nat (length (children_of w self))) ;;
            if (n <? 1) || (n >? len) then raise ValueError
            else
              card <- (fun w => lift_res (py_index (children_of w self) (n - 1)) w) ;;
              ret (GetProxy card)
        end)%py.

End StackModel.

(* ===================================================================== *)
(** ** stackManager.py                                                    *)
(* ===================================================================== *)

Module StackManager.

(** [UiView.SetSelected(selected)] ([uiView.py]): sets the flag (and
    repaints). *)
Definition SetSelected (u : oid) (selected : bool) : World -> World :=
  upd_ui u (set_isSelected selected).

(** [selectedViews[0]], when there is one, satisfies [p]:
    [len(self.selectedViews) and p(self.selectedViews[0])]. *)
Definition first_selected (p : oid -> bool) (w : World) : bool :=
  match selectedViews w with
  | s0 :: _ => p s0
  | [] => false
  end.

(** The value of [extend] after the three guards at the head of
    [SelectUiView]. *)
Definition effective_extend (uiView : option oid) (extend : bool) (w : World)
  : bool :=
  let extend :=
    if extend && from_option (parent_is_group w) false uiView
    then false else extend in
  let extend :=
    if extend && first_selected (parent_is_group w) w
    then false else extend in
  let extend :=
    if extend &&
       from_option
         (fun u => xorb (String.eqb (ui_type w u) "card")
                        (first_selected (fun s => String.eqb (ui_type w s) "card") w))
         false uiView
    then false else extend in
  extend.

(** [StackManager.SelectUiView(uiView, extend=False)].  The call to
    [designer.SetSelectedUiViews] only informs the designer window. *)
Definition SelectUiView (uiView : option oid) (extend : bool) (w : World)
  : World :=
  if isEditing w then
    let extend := effective_extend uiView extend w in
    let w :=
      if negb (Nat.eqb (length (selectedViews w)) 0) && negb extend
      then set_selectedViews []
             (fold_left (fun w ui => SetSelected ui false w) (selectedViews w) w)
      else w in
    match uiView with
    | Some u =>
        if extend && py_in u (selectedViews w)
        then set_selectedViews (py_remove u (selectedViews w))
               (SetSelected u false w)
        else set_selectedViews (selectedViews w ++ [u])
               (SetSelected u true w)
    | None => w
    end
  else w.

(** [StackManager.SetEditing(editing)]; the idle timer is window-system
    state and is left out. *)
Definition SetEditing (editing : bool) (w : World) : World :=
  let w := set_isEditing editing w in
  if negb editing then SelectUiView None false w else w.

(** [StackManager.ClearAllViews()]. *)
Definition ClearAllViews (w : World) : World :=
  let w := SelectUiView None false w in
  fold_left
    (fun w ui =>
       if negb (String.eqb (ui_type w ui) "card")
       then set_uiViews (py_remove ui (uiViews w)) w
       else w)
    (uiViews w) w.

(** The types for which [AddUiViewInternal] builds a [UiView]. *)
Definition is_view_type (ty : string) : bool :=
  str_in ty ["button"; "textfield"; "field"; "textlabel"; "label"; "image";
             "group"; "pen"; "line"; "oval"; "rect"; "roundrect"].

(** Modelled from the spec: [ViewModel.AddChild] ([uiView.py], not part
    of the sources) appends the child to the ordered children of the
    parent and sets the child's parent reference. *)
Definition AddChild (parent_model child : oid) (w : World) : World :=
  upd_model child (set_parent (Some parent_model))
    (upd_model parent_model
       (fun o => set_childModels (childModels o ++ [child]) o) w).

(** Modelled from the spec: [ViewModel.RemoveChild] ([uiView.py], not
    part of the sources) fails when the child is not a direct child of
    the parent, otherwise takes it out of the children and clears its
    parent reference. *)
Definition RemoveChild (parent_model child : oid) : M World unit :=
  fun w =>
    if py_in child (children_of w parent_model)
    then Ok (tt,
             upd_model child (set_parent None)
               (upd_model parent_model
                  (fun o => set_childModels (py_remove child (childModels o)) o) w))
    else Raise ValueError.

(** [StackManager.AddUiViewInternal(type, model)] for a given [model]
    (with [model=None] the view's constructor makes a default model; the
    commands modelled here always pass one).  The new [UiView] sits in
    [self.uiCard]. *)
Definition AddUiViewInternal (ty : string) (m : oid) (w : World)
  : option oid * World :=
  if is_view_type ty then
    let u := next_oid w in
    let w := set_next_oid (S u) w in
    let w := set_uis (<[u := {| model := m; ui_parent := Some (uiCard w);
                                 isSelected := false |}]> (uis w)) w in
    let w := set_uiViews (uiViews w ++ [u]) w in
    let card := model_of w (uiCard w) in
    let w := upd_model m (set_parent (Some card)) w in
    let w := if negb (py_in m (children_of w card)) then AddChild card m w else w in
    (Some u, w)
  else (None, w).

(** Modelled from the spec: [AddUiViewsCommand.Do] ([commands.py], not
    part of the sources) adds a view for each of its models to the current
    card, and reports success. *)
Definition AddUiViewsCommand_Do (viewModels : list oid) (w : World) : bool * World :=
  (true,
   fold_left (fun w m => snd (AddUiViewInternal (type_of w m) m w)) viewModels w).

Definition Command_Do (c : Command) (w : World) : bool * World :=
  match c with
  | AddUiViewsCommand _ viewModels => AddUiViewsCommand_Do viewModels w
  end.

(** [wx.lib.docview.CommandProcessor.Submit(command, storeIt=True)]:
    runs the command; when it succeeded the redo branch is dropped and,
    with [storeIt], the command is appended to the history. *)
Definition Submit (c : Command) (storeIt : bool) (w : World) : bool * World :=
  let '(done, w) := Command_Do c w in
  if done then
    let cp := command_processor w in
    (done,
     set_command_processor
       {| commands := if storeIt then commands cp ++ [c] else commands cp;
          redoCommands := [] |} w)
  else (done, w).

(** [CommandProcessor.ClearCommands()]. *)
Definition ClearCommands (w : World) : World :=
  set_command_processor {| commands := []; redoCommands := [] |} w.

(** The first of [base1], [base2], ... that is not in [names]; one of the
    first [length names + 1] candidates is free. *)
Fixpoint first_free (base : string) (names : list string) (i fuel : nat) : string :=
  match fuel with
  | O => base +:+ str i
  | S fuel' =>
      if str_in (base +:+ str i) names
      then first_free base names (S i) fuel'
      else base +:+ str i
  end.

(** Modelled from the spec: [CardModel.DeduplicateNameInCard(name)]
    ([uiCard.py], not part of the sources): given a proposed name and the
    names already used in the card, appends a numeric suffix and increments
    it until the name is unique; a name that is not taken is kept. *)
Definition DeduplicateNameInCard (card : oid) (proposed : string) (w : World)
  : string :=
  let names := map (name_of w) (children_of w card) in
  if str_in proposed names
  then first_free proposed names 1 (S (length names))
  else proposed.

(** [StackManager.AddUiViewsFromModels(models, canUndo=True)]. *)
Definition AddUiViewsFromModels (ms : list oid) (canUndo : bool) (w : World)
  : list oid * World :=
  let w :=
    fold_left
      (fun w m =>
         let card := model_of w (uiCard w) in
         if negb (py_in m (children_of w card))
         then upd_model m
                (set_name (DeduplicateNameInCard card (name_of w m) w)) w
         else w)
      ms w in
  let command := AddUiViewsCommand (cardIndex w) ms in
  let w :=
    if canUndo then snd (Submit command true w)
    else snd (Command_Do command w) in
  (py_last_n (length ms) (uiViews w), w).

(** [StackManager.CreateViews(cardModel)]; [UiCard.SetModel] points the
    card's [UiView] at the model. *)
Definition CreateViews (cardModel : oid) (w : World) : World :=
  let w := upd_ui (uiCard w) (set_model cardModel) w in
  let w := set_uiViews [] w in
  snd (AddUiViewsFromModels (children_of w cardModel) false w).

(** Modelled from the spec: [ViewModel.GetHandler(name)] ([uiView.py], not
    part of the sources) gives the script text bound to the event, and the
    test [if model.GetHandler(name)] holds when there is a non-empty one. *)
Definition has_handler (w : World) (m : oid) (event : string) : bool :=
  match models w !! m with
  | Some o =>
      match handlers o !! event with
      | Some script => negb (String.eqb script "")
      | None => false
      end
  | None => false
  end.

(** A call on [self.runner], if there is one. *)
Definition call_current_runner (c : RunnerCall) (w : World) : World :=
  match runner w with
  | Some r => call_runner r c w
  | None => w
  end.

Definition index_eqb (a b : option Z) : bool :=
  match a, b with
  | Some x, Some y => Z.eqb x y
  | None, None => true
  | _, _ => false
  end.

(** [StackManager.LoadCardAtIndex(index, reload=False)].  Repainting,
    [designer.UpdateCardList()] and [wx.GetApp().Yield()] belong to the
    window system and the designer window and are left out. *)
Definition LoadCardAtIndex (index : option Z) (reload : bool) : M World unit :=
  (cur <- gets cardIndex ;;
   when (negb (index_eqb index cur) || reload)
     (editing <- gets isEditing ;;
      match cur with
      | Some old =>
          when (negb editing && negb reload)
            (oldCardModel <-
               (fun w => lift_res (py_index (children_of w (stackModel w)) old) w) ;;
             modify (call_current_runner (RunHandler oldCardModel "OnHideCard")))
      | None => ret tt
      end ;;;
      modify (set_cardIndex index) ;;;
      modify ClearAllViews ;;;
      modify (set_lastFocusedTextField None) ;;;
      match index with
      | Some i =>
          cardModel <- (fun w => lift_res (StackModel.GetCardModel (stackModel w) i w) w) ;;
          modify (CreateViews cardModel) ;;;
          modify (fun w => SelectUiView (Some (uiCard w)) false w) ;;;
          has_runner <- gets (fun w => bool_decide (is_Some (runner w))) ;;
          when (negb editing && has_runner)
            (modify (call_current_runner (SetupForCard cardModel)) ;;;
             when (negb reload)
               (show <- gets (fun w => has_handler w (model_of w (uiCard w)) "OnShowCard") ;;
                when show
                  (modify (fun w => call_current_runner
                                      (RunHandler (model_of w (uiCard w)) "OnShowCard") w))) ;;;
             modify (set_noIdling true) ;;;
             modify (set_noIdling false))
      | None => ret tt
      end))%py.

(** [StackManager.SetStackModel(model)].  [model.SetStackView(self)] and
    [SetDirty] set back-references and the dirty flag, which no modelled
    method reads; sizing and the cursor are window-system state. *)
Definition SetStackModel (m : oid) : M World unit :=
  (modify ClearAllViews ;;;
   modify (set_stackModel m) ;;;
   modify (set_cardIndex None) ;;;
   LoadCardAtIndex (Some 0) false ;;;
   modify ClearCommands)%py.

(** A call [stackManager.SetStackModel(model, *more)].  The method is
    declared [def SetStackModel(self, model)]: called with any further
    positional argument, Python raises [TypeError] before the body
    runs. *)
Definition call_SetStackModel (m : oid) (more : list PyVal) : M World unit :=
  match more with
  | [] => SetStackModel m
  | _ :: _ => raise TypeError
  end.

(** [StackManager.RemoveUiViewByModel(viewModel)]: the first [UiView] of
    the card that shows [viewModel] is deselected, detached and removed.
    Destroying the native view (and the child views of a group) and the
    repaint are window-system state. *)
Definition RemoveUiViewByModel (viewModel : oid) : M World unit :=
  (found <- gets (fun w => find (fun ui => Nat.eqb (model_of w ui) viewModel)
                                (uiViews w)) ;;
   match found with
   | Some ui =>
       selected <- gets (fun w => py_in ui (selectedViews w)) ;;
       when selected (modify (SelectUiView (Some ui) true)) ;;;
       modify (fun w => upd_model (model_of w ui) (set_parent None) w) ;;;
       modify (fun w => set_uiViews (py_remove ui (uiViews w)) w) ;;;
       (fun w => RemoveChild (model_of w (uiCard w)) (model_of w ui) w)
   | None => ret tt
   end)%py.

End StackManager.

(* ===================================================================== *)
(** ** cardstock/viewer.py                                                *)
(* ===================================================================== *)

Module Viewer.

(** One entry of [stackStack]: the list
    [[runner, stackModel, filename, cardIndex]]. *)
Record Frame := MkFrame {
  f_runner : oid;
  f_stackModel : oid;
  f_filename : option string;
  f_cardIndex : option Z
}.


(** What [json.load] returns. *)
#[local] Unset Elimination Schemes.
Inductive JSON :=
| JNull
| JBool (b : bool)
| JInt (z : Z)
| JStr (s : string)
| JArr (items : list JSON)
| JObj (members : list (string * JSON)).
#[local] Set Elimination Schemes.

(** [if data:] *)
Definition truthy (d : JSON) : bool :=
  match d with
  | JNull => false
  | JBool b => b
  | JInt z => negb (Z.eqb z 0)
  | JStr s => negb (String.eqb s "")
  | JArr items => negb (Nat.eqb (length items) 0)
  | JObj members => negb (Nat.eqb (length members) 0)
  end.

(** What is found at a path, as [open(filename, 'r')] and [json.load] see
    it: something that cannot be opened or read as text, with the exception
    this raises ([NotADirectoryError] for a path that runs through a
    regular file, [IsADirectoryError] for a directory, [PermissionError],
    [UnicodeDecodeError] for bytes that are not text, ...); text that is
    not JSON; or the text of a JSON value. *)
Inductive FileContent :=
| Unreadable (e : Exn)
| NotJSON
| IsJSON (data : JSON).

(** What [GosubStack] hands over to the main thread with
    [@RunOnMainAsync]: the closures [func] of its two branches. *)
Inductive MainTask :=
| PushTask (data : JSON) (filename : string) (cardNumber : option Z)
           (ioValue : PyVal)
| PopTask (ioValue : PyVal).

(** The [ViewerFrame] with its [StackManager] (inside [world]), the calls
    waiting for the main thread and the file system: [files] maps a path
    to what [open] finds there, and has no entry for a path that [open]
    answers with [FileNotFoundError]. *)
Record Viewer := MkViewer {
  world : World;
  stackStack : list Frame;
  rootRunner : option oid;
  main_queue : list MainTask;
  files : gmap string FileContent
}.

Definition set_world (x : World) (v : Viewer) : Viewer :=
  {| world := x; stackStack := stackStack v; rootRunner := rootRunner v;
     main_queue := main_queue v; files := files v |}.
Definition set_stackStack (x : list Frame) (v : Viewer) : Viewer :=
  {| world := world v; stackStack := x; rootRunner := rootRunner v;
     main_queue := main_queue v; files := files v |}.
Definition set_main_queue (x : list MainTask) (v : Viewer) : Viewer :=
  {| world := world v; stackStack := stackStack v; rootRunner := rootRunner v;
     main_queue := x; files := files v |}.

(** A [StackManager] method run on [self.stackManager]. *)
Definition on_world {A} (c : M World A) : M Viewer A :=
  fun v => match c (world v) with
           | Ok (a, w) => Ok (a, set_world w v)
           | Raise e => Raise e
           end.

(** *** [os.path] (POSIX) *)

Definition is_slash (c : ascii) : bool := Ascii.eqb c "/".

Definition isabs (p : string) : bool :=
  match p with
  | String c _ => is_slash c
  | EmptyString => false
  end.

Fixpoint has_slash (p : string) : bool :=
  match p with
  | EmptyString => false
  | String c p' => is_slash c || has_slash p'
  end.

Fixpoint all_slash (p : string) : bool :=
  match p with
  | EmptyString => true
  | String c p' => is_slash c && all_slash p'
  end.

(** [p[:p.rfind('/') + 1]] *)
Fixpoint upto_last_slash (p : string) : string :=
  match p with
  | EmptyString => EmptyString
  | String c p' =>
      if has_slash p' then String c (upto_last_slash p')
      else if is_slash c then String c EmptyString
      else EmptyString
  end.

(** [p.rstrip('/')] *)
Fixpoint rstrip_slash (p : string) : string :=
  match p with
  | EmptyString => EmptyString
  | String c p' =>
      match rstrip_slash p' with
      | EmptyString => if is_slash c then EmptyString else String c EmptyString
      | r => String c r
      end
  end.

Definition dirname (p : string) : string :=
  let head := upto_last_slash p in
  if all_slash head then head else rstrip_slash head.

Fixpoint ends_with_slash (p : string) : bool :=
  match p with
  | EmptyString => false
  | String c EmptyString => is_slash c
  | String _ p' => ends_with_slash p'
  end.

Definition join (a b : string) : string :=
  if isabs b then b
  else if String.eqb a "" || ends_with_slash a then a +:+ b
  else a +:+ "/" +:+ b.

(** [with open(filename, 'r') as f: data = json.load(f)]: a path without
    an entry raises [FileNotFoundError], what cannot be opened or read
    raises the exception of that failure, text that is not JSON raises
    [json.JSONDecodeError]. *)
Definition open_and_load (filename : string) (v : Viewer) : Res JSON :=
  match files v !! filename with
  | None => Raise FileNotFoundError
  | Some (Unreadable e) => Raise e
  | Some NotJSON => Raise JSONDecodeError
  | Some (IsJSON data) => Ok data
  end.

(** [try: body except (TypeError, FileNotFoundError): return False] *)
Definition except_TypeError_FileNotFoundError
           (body : M Viewer PyVal) : M Viewer PyVal :=
  fun v => match body v with
           | Raise TypeError | Raise FileNotFoundError => Ok (PyBool false, v)
           | r => r
           end.

(** [ViewerFrame.GosubStack(filename, cardNumber, ioValue)], entered on a
    runner thread.  A function that ends without [return] gives [None]. *)
Definition GosubStack (filename : option string) (cardNumber : option Z)
           (ioValue : PyVal) : M Viewer PyVal :=
  match filename with
  | Some (String c s as fname) =>
      (* push *)
      except_TypeError_FileNotFoundError
        (fname <-
           (if negb (isabs fname)
            then
              own <- gets (fun v => Obj.filename (world v)) ;;
              match own with
              | Some own => ret (join (dirname own) fname)
              | None => raise TypeError
              end
            else ret fname) ;;
         data <- (fun v => lift_res (open_and_load fname v) v) ;;
         if truthy data
         then
           modify (fun v => set_main_queue
                              (main_queue v ++ [PushTask data fname cardNumber ioValue]) v) ;;;
           ret (PyBool true)
         else ret PyNone)%py
  | _ =>
      (* pop *)
      (n <- gets (fun v => length (stackStack v)) ;;
       if (1 <? n)%nat
       then
         modify (fun v => set_main_queue (main_queue v ++ [PopTask ioValue]) v) ;;;
         ret (PyBool true)
       else ret (PyBool false))%py
  end.

(** [self.stackManager.runner.<method>()]: an attribute access on [None]
    raises [AttributeError]. *)
Definition call_manager_runner (c : RunnerCall) : M Viewer unit :=
  (r <- gets (fun v => runner (world v)) ;;
   match r with
   | Some r => modify (fun v => set_world (call_runner r c (world v)) v)
   | None => raise AttributeError
   end)%py.


(** [ViewerFrame.RunViewer(runner, stackModel, filename, cardIndex,
    ioValue, isGoingBack)] of the stand-alone viewer ([self.designer] is
    [None]); menus and window sizes are window-system state.

    Its first statement is [self.stackManager.SetStackModel(stackModel,
    True)]: two arguments for a method that takes one.
    [stackModel.RunSetup(runner)] is recorded on the runner.  The chained
    comparison [0 <= cardIndex < len(...)] raises [TypeError] on [None]. *)
Definition RunViewer (rnr : oid) (sModel : oid) (fname : option string)
           (cardIdx : option Z) (ioValue : PyVal) (isGoingBack : bool)
  : M Viewer unit :=
  (on_world (StackManager.call_SetStackModel sModel [PyBool true]) ;;;
   modify (fun v => set_world (set_filename fname (world v)) v) ;;;
   when (negb isGoingBack)
     (modify (fun v => set_world
                         (upd_runner rnr (set_stackSetupValue ioValue) (world v)) v)) ;;;
   modify (fun v => set_world (set_runner (Some rnr) (world v)) v) ;;;
   when (negb isGoingBack)
     (modify (fun v => set_world
                         (call_runner rnr (RunSetup (stackModel (world v))) (world v)) v)) ;;;
   on_world (StackManager.LoadCardAtIndex None false) ;;;
   n <- gets (fun v => Z.of_nat (length (children_of (world v) (stackModel (world v))))) ;;
   match cardIdx with
   | None => raise TypeError
   | Some ci =>
       let ci := if negb ((0 <=? ci) && (ci <? n)) then 0 else ci in
       on_world (StackManager.LoadCardAtIndex (Some ci) false) ;;;
       when isGoingBack
         (modify (fun v => set_world
                             (call_runner rnr (DoReturnFromStack ioValue) (world v)) v))
   end)%py.



(** Modelled from the spec: tearing a stack down ([ViewModel.SetDown],
    run by the [onFinished] hook that [PopStack] installs and
    [Runner.CleanupFromRun] triggers; [uiView.py] and [runner.py] are not
    part of the sources) marks the model as set down. *)
Definition SetDown (m : oid) : World -> World :=
  upd_model m (set_didSetDown true).

(** Modelled from the spec: [ViewModel.SetBackUp] ([uiView.py], not part of
    the sources) makes a stack that was set down usable again when its
    frame is reactivated. *)
Definition SetBackUp (m : oid) : World -> World :=
  upd_model m (set_didSetDown false).

(** [ViewerFrame.PopStack(returnValue, isShuttingDown=False)].  When
    shutting down it calls [self.stackManager.SetStackModel(parts[1],
    True)] itself. *)
Definition PopStack (returnValue : PyVal) (isShuttingDown : bool)
  : M Viewer unit :=
  (n <- gets (fun v => length (stackStack v)) ;;
   when (1 <? n)%nat
     (sModel <- gets (fun v => stackModel (world v)) ;;
      call_manager_runner CleanupFromRun ;;;
      modify (fun v => set_world (SetDown sModel (world v)) v) ;;;
      modify (fun v => set_stackStack (removelast (stackStack v)) v) ;;;
      top <- gets (fun v => last (stackStack v)) ;;
      match top with
      | Some parts =>
          if negb isShuttingDown
          then
            modify (fun v => set_world (SetBackUp (f_stackModel parts) (world v)) v) ;;;
            RunViewer (f_runner parts) (f_stackModel parts) (f_filename parts)
              (f_cardIndex parts) returnValue true
          else
            modify (fun v => set_world (set_runner (Some (f_runner parts)) (world v)) v) ;;;
            on_world (StackManager.call_SetStackModel (f_stackModel parts)
                        [PyBool true])
      | None => raise IndexError
      end))%py.

End Viewer.

(* ===================================================================== *)
(** ** A specification of path resolution, and sample documents           *)
(* ===================================================================== *)

(** [c] is the first child of [m] whose name is [p]. *)
Definition first_child_named (w : World) (m : oid) (p : string) (c : oid) : Prop :=
  exists before after,
    children_of w m = before ++ c :: after /\
    name_of w c = p /\
    Forall (fun x => name_of w x <> p) before.

(** Path resolution as the specification words it: a sequence of sibling
    names is followed from the root, one level of children per name. *)
Inductive resolves (w : World) : oid -> list string -> oid -> Prop :=
| resolves_here m : resolves w m [] m
| resolves_step m p c parts r :
    first_child_named w m p c ->
    resolves w c parts r ->
    resolves w m (p :: parts) r.

Module Sample.

Definition mk (ty nm : string) (hs : list (string * string))
           (par : option oid) (kids : list oid) : ViewModel :=
  {| type := ty; name := nm; handlers := list_to_map hs; parent := par;
     childModels := kids; didSetDown := false |}.

(** A stack of three cards: [card_1] holds a button, [card_2] a button
    and a field and has an [OnShowCard] handler, [card_3] is empty. *)
Definition doc3_models : gmap oid ViewModel :=
  list_to_map
    [ (0, mk "stack" "stack" [] None [1; 2; 3]);
      (1, mk "card" "card_1" [] (Some 0) [4]);
      (2, mk "card" "card_2" [("OnShowCard", "beep()")] (Some 0) [5; 6]);
      (3, mk "card" "card_3" [] (Some 0) []);
      (4, mk "button" "button1" [] (Some 1) []);
      (5, mk "button" "button1" [] (Some 2) []);
      (6, mk "textfield" "field1" [] (Some 2) []) ]%nat.

(** The stack above, running in the viewer on its first card. *)
Definition doc3 : World :=
  {| models := doc3_models;
     uis := list_to_map
              [ (10, {| model := 1; ui_parent := None; isSelected := false |});
                (11, {| model := 4; ui_parent := Some 10; isSelected := false |}) ]%nat;
     runners := {[ 20%nat := {| stackSetupValue := PyNone; calls := [] |} ]};
     next_oid := 100%nat;
     isEditing := false;
     runner := Some 20%nat;
     filename := Some "/stacks/main.cds";
     stackModel := 0%nat;
     selectedViews := [];
     uiViews := [11%nat];
     cardIndex := Some 0;
     uiCard := 10%nat;
     lastFocusedTextField := None;
     noIdling := false;
     command_processor := {| commands := []; redoCommands := [] |} |}.

(** The same stack open in the designer: editing, no runner. *)
Definition doc3_editing : World :=
  set_runner None (set_isEditing true doc3).

(** The same stack after it has been torn down. *)
Definition doc3_down : World := Viewer.SetDown 0%nat doc3.

(** A viewer running [doc3] as its root stack, next to a file that is
    not JSON and a file that holds a JSON document. *)
Definition viewer1 : Viewer.Viewer :=
  {| Viewer.world := doc3;
     Viewer.stackStack :=
       [ {| Viewer.f_runner := 20%nat; Viewer.f_stackModel := 0%nat;
            Viewer.f_filename := Some "/stacks/main.cds";
            Viewer.f_cardIndex := Some 0 |} ];
     Viewer.rootRunner := Some 20%nat;
     Viewer.main_queue := [];
     Viewer.files :=
       {[ "/stacks/bad.cds" := Viewer.NotJSON;
          "/stacks/sub.cds" :=
            Viewer.IsJSON (Viewer.JObj [("CardStock_stack_format", Viewer.JInt 1)]) ]} |}.





(** [doc3] in the designer with the button of its first card selected,
    and the same after [SetEditing(False)]. *)
Definition doc3_selected : World :=
  StackManager.SelectUiView (Some 11%nat) false doc3_editing.

Definition doc3_left_editing : World :=
  StackManager.SetEditing false doc3_selected.

(** [doc3] in the designer with a new button, not yet on any card, in the
    heap. *)
Definition doc3_new_button : World :=
  set_models (<[7%nat := mk "button" "button1" [] None []]> doc3_models)
    doc3_editing.

(** [doc3] in editing mode with a runner still attached. *)
Definition doc3_editing_with_runner : World := set_isEditing true doc3.

End Sample.

Import StackModel StackManager Viewer.

(* ===================================================================== *)
(** ** The two halves of [LoadCardAtIndex]                                *)
(* ===================================================================== *)

(** The body of [LoadCardAtIndex] is a farewell to the card that was
    showing followed by the loading of the new one.  The two halves are
    named here so that they can be reasoned about one at a time;
    [LoadCardAtIndex_steps] below shows that they are the body, verbatim. *)

Definition hide_old_card (cur : option Z) (editing reload : bool)
  : M World unit :=
  match cur with
  | Some old =>
      when (negb editing && negb reload)
        (oldCardModel <-
           (fun w => lift_res (py_index (children_of w (stackModel w)) old) w) ;;
         modify (StackManager.call_current_runner
                   (RunHandler oldCardModel "OnHideCard")))
  | None => ret tt
  end%py.

Definition show_new_card (index : option Z) (editing reload : bool)
  : M World unit :=
  (modify (set_cardIndex index) ;;;
   modify StackManager.ClearAllViews ;;;
   modify (set_lastFocusedTextField None) ;;;
   match index with
   | Some i =>
       cardModel <-
         (fun w => lift_res (StackModel.GetCardModel (stackModel w) i w) w) ;;
       modify (StackManager.CreateViews cardModel) ;;;
       modify (fun w => StackManager.SelectUiView (Some (uiCard w)) false w) ;;;
       has_runner <- gets (fun w => bool_decide (is_Some (runner w))) ;;
       when (negb editing && has_runner)
         (modify (StackManager.call_current_runner (SetupForCard cardModel)) ;;;
          when (negb reload)
            (show <- gets (fun w => StackManager.has_handler w
                                      (model_of w (uiCard w)) "OnShowCard") ;;
             when show
               (modify (fun w => StackManager.call_current_runner
                                   (RunHandler (model_of w (uiCard w)) "OnShowCard") w))) ;;;
          modify (set_noIdling true) ;;;
          modify (set_noIdling false))
   | None => ret tt
   end)%py.

(** The calls made on runner [r], in order. *)
Definition made_calls (r : oid) (cs : list RunnerCall) (w : World) : World :=
  fold_left (fun a c => call_runner r c a) cs w.

(** The calls a running stack's runner receives when [LoadCardAtIndex]
    loads the card [newCard]: [OnHideCard] for the card that was showing
    (none on a forced reload, none when no card was showing), then the
    set-up of the new card and [OnShowCard] when the new card has such a
    handler (none on a forced reload). *)
Definition hide_calls (w : World) (reload : bool) : list RunnerCall :=
  match cardIndex w with
  | Some old =>
      if reload then []
      else match py_index (children_of w (stackModel w)) old with
           | Ok oldCard => [RunHandler oldCard "OnHideCard"]
           | Raise _ => []
           end
  | None => []
  end.

Definition show_calls (w : World) (reload : bool) (newCard : oid)
  : list RunnerCall :=
  SetupForCard newCard ::
  (if negb reload && StackManager.has_handler w newCard "OnShowCard"
   then [RunHandler newCard "OnShowCard"] else []).

Definition lifecycle_calls (w : World) (reload : bool) (newCard : oid)
  : list RunnerCall :=
  hide_calls w reload ++ show_calls w reload newCard.

(* ===================================================================== *)
(** ** Invariants and relations used in the statements                    *)
(* ===================================================================== *)

(** The attributes of the manager that selecting, clearing and adding views
    never assign. *)
Definition same_control (w w' : World) : Prop :=
  isEditing w' = isEditing w /\ runner w' = runner w /\
  runners w' = runners w /\ stackModel w' = stackModel w /\
  uiCard w' = uiCard w /\ Obj.filename w' = Obj.filename w /\
  cardIndex w' = cardIndex w /\ command_processor w' = command_processor w.

(** Two heaps hold the same document when their models differ at most in
    the parent back-references. *)
Definition same_tree (w w' : World) : Prop :=
  forall m, set_parent None <$> models w' !! m = set_parent None <$> models w !! m.

(** The [UiView]s that exist in [w] still show the same models in [w'],
    and identities are only ever added. *)
Definition same_shown (w w' : World) : Prop :=
  (next_oid w <= next_oid w')%nat /\
  forall u, (u < next_oid w)%nat ->
            model <$> uis w' !! u = model <$> uis w !! u.

(** Nothing but selection flags, view lists and parent references has
    changed. *)
Definition steady (w w' : World) : Prop :=
  same_control w w' /\ same_shown w w' /\ same_tree w w'.

(** The card's own [UiView] exists and is older than the next identity. *)
Definition manager_ok (w : World) : Prop :=
  is_Some (uis w !! uiCard w) /\ (uiCard w < next_oid w)%nat.

(** The selection is a set of views that sit directly on the card: no
    view twice, no child of a group, not the card itself. *)
Definition selection_on_card (w : World) : Prop :=
  NoDup (selectedViews w) /\
  Forall (fun s => parent_is_group w s = false /\
                   (ui_type w s =? "card")%string = false)
         (selectedViews w).

(** The card showing, if any, is a card of the stack. *)
Definition valid_card (w : World) : Prop :=
  forall old, cardIndex w = Some old ->
              exists c, py_index (children_of w (stackModel w)) old = Ok c.

(* ===================================================================== *)
(** ** More of [stackManager.py]                                          *)
(* ===================================================================== *)

Module StackManagerEdit.

(** [StackManager.SelectAll()]. *)
Definition SelectAll (w : World) : World :=
  let w := SelectUiView None false w in
  fold_left (fun w ui => SelectUiView (Some ui) true w) (uiViews w) w.

End StackManagerEdit.
Import StackManagerEdit.

(** The selection list and the selection flags agree: no view is listed
    twice, and a view carries the flag exactly when it is listed. *)
Definition selection_consistent (w : World) : Prop :=
  NoDup (selectedViews w) /\
  forall u o, uis w !! u = Some o ->
              (isSelected o = true <-> u ∈ selectedViews w).

(** The scope of a selection: a view that sits in a group is only ever
    selected alone, and views of type card are never selected together
    with views of another type. *)
Definition selection_scoped (w : World) : Prop :=
  (forall s, s ∈ selectedViews w -> parent_is_group w s = true ->
             selectedViews w = [s]) /\
  (forall s t, s ∈ selectedViews w -> t ∈ selectedViews w ->
               (ui_type w s =? "card")%string = (ui_type w t =? "card")%string).

(** An executable check of [selection_consistent] for a heap that is
    given explicitly. *)
Definition selection_consistentb (w : World) : bool :=
  bool_decide (NoDup (selectedViews w)) &&
  forallb (fun uo => Bool.eqb (isSelected (snd uo)) (py_in (fst uo) (selectedViews w)))
          (map_to_list (uis w)).

(* ===================================================================== *)
(** ** More sample states                                                 *)
(* ===================================================================== *)

Module Sample2.

(** [Sample.doc3] in the designer on its second card, whose button (view
    100) has been selected; its field is view 101. *)
Definition doc3_card2_selected : World :=
  match StackManager.LoadCardAtIndex (Some 1) false Sample.doc3_editing with
  | Ok (_, w) => StackManager.SelectUiView (Some 100%nat) false w
  | Raise _ => Sample.doc3_editing
  end.

(** [Sample.viewer1] next to a path that runs through a regular file and
    a file with an empty JSON object. *)
Definition viewer1_more_files : Viewer.Viewer :=
  {| Viewer.world := Viewer.world Sample.viewer1;
     Viewer.stackStack := Viewer.stackStack Sample.viewer1;
     Viewer.rootRunner := Viewer.rootRunner Sample.viewer1;
     Viewer.main_queue := Viewer.main_queue Sample.viewer1;
     Viewer.files :=
       <["/stacks/main.cds/sub.cds" := Viewer.Unreadable NotADirectoryError]>
         (<["/stacks/empty.cds" := Viewer.IsJSON (Viewer.JObj [])]>
            (Viewer.files Sample.viewer1)) |}.

End Sample2.

(* ===================================================================== *)
(** * Properties                                                          *)
(* ===================================================================== *)

(** ** Python built-ins *)

Lemma py_index_in_range {A} (l : list A) (i : Z) :
  0 <= i < Z.of_nat (length l) ->
  exists a, nth_error l (Z.to_nat i) = Some a /\ py_index l i = Ok a.
Proof.
  intros Hi. unfold py_index.
  destruct (Z.ltb_spec i 0) as [?|_]; [lia|].
  destruct (Z.leb_spec 0 i) as [_|?]; [|lia].
  destruct (Z.ltb_spec i (Z.of_nat (length l))) as [_|?]; [|lia].
  simpl. destruct (nth_error l (Z.to_nat i)) as [a|] eqn:E.
  - exists a. split; reflexivity.
  - apply nth_error_None in E. lia.
Qed.

Lemma py_in_elem_of (x : oid) (l : list oid) : py_in x l = true <-> x ∈ l.
Proof.
  unfold py_in. rewrite existsb_exists, list_elem_of_In. split.
  - intros (y & Hy & Heq). apply Nat.eqb_eq in Heq. subst. exact Hy.
  - intros H. exists x. split; [exact H | apply Nat.eqb_refl].
Qed.

Lemma py_remove_not_elem_of (x : oid) (l : list oid) :
  NoDup l -> x ∉ py_remove x l.
Proof.
  induction 1 as [|y l Hy Hnd IH]; simpl; [apply not_elem_of_nil|].
  destruct (Nat.eqb_spec x y) as [->|Hne]; [exact Hy|].
  rewrite elem_of_cons. intros [H|H]; [congruence | exact (IH H)].
Qed.

Lemma py_remove_elem_of_other (x y : oid) (l : list oid) :
  x <> y -> y ∈ l -> y ∈ py_remove x l.
Proof.
  intros Hne. induction l as [|z l IH]; simpl; [tauto|].
  destruct (Nat.eqb_spec x z) as [->|Hxz]; rewrite !elem_of_cons.
  - intros [H|H]; [congruence | exact H].
  - intros [H|H]; [left; exact H | right; exact (IH H)].
Qed.

(** ** Name deduplication ([page.py]) *)

Section NextAvailableName.

Variable base : string.

(** One step of the loop: a name equal to the candidate moves on to the
    next candidate, any other name is skipped; either way the name is
    gone from the iterator. *)
Lemma GetNextAvailableName_from_eq (names : list string) (i : nat) :
  Page.GetNextAvailableName_from base i names =
  match names with
  | [] => base +:+ str i
  | n :: rest =>
      if String.eqb n (base +:+ str i)
      then Page.GetNextAvailableName_from base (S i) rest
      else Page.GetNextAvailableName_from base i rest
  end.
Proof.
  destruct names as [|n rest]; [reflexivity|]. simpl.
  destruct (String.eqb n (base +:+ str i)); [reflexivity|].
  destruct rest; reflexivity.
Qed.

(** The name returned is always [base] followed by a number, and the
    number is at most one more than the number of names looked at. *)
Lemma GetNextAvailableName_from_suffix (names : list string) (i : nat) :
  exists k, (i <= k <= i + length names)%nat /\
            Page.GetNextAvailableName_from base i names = base +:+ str k.
Proof.
  revert i. induction names as [|n rest IH]; intros i;
    rewrite GetNextAvailableName_from_eq.
  - exists i. split; [simpl; lia | reflexivity].
  - destruct (String.eqb n (base +:+ str i)).
    + destruct (IH (S i)) as (k & Hk & ->).
      exists k. split; [simpl; lia | reflexivity].
    + destruct (IH i) as (k & Hk & ->).
      exists k. split; [simpl; lia | reflexivity].
Qed.

End NextAvailableName.

(** The example of the specification: ["card"] against
    [["card"; "card1"]] gives ["card2"]. *)
Example GetNextAvailableName_card :
  Page.GetNextAvailableName "card" ["card"; "card1"] = "card2".
Proof. reflexivity. Qed.

(** C7. [GetNextAvailableName] is meant to return a name that no existing
    view has, but it tests the candidates against a one-shot iterator:
    with the existing names ["card2"], ["card1"] (in this order) the test for
    ["card1"] uses the iterator up, the test for ["card2"] then finds
    nothing, and ["card2"], which is taken, is returned. *)
Theorem GetNextAvailableName_returns_taken_name :
  Page.GetNextAvailableName "card" ["card2"; "card1"] = "card2" /\
  In (Page.GetNextAvailableName "card" ["card2"; "card1"]) ["card2"; "card1"].
Proof. split; [reflexivity | left; reflexivity]. Qed.

(** ** Path resolution ([StackModel.GetModelFromPath]) *)

Section PathResolution.

Variable w : World.

Lemma find_first_named (p : string) (l : list oid) (c : oid) :
  find (fun x => String.eqb (name_of w x) p) l = Some c <->
  exists before after,
    l = before ++ c :: after /\ name_of w c = p /\
    Forall (fun x => name_of w x <> p) before.
Proof.
  induction l as [|x l IH]; simpl.
  - split; [discriminate|].
    intros (before & after & H & _). destruct before; discriminate.
  - destruct (String.eqb_spec (name_of w x) p) as [Heq|Hne].
    + split.
      * intros [= ->]. exists [], l. repeat split; [exact Heq | constructor].
      * intros (before & after & H & Hc & Hb).
        destruct before as [|y before]; simpl in H.
        -- congruence.
        -- injection H as -> _. inversion Hb; subst. contradiction.
    + rewrite IH. split.
      * intros (before & after & -> & Hc & Hb).
        exists (x :: before), after. repeat split; [exact Hc|].
        constructor; assumption.
      * intros (before & after & H & Hc & Hb).
        destruct before as [|y before]; simpl in H.
        -- injection H as -> _. contradiction.
        -- injection H as -> ->. inversion Hb; subst.
           exists before, after. repeat split; assumption.
Qed.

Lemma child_named_first (m : oid) (p : string) (c : oid) :
  child_named w m p = Some c <-> first_child_named w m p c.
Proof. apply find_first_named. Qed.

Lemma GetModelFromPath_parts_resolves (parts : list string) (m r : oid) :
  GetModelFromPath_parts w m parts = Some r <-> resolves w m parts r.
Proof.
  revert m. induction parts as [|p parts IH]; intros m; simpl.
  - split.
    + intros [= ->]. constructor.
    + inversion 1; reflexivity.
  - split.
    + destruct (child_named w m p) as [c|] eqn:E; [|discriminate].
      intros H. econstructor.
      * apply child_named_first, E.
      * apply IH, H.
    + inversion 1 as [|? ? c ? ? Hc Hr]; subst.
      apply child_named_first in Hc. rewrite Hc. apply IH, Hr.
Qed.

End PathResolution.

(** C8 (as the code has it). [GetModelFromPath] follows the dot-separated
    parts of the path as names from the root, one level of children per part,
    and returns the node reached, or [None] when some part names no child.
    Cards are addressed by name as well, not by index: in the three-card
    document, ["card_2.button1"] is the button inside the card at index 1,
    while ["1.button1"] and ["5.x"] are not found. *)
Theorem GetModelFromPath_follows_names :
  (forall w self path r,
      GetModelFromPath self path w = Some r <->
      resolves w self (split "." path) r) /\
  (forall w self path,
      GetModelFromPath self path w = None <->
      forall r, ~ resolves w self (split "." path) r) /\
  GetModelFromPath 0%nat "card_2.button1" Sample.doc3 = Some 5%nat /\
  nth_error (children_of Sample.doc3 0%nat) 1 = Some 2%nat /\
  In 5%nat (children_of Sample.doc3 2%nat) /\
  name_of Sample.doc3 5%nat = "button1" /\
  GetModelFromPath 0%nat "1.button1" Sample.doc3 = None /\
  GetModelFromPath 0%nat "5.x" Sample.doc3 = None.
Proof.
  split; [|split].
  - intros. apply GetModelFromPath_parts_resolves.
  - intros w self path. unfold GetModelFromPath. split.
    + intros H r Hr. apply GetModelFromPath_parts_resolves in Hr. congruence.
    + intros H. destruct (GetModelFromPath_parts w self (split "." path)) as [r|] eqn:E;
        [|reflexivity].
      apply GetModelFromPath_parts_resolves in E. destruct (H r E).
  - repeat split; try reflexivity. vm_compute. tauto.
Qed.

(** The sentence of the specification read with a card index: on the
    three-card document, ["1.button1"] does not give the button inside the
    card at index 1. *)
Lemma GetModelFromPath_index_not_found :
  nth_error (children_of Sample.doc3 0%nat) 1 = Some 2%nat /\
  child_named Sample.doc3 2%nat "button1" = Some 5%nat /\
  GetModelFromPath 0%nat "1.button1" Sample.doc3 <> Some 5%nat.
Proof. repeat split; try reflexivity. discriminate. Qed.

(** ** The card accessor of the [Stack] proxy *)

(** C10 (as the code has it). On a stack that has been set down
    [card_with_number] returns [None] whatever the argument.  Otherwise a
    non-int argument raises [TypeError], an int outside
    [1 .. number of cards] raises [ValueError], and an int [n] inside gives
    the proxy of the card at index [n-1]; nothing is changed. *)
Theorem card_with_number_checked (w : World) (self : oid) (o : ViewModel)
        (number : PyVal) :
  models w !! self = Some o ->
  (didSetDown o = true ->
     card_with_number self number w = Ok (PyNone, w)) /\
  (didSetDown o = false ->
     (as_int number = None ->
        card_with_number self number w = Raise TypeError) /\
     (forall n, as_int number = Some n ->
        n < 1 \/ n > Z.of_nat (length (childModels o)) ->
        card_with_number self number w = Raise ValueError) /\
     (forall n, as_int number = Some n ->
        1 <= n <= Z.of_nat (length (childModels o)) ->
        exists card,
          nth_error (childModels o) (Z.to_nat (n - 1)) = Some card /\
          card_with_number self number w = Ok (PyProxy card, w))).
Proof.
  intros Hself.
  assert (Hkids : children_of w self = childModels o)
    by (unfold children_of; rewrite Hself; reflexivity).
  unfold card_with_number, bind, gets, raise, ret, lift_res.
  rewrite Hself. simpl.
  split; intros Hdown; rewrite Hdown; [reflexivity|].
  split; [|split].
  - intros ->. reflexivity.
  - intros n -> Hn. rewrite Hkids.
    assert ((n <? 1) || (n >? Z.of_nat (length (childModels o))) = true) as ->
      by (apply orb_true_iff; rewrite Z.ltb_lt, Z.gtb_gt; lia).
    reflexivity.
  - intros n -> Hn. rewrite !Hkids.
    assert ((n <? 1) || (n >? Z.of_nat (length (childModels o))) = false) as ->
      by (apply orb_false_iff; rewrite Z.ltb_ge; split; [lia|];
          destruct (Z.gtb_spec n (Z.of_nat (length (childModels o)))); [lia|reflexivity]).
    rewrite Hkids.
    destruct (py_index_in_range (childModels o) (n - 1)) as (card & Hc & ->);
      [lia|].
    exists card. split; [exact Hc | reflexivity].
Qed.

Lemma card_with_number_checked_witness :
  card_with_number 0%nat (PyInt 2) Sample.doc3 = Ok (PyProxy 2%nat, Sample.doc3) /\
  card_with_number 0%nat (PyStr "two") Sample.doc3 = Raise TypeError /\
  card_with_number 0%nat (PyInt 4) Sample.doc3 = Raise ValueError.
Proof.
  assert (H0 : models Sample.doc3 !! 0%nat
               = Some (Sample.mk "stack" "stack" [] None [1; 2; 3]%nat))
    by (vm_compute; reflexivity).
  split; [|split].
  - destruct (card_with_number_checked Sample.doc3 0%nat _ (PyInt 2) H0)
      as [_ H]. destruct (H eq_refl) as (_ & _ & Hin).
    destruct (Hin 2 eq_refl) as (card & Hc & ->); [simpl; lia|].
    simpl in Hc. injection Hc as <-. reflexivity.
  - destruct (card_with_number_checked Sample.doc3 0%nat _ (PyStr "two") H0)
      as [_ H]. destruct (H eq_refl) as (Hty & _). apply Hty. reflexivity.
  - destruct (card_with_number_checked Sample.doc3 0%nat _ (PyInt 4) H0)
      as [_ H]. destruct (H eq_refl) as (_ & Hout & _).
    apply (Hout 4); [reflexivity | simpl; lia].
Defined.

(** The sentence of the specification fails on a stack that has been set
    down: a non-int argument is answered with [None], not with
    [TypeError]. *)
Lemma card_with_number_set_down_no_TypeError :
  as_int (PyStr "two") = None /\
  card_with_number 0%nat (PyStr "two") Sample.doc3_down
    = Ok (PyNone, Sample.doc3_down) /\
  card_with_number 0%nat (PyStr "two") Sample.doc3_down <> Raise TypeError.
Proof. repeat split; try reflexivity. discriminate. Qed.

(** ** Call and return of nested stacks: the failing cases *)

(** When [open] finds nothing at the target path, [GosubStack] answers
    [False] and changes nothing. *)
Lemma GosubStack_missing_file (v : Viewer) (own fname : string)
      (cardNumber : option Z) (ioValue : PyVal) :
  fname <> "" ->
  Obj.filename (world v) = Some own ->
  files v !! (if isabs fname then fname else join (dirname own) fname) = None ->
  GosubStack (Some fname) cardNumber ioValue v = Ok (PyBool false, v).
Proof.
  intros Hne Hown Hfile. destruct fname as [|c s]; [congruence|].
  unfold GosubStack, except_TypeError_FileNotFoundError, bind, gets, ret,
    lift_res, open_and_load, raise.
  destruct (isabs (String c s)); simpl.
  - rewrite Hfile. reflexivity.
  - rewrite Hown. simpl. rewrite Hfile. reflexivity.
Qed.

(** C2. A [Call] whose target exists but is not JSON does not answer with a
    failure signal: [json.load] raises [JSONDecodeError], which the
    [except (TypeError, FileNotFoundError)] clause of [GosubStack] lets
    through to the calling script.  (A missing target is answered with
    [False]; in both cases nothing is pushed or changed.) *)
Theorem GosubStack_unparsable_file_raises :
  files Sample.viewer1 !! "/stacks/bad.cds" = Some NotJSON /\
  GosubStack (Some "bad.cds") (Some 0) (PyInt 42) Sample.viewer1
    = Raise JSONDecodeError /\
  GosubStack (Some "missing.cds") (Some 0) (PyInt 42) Sample.viewer1
    = Ok (PyBool false, Sample.viewer1).
Proof. repeat split; vm_compute; reflexivity. Qed.

(** C3. With exactly one frame on the call stack, [Return] (that is
    [GosubStack] without a file name, and [PopStack] itself) reports failure
    and leaves the whole state as it was: no frame is popped, and the
    document, the card index and the runners are unchanged. *)
Theorem Return_from_root_fails (v : Viewer) (f : Frame) (cardNumber : option Z)
        (ioValue : PyVal) (isShuttingDown : bool) :
  stackStack v = [f] ->
  GosubStack None cardNumber ioValue v = Ok (PyBool false, v) /\
  GosubStack (Some "") cardNumber ioValue v = Ok (PyBool false, v) /\
  PopStack ioValue isShuttingDown v = Ok (tt, v).
Proof.
  intros Hone.
  unfold GosubStack, PopStack, bind, gets, when, ret.
  rewrite Hone. simpl. repeat split; reflexivity.
Qed.

Lemma Return_from_root_fails_witness :
  GosubStack None (Some (-1)) (PyInt 7) Sample.viewer1
    = Ok (PyBool false, Sample.viewer1) /\
  GosubStack (Some "") (Some (-1)) (PyInt 7) Sample.viewer1
    = Ok (PyBool false, Sample.viewer1) /\
  PopStack (PyInt 7) false Sample.viewer1 = Ok (tt, Sample.viewer1).
Proof.
  exact (Return_from_root_fails Sample.viewer1 _ (Some (-1)) (PyInt 7) false
           eq_refl).
Defined.

(** ** What the view-building methods leave alone *)

Lemma fold_left_invariant {A B} (P : A -> Prop) (f : A -> B -> A)
      (l : list B) (a : A) :
  P a -> (forall a b, P a -> P (f a b)) -> P (fold_left f l a).
Proof.
  intros Ha Hstep. revert a Ha.
  induction l as [|b l IH]; intros a Ha; simpl; [exact Ha|].
  apply IH, Hstep, Ha.
Qed.

Lemma same_control_refl (w : World) : same_control w w.
Proof. repeat split. Qed.

Lemma same_control_trans (w1 w2 w3 : World) :
  same_control w1 w2 -> same_control w2 w3 -> same_control w1 w3.
Proof.
  unfold same_control. intros H12 H23.
  destruct H12 as (?&?&?&?&?&?&?&?), H23 as (?&?&?&?&?&?&?&?).
  repeat split; congruence.
Qed.

Lemma fold_left_same_control {B} (f : World -> B -> World) (l : list B)
      (w : World) :
  (forall a b, same_control a (f a b)) -> same_control w (fold_left f l w).
Proof.
  intros Hstep.
  apply (fold_left_invariant (same_control w)); [apply same_control_refl|].
  intros a b Ha. eapply same_control_trans; [exact Ha | apply Hstep].
Qed.

Lemma SelectUiView_control (uiView : option oid) (extend : bool) (w : World) :
  same_control w (SelectUiView uiView extend w).
Proof.
  unfold SelectUiView. destruct (isEditing w); [|apply same_control_refl].
  cbv zeta. generalize (effective_extend uiView extend w). intros e.
  match goal with
  | |- same_control w (match uiView with Some _ => _ | None => ?X end) =>
      assert (H0 : same_control w X); [|revert H0; generalize X; intros w0 H0]
  end.
  - destruct (negb (length (selectedViews w) =? 0)%nat && negb e);
      [|apply same_control_refl].
    match goal with
    | |- same_control w (set_selectedViews [] ?F) =>
        apply (same_control_trans w F);
        [apply fold_left_same_control; intros; repeat split | repeat split]
    end.
  - destruct uiView as [u|]; [|exact H0].
    eapply same_control_trans; [exact H0|].
    destruct (e && py_in u (selectedViews w0)); repeat split.
Qed.

Lemma ClearAllViews_control (w : World) : same_control w (ClearAllViews w).
Proof.
  unfold ClearAllViews.
  eapply same_control_trans; [apply SelectUiView_control|].
  apply fold_left_same_control. intros a b.
  destruct (negb (ui_type a b =? "card")%string); repeat split.
Qed.

Lemma AddUiViewInternal_control (ty : string) (m : oid) (w : World) :
  same_control w (snd (AddUiViewInternal ty m w)).
Proof.
  unfold AddUiViewInternal. destruct (is_view_type ty); [|apply same_control_refl].
  cbv zeta.
  match goal with |- context [if ?c then _ else _] => destruct c end;
    repeat split.
Qed.

Lemma Command_Do_control (c : Command) (w : World) :
  same_control w (snd (Command_Do c w)).
Proof.
  destruct c as [ci ms]. simpl.
  apply fold_left_same_control. intros. apply AddUiViewInternal_control.
Qed.

Lemma Command_Do_done (c : Command) (w : World) : fst (Command_Do c w) = true.
Proof. destruct c. reflexivity. Qed.

(** ** Adding views without recording the command *)

Lemma type_of_upd_model (m x : oid) (f : ViewModel -> ViewModel) (w : World) :
  (forall o, type (f o) = type o) ->
  type_of (upd_model m f w) x = type_of w x.
Proof.
  intros Hf. unfold type_of, upd_model. simpl. rewrite lookup_alter.
  case_decide; [|reflexivity]. subst. destruct (models w !! x); simpl; auto.
Qed.

(** One [AddUiViewInternal]: for a view type a new [UiView] with a fresh
    identity is appended; for any other type nothing happens. *)
Lemma AddUiViewInternal_view (ty : string) (m : oid) (w : World) :
  let w' := snd (AddUiViewInternal ty m w) in
  (forall x, type_of w' x = type_of w x) /\
  if is_view_type ty
  then uiViews w' = uiViews w ++ [next_oid w] /\
       next_oid w' = S (next_oid w) /\
       uis w' = <[next_oid w := {| model := m; ui_parent := Some (uiCard w);
                                   isSelected := false |}]> (uis w)
  else w' = w.
Proof.
  cbv zeta. unfold AddUiViewInternal.
  destruct (is_view_type ty); [|split; reflexivity]. cbv zeta.
  match goal with |- context [if ?c then _ else _] => destruct c end.
  - split; [|repeat split]. intros x. unfold AddChild. cbn [snd].
    rewrite !type_of_upd_model by reflexivity. reflexivity.
  - split; [|repeat split]. intros x. cbn [snd].
    rewrite !type_of_upd_model by reflexivity. reflexivity.
Qed.

(** The loop of [AddUiViewsCommand.Do]: one new view, with the next free
    identities in turn, for each model that has a view type. *)
Lemma add_views_loop (ms : list oid) (w : World) :
  let w' := fold_left (fun a m => snd (AddUiViewInternal (type_of a m) m a)) ms w in
  let made := filter (fun m => is_view_type (type_of w m) = true) ms in
  uiViews w' = uiViews w ++ seq (next_oid w) (length made) /\
  next_oid w' = (next_oid w + length made)%nat /\
  (forall u, (u < next_oid w)%nat -> uis w' !! u = uis w !! u) /\
  map (model_of w') (seq (next_oid w) (length made)) = made /\
  (forall x, type_of w' x = type_of w x).
Proof.
  revert w. induction ms as [|m ms IH]; intros w; cbv zeta.
  - simpl. rewrite app_nil_r, Nat.add_0_r. repeat split.
  - cbn [fold_left].
    destruct (AddUiViewInternal_view (type_of w m) m w) as [Hty Hstep].
    cbv zeta in Hty, Hstep.
    set (w1 := snd (AddUiViewInternal (type_of w m) m w)) in *.
    specialize (IH w1). cbv zeta in IH.
    destruct IH as (Hv & Hn & Hu & Hm & Ht).
    assert (Hf : filter (fun x => is_view_type (type_of w1 x) = true) ms
                 = filter (fun x => is_view_type (type_of w x) = true) ms).
    { apply list_filter_iff. intros x. rewrite Hty. reflexivity. }
    rewrite Hf in *. clear Hf.
    rewrite filter_cons.
    destruct (is_view_type (type_of w m)) eqn:Ev.
    + destruct Hstep as (Hv1 & Hn1 & Hu1).
      rewrite decide_True by reflexivity. cbn [length seq].
      rewrite Hv1, Hn1 in *.
      split; [rewrite Hv, <- app_assoc; reflexivity|].
      split; [rewrite Hn; lia|].
      split; [intros u Hlt; rewrite Hu by lia; rewrite Hu1;
              apply lookup_insert_ne; lia|].
      split; [|intros x; rewrite Ht; apply Hty].
      cbn [map]. rewrite Hm. f_equal.
      unfold model_of. rewrite Hu by lia. rewrite Hu1, lookup_insert_eq.
      reflexivity.
    + rewrite Hstep in *. rewrite decide_False by discriminate.
      repeat split; try assumption.
Qed.

(** Renaming the models that are new to the card touches no view. *)
Lemma rename_loop (ms : list oid) (w : World) :
  let w' :=
    fold_left
      (fun w m =>
         let card := model_of w (uiCard w) in
         if negb (py_in m (children_of w card))
         then upd_model m
                (set_name (DeduplicateNameInCard card (name_of w m) w)) w
         else w)
      ms w in
  uiViews w' = uiViews w /\ next_oid w' = next_oid w /\ uis w' = uis w /\
  cardIndex w' = cardIndex w /\
  (forall x, type_of w' x = type_of w x) /\
  (forall x, children_of w' x = children_of w x).
Proof.
  cbv zeta.
  apply (fold_left_invariant
           (fun a => uiViews a = uiViews w /\ next_oid a = next_oid w /\
                     uis a = uis w /\ cardIndex a = cardIndex w /\
                     (forall x, type_of a x = type_of w x) /\
                     (forall x, children_of a x = children_of w x))).
  - repeat split.
  - intros a m (Hv & Hn & Hu & Hci & Hty & Hch).
    destruct (negb (py_in m (children_of a (model_of a (uiCard a)))));
      [|repeat split; assumption].
    repeat split; try assumption.
    + intros x. rewrite type_of_upd_model by reflexivity. apply Hty.
    + intros x. rewrite <- Hch. unfold children_of, upd_model. simpl.
      rewrite lookup_alter. case_decide; [|reflexivity]. subst.
      destruct (models a !! x); reflexivity.
Qed.

Lemma AddUiViewsFromModels_views (ms : list oid) (canUndo : bool) (w : World) :
  let w' := snd (AddUiViewsFromModels ms canUndo w) in
  let made := filter (fun m => is_view_type (type_of w m) = true) ms in
  uiViews w' = uiViews w ++ seq (next_oid w) (length made) /\
  map (model_of w') (seq (next_oid w) (length made)) = made /\
  fst (AddUiViewsFromModels ms canUndo w) = py_last_n (length ms) (uiViews w').
Proof.
  cbv zeta. unfold AddUiViewsFromModels. cbv zeta. cbn [fst snd].
  destruct (rename_loop ms w) as (Hv & Hn & Hu & _ & Hty & _). cbv zeta in *.
  match type of Hv with uiViews ?X = _ => set (w0 := X) in * end.
  destruct (add_views_loop ms w0) as (Hv1 & _ & _ & Hm1 & _). cbv zeta in *.
  assert (Hf : filter (fun x => is_view_type (type_of w0 x) = true) ms
               = filter (fun x => is_view_type (type_of w x) = true) ms).
  { apply list_filter_iff. intros x. rewrite Hty. reflexivity. }
  rewrite Hf, Hv, Hn in *. clear Hf.
  assert (Hsub : forall c,
             uiViews (snd (Submit c true w0)) = uiViews (snd (Command_Do c w0)) /\
             uis (snd (Submit c true w0)) = uis (snd (Command_Do c w0))).
  { intros c. unfold Submit. destruct (Command_Do c w0) as [[] wd];
      split; reflexivity. }
  destruct canUndo.
  - destruct (Hsub (AddUiViewsCommand (cardIndex w0) ms)) as [Hs1 Hs2].
    unfold model_of. rewrite Hs1, Hs2. simpl. auto.
  - simpl. auto.
Qed.

Lemma children_of_upd_self (self : oid) (g : list oid -> list oid) (w : World) :
  children_of (upd_model self (fun o => set_childModels (g (childModels o)) o) w)
              self
  = match models w !! self with
    | Some _ => g (children_of w self)
    | None => []
    end.
Proof.
  unfold children_of, upd_model. simpl. rewrite lookup_alter.
  case_decide; [|congruence]. destruct (models w !! self); reflexivity.
Qed.

Lemma children_of_upd_other (m x : oid) (f : ViewModel -> ViewModel)
      (w : World) :
  (forall o, childModels (f o) = childModels o) ->
  children_of (upd_model m f w) x = children_of w x.
Proof.
  intros Hf. unfold children_of, upd_model. simpl. rewrite lookup_alter.
  case_decide; [|reflexivity]. subst. destruct (models w !! x); simpl; auto.
Qed.

Lemma is_Some_upd_model (m x : oid) (f : ViewModel -> ViewModel) (w : World) :
  is_Some (models (upd_model m f w) !! x) <-> is_Some (models w !! x).
Proof.
  unfold upd_model. simpl. rewrite lookup_alter.
  case_decide; [|reflexivity]. subst.
  destruct (models w !! x); simpl; split; intros [y Hy]; eauto; discriminate.
Qed.

(** One [AddUiViewInternal] for a view type: the model becomes a child of
    the card's model unless it is one already; the card and its model stay
    what they were. *)
Lemma AddUiViewInternal_children (ty : string) (m : oid) (w : World) :
  let card := model_of w (uiCard w) in
  let w' := snd (AddUiViewInternal ty m w) in
  is_view_type ty = true ->
  (uiCard w < next_oid w)%nat ->
  is_Some (models w !! card) ->
  uiCard w' = uiCard w /\ model_of w' (uiCard w') = card /\
  (uiCard w' < next_oid w')%nat /\ is_Some (models w' !! card) /\
  children_of w' card =
    (if py_in m (children_of w card) then children_of w card
     else children_of w card ++ [m]).
Proof.
  cbv zeta. intros Hty Hlt Hcard. unfold AddUiViewInternal. rewrite Hty.
  cbv zeta. cbn [snd].
  cbn [uiViews uis uiCard next_oid set_uiViews set_uis set_next_oid].
  match goal with
  | |- context [upd_model m (set_parent (Some (model_of ?W (uiCard w)))) ?W] =>
      set (w3 := W)
  end.
  assert (Hm3 : model_of w3 (uiCard w) = model_of w (uiCard w)).
  { unfold model_of, w3. cbn [uis set_uiViews set_uis].
    rewrite lookup_insert_ne by lia. reflexivity. }
  rewrite Hm3.
  set (card := model_of w (uiCard w)) in *.
  set (w4 := upd_model m (set_parent (Some card)) w3).
  assert (Hch4 : forall x, children_of w4 x = children_of w x).
  { intros x. unfold w4. rewrite children_of_upd_other by reflexivity.
    reflexivity. }
  assert (Hs4 : is_Some (models w4 !! card)).
  { unfold w4. apply is_Some_upd_model. exact Hcard. }
  rewrite Hch4.
  destruct (py_in m (children_of w card)) eqn:Ein; cbn [negb].
  - split; [reflexivity|]. split; [exact Hm3|].
    split; [simpl; lia|]. split; [exact Hs4 | apply Hch4].
  - unfold AddChild.
    split; [reflexivity|]. split; [exact Hm3|].
    split; [simpl; lia|].
    split; [apply is_Some_upd_model, is_Some_upd_model; exact Hs4|].
    rewrite children_of_upd_other by reflexivity.
    rewrite (children_of_upd_self card (fun l => l ++ [m]) w4).
    destruct Hs4 as [o Ho]. rewrite Ho, Hch4. reflexivity.
Qed.

(** The loop of [AddUiViewsCommand.Do], seen from the card's model: the
    models with a view type become its children, in their order, each one
    unless it is a child already. *)
Lemma add_views_children (ms : list oid) (w : World) :
  let card := model_of w (uiCard w) in
  let w' := fold_left (fun a m => snd (AddUiViewInternal (type_of a m) m a)) ms w in
  let made := filter (fun m => is_view_type (type_of w m) = true) ms in
  (uiCard w < next_oid w)%nat ->
  is_Some (models w !! card) ->
  children_of w' card =
    fold_left (fun l m => if py_in m l then l else l ++ [m]) made
      (children_of w card).
Proof.
  revert w. induction ms as [|m ms IH]; intros w; cbv zeta; intros Hlt Hcard;
    [reflexivity|].
  cbn [fold_left].
  destruct (AddUiViewInternal_view (type_of w m) m w) as [Hty Hstep].
  cbv zeta in Hty, Hstep.
  pose proof (AddUiViewInternal_children (type_of w m) m w) as Hc.
  cbv zeta in Hc.
  set (w1 := snd (AddUiViewInternal (type_of w m) m w)) in *.
  specialize (IH w1). cbv zeta in IH.
  assert (Hf : filter (fun x => is_view_type (type_of w1 x) = true) ms
               = filter (fun x => is_view_type (type_of w x) = true) ms).
  { apply list_filter_iff. intros x. rewrite Hty. reflexivity. }
  rewrite Hf in IH. clear Hf.
  rewrite filter_cons.
  destruct (is_view_type (type_of w m)) eqn:Ev.
  - rewrite decide_True by reflexivity. cbn [fold_left].
    destruct (Hc eq_refl Hlt Hcard) as (Hu & Hm & Hlt1 & Hs1 & Hch).
    rewrite Hu in Hm. rewrite Hu, Hm in IH. rewrite Hu in Hlt1.
    rewrite IH; [|exact Hlt1 | exact Hs1].
    rewrite Hch. reflexivity.
  - rewrite decide_False by discriminate.
    rewrite Hstep in *. apply IH; assumption.
Qed.
(** C9. [AddUiViewsFromModels] with [canUndo=False] runs the command once,
    exactly as a recorded submission does (same views returned, same
    resulting state), and leaves the command processor as it was; the
    recorded submission differs only in having appended the command to the
    history.  In both modes the views are added: one new [UiView], with
    the next free identities, is appended to [uiViews] for each model
    that has a view type, in the order of the models and showing that
    model; and on a manager whose card view exists these models are made
    children of the card's model, each one once. *)
Theorem AddUiViewsFromModels_not_recorded (w : World) (ms : list oid) :
  let card := model_of w (uiCard w) in
  let made := filter (fun m => is_view_type (type_of w m) = true) ms in
  let w' := snd (AddUiViewsFromModels ms false w) in
  fst (AddUiViewsFromModels ms false w) = fst (AddUiViewsFromModels ms true w) /\
  snd (AddUiViewsFromModels ms false w) =
    set_command_processor (command_processor w)
      (snd (AddUiViewsFromModels ms true w)) /\
  command_processor (snd (AddUiViewsFromModels ms false w)) = command_processor w /\
  command_processor (snd (AddUiViewsFromModels ms true w)) =
    {| commands := commands (command_processor w)
                     ++ [AddUiViewsCommand (cardIndex w) ms];
       redoCommands := [] |} /\
  uiViews w' = uiViews w ++ seq (next_oid w) (length made) /\
  map (model_of w') (seq (next_oid w) (length made)) = made /\
  ((uiCard w < next_oid w)%nat -> is_Some (models w !! card) ->
   children_of w' card =
     fold_left (fun l m => if py_in m l then l else l ++ [m]) made
       (children_of w card)).
Proof.
  cbv zeta.
  assert (Hold :
    fst (AddUiViewsFromModels ms false w) = fst (AddUiViewsFromModels ms true w) /\
    snd (AddUiViewsFromModels ms false w) =
      set_command_processor (command_processor w)
        (snd (AddUiViewsFromModels ms true w)) /\
    command_processor (snd (AddUiViewsFromModels ms false w)) = command_processor w /\
    command_processor (snd (AddUiViewsFromModels ms true w)) =
      {| commands := commands (command_processor w)
                       ++ [AddUiViewsCommand (cardIndex w) ms];
         redoCommands := [] |}).
  { unfold AddUiViewsFromModels. cbv zeta.
    match goal with
    | |- context [Command_Do (AddUiViewsCommand (cardIndex ?X) ms) ?X] =>
        assert (Hd : same_control w X);
        [|generalize dependent X; intros wd Hd]
    end.
    { apply fold_left_same_control. intros a b.
      destruct (negb (py_in b (children_of a (model_of a (uiCard a)))));
        repeat split. }
    unfold Submit.
    pose proof (Command_Do_control (AddUiViewsCommand (cardIndex wd) ms) wd) as Hc.
    pose proof (Command_Do_done (AddUiViewsCommand (cardIndex wd) ms) wd) as Hdone.
    destruct (Command_Do (AddUiViewsCommand (cardIndex wd) ms) wd) as [done w1].
    simpl in Hc, Hdone. subst done. simpl.
    destruct Hd as (_&_&_&_&_&_&Hci&Hcp), Hc as (_&_&_&_&_&_&_&Hcp1).
    rewrite Hcp1, Hcp, Hci.
    repeat split; try reflexivity.
    destruct w1; simpl in *. subst. rewrite Hcp. reflexivity. }
  destruct Hold as (H1 & H2 & H3 & H4).
  destruct (AddUiViewsFromModels_views ms false w) as (Hv & Hm & _).
  cbv zeta in Hv, Hm.
  do 4 (split; [assumption|]). split; [exact Hv|]. split; [exact Hm|].
  intros Hlt Hcard.
  unfold AddUiViewsFromModels. cbv zeta. cbn [snd Command_Do AddUiViewsCommand_Do].
  destruct (rename_loop ms w) as (_ & Hn & Hu & _ & Hty & Hch). cbv zeta in *.
  match type of Hn with next_oid ?X = _ => set (w0 := X) in * end.
  assert (Hsame : uiCard w0 = uiCard w).
  { unfold w0. apply (fold_left_invariant (fun a => uiCard a = uiCard w));
      [reflexivity|].
    intros a m Ha.
    destruct (negb (py_in m (children_of a (model_of a (uiCard a)))));
      [exact Ha | exact Ha]. }
  assert (Hcard0 : model_of w0 (uiCard w0) = model_of w (uiCard w)).
  { unfold model_of. rewrite Hu, Hsame. reflexivity. }
  pose proof (add_views_children ms w0) as Hadd. cbv zeta in Hadd.
  rewrite Hcard0, Hsame, Hn, Hch in Hadd.
  assert (Hf : filter (fun x => is_view_type (type_of w0 x) = true) ms
               = filter (fun x => is_view_type (type_of w x) = true) ms).
  { apply list_filter_iff. intros x. rewrite Hty. reflexivity. }
  rewrite Hf in Hadd.
  apply Hadd; [exact Hlt|].
  unfold w0.
  apply (fold_left_invariant
           (fun a => is_Some (models a !! model_of w (uiCard w))));
    [exact Hcard|].
  intros a m Ha.
  destruct (negb (py_in m (children_of a (model_of a (uiCard a)))));
    [apply is_Some_upd_model; exact Ha | exact Ha].
Qed.

(** A new button handed to the designer's manager, without recording the
    command: it gets the view 100 and becomes the second child of the
    card. *)
Lemma AddUiViewsFromModels_not_recorded_witness :
  let w' := snd (AddUiViewsFromModels [7%nat] false Sample.doc3_new_button) in
  uiViews w' = [11%nat; 100%nat] /\
  map (model_of w') [100%nat] = [7%nat] /\
  children_of w' 1%nat = [4%nat; 7%nat] /\
  commands (command_processor w') = [] /\
  redoCommands (command_processor w') = [].
Proof.
  pose proof (AddUiViewsFromModels_not_recorded Sample.doc3_new_button [7%nat])
    as (_ & _ & Hcp & _ & Hv & Hm & Hch).
  cbv zeta in *.
  split; [exact Hv|]. split; [exact Hm|].
  split; [|rewrite Hcp; split; reflexivity].
  apply Hch; [vm_compute; lia | vm_compute; eauto].
Defined.

(** The command does add views: a new button handed to the designer's
    manager gets a [UiView] on the current card in both modes. *)
Example AddUiViewsFromModels_adds :
  fst (AddUiViewsFromModels [7%nat] false Sample.doc3_new_button) = [100%nat] /\
  uiViews (snd (AddUiViewsFromModels [7%nat] false Sample.doc3_new_button))
    = [11%nat; 100%nat] /\
  children_of (snd (AddUiViewsFromModels [7%nat] false Sample.doc3_new_button)) 1%nat
    = [4%nat; 7%nat] /\
  commands (command_processor
              (snd (AddUiViewsFromModels [7%nat] false Sample.doc3_new_button))) = [] /\
  commands (command_processor
              (snd (AddUiViewsFromModels [7%nat] true Sample.doc3_new_button)))
    = [AddUiViewsCommand (Some 0) [7%nat]].
Proof. vm_compute. repeat split; reflexivity. Qed.

(** ** Selection *)

Lemma SelectUiView_models (uiView : option oid) (extend : bool) (w : World) :
  models (SelectUiView uiView extend w) = models w /\
  next_oid (SelectUiView uiView extend w) = next_oid w /\
  uiViews (SelectUiView uiView extend w) = uiViews w.
Proof.
  unfold SelectUiView. destruct (isEditing w); [|repeat split].
  cbv zeta. generalize (effective_extend uiView extend w). intros e.
  match goal with
  | |- context [match uiView with Some _ => _ | None => ?X end] =>
      assert (H0 : models X = models w /\ next_oid X = next_oid w /\
                   uiViews X = uiViews w);
      [|revert H0; generalize X; intros w0 H0]
  end.
  - destruct (negb (length (selectedViews w) =? 0)%nat && negb e);
      [|repeat split]. simpl.
    apply (fold_left_invariant
             (fun x => models x = models w /\ next_oid x = next_oid w /\
                       uiViews x = uiViews w)); [repeat split|].
    intros a b Ha. exact Ha.
  - destruct uiView as [u|]; [|exact H0].
    destruct (e && py_in u (selectedViews w0)); exact H0.
Qed.

Lemma ClearAllViews_models (w : World) :
  models (ClearAllViews w) = models w /\
  next_oid (ClearAllViews w) = next_oid w.
Proof.
  unfold ClearAllViews.
  destruct (SelectUiView_models None false w) as (Hm & Hn & _).
  rewrite <- Hm, <- Hn.
  apply (fold_left_invariant
           (fun x => models x = models (SelectUiView None false w) /\
                     next_oid x = next_oid (SelectUiView None false w)));
    [repeat split|].
  intros a b Ha. destruct (negb (ui_type a b =? "card")%string); exact Ha.
Qed.

(** In editing mode a plain (non-extending) selection of a view makes it
    the only selected view, whatever was selected before. *)
Lemma SelectUiView_alone (u : oid) (w : World) :
  isEditing w = true ->
  selectedViews (SelectUiView (Some u) false w) = [u].
Proof.
  intros Hed. unfold SelectUiView. rewrite Hed.
  unfold effective_extend. simpl.
  destruct (selectedViews w) as [|s0 sel] eqn:E; simpl.
  - rewrite E. reflexivity.
  - reflexivity.
Qed.

(** Outside editing mode [SelectUiView] does nothing at all. *)
Lemma SelectUiView_not_editing (uiView : option oid) (extend : bool) (w : World) :
  isEditing w = false -> SelectUiView uiView extend w = w.
Proof. intros Hed. unfold SelectUiView. rewrite Hed. reflexivity. Qed.

Lemma index_eqb_false (i : Z) (cur : option Z) :
  index_eqb (Some i) cur = false <-> cur <> Some i.
Proof.
  destruct cur as [k|]; simpl.
  - rewrite Z.eqb_neq. split; congruence.
  - split; [discriminate | reflexivity].
Qed.

Lemma children_of_models (w w' : World) (m : oid) :
  models w' = models w -> children_of w' m = children_of w m.
Proof. intros H. unfold children_of. rewrite H. reflexivity. Qed.

Lemma AddUiViewsFromModels_control (ms : list oid) (w : World) :
  same_control w (snd (AddUiViewsFromModels ms false w)).
Proof.
  unfold AddUiViewsFromModels. cbv beta iota zeta. cbn [snd].
  match goal with
  | |- same_control w (snd (Command_Do ?c ?X)) =>
      apply (same_control_trans w X); [|apply Command_Do_control]
  end.
  apply fold_left_same_control. intros a b.
  destruct (negb (py_in b (children_of a (model_of a (uiCard a)))));
    repeat split.
Qed.

Lemma CreateViews_control (cardModel : oid) (w : World) :
  same_control w (CreateViews cardModel w).
Proof.
  unfold CreateViews. cbv zeta.
  match goal with
  | |- same_control w (snd (AddUiViewsFromModels _ false ?X)) =>
      apply (same_control_trans w X);
      [repeat split | apply AddUiViewsFromModels_control]
  end.
Qed.

(** ** What loading a card does to the heap *)

Lemma same_tree_refl (w : World) : same_tree w w.
Proof. intros m. reflexivity. Qed.

Lemma same_tree_trans (w1 w2 w3 : World) :
  same_tree w1 w2 -> same_tree w2 w3 -> same_tree w1 w3.
Proof. intros H12 H23 m. rewrite H23. apply H12. Qed.

Lemma same_tree_models (w w' : World) : models w' = models w -> same_tree w w'.
Proof. intros H m. rewrite H. reflexivity. Qed.

Lemma same_tree_set_parent (w : World) (m : oid) (p : option oid) :
  same_tree w (upd_model m (set_parent p) w).
Proof.
  intros k. unfold upd_model. simpl. rewrite lookup_alter.
  case_decide; [|reflexivity]. subst k.
  destruct (models w !! m); reflexivity.
Qed.

Lemma same_tree_field {A} (f : ViewModel -> A) (d : A) (w w' : World) (m : oid) :
  (forall o, f (set_parent None o) = f o) ->
  same_tree w w' ->
  from_option f d (models w' !! m) = from_option f d (models w !! m).
Proof.
  intros Hf H. specialize (H m). revert H.
  destruct (models w' !! m) as [o'|], (models w !! m) as [o|];
    simpl; congruence.
Qed.

Lemma same_tree_children (w w' : World) (m : oid) :
  same_tree w w' -> children_of w' m = children_of w m.
Proof. apply same_tree_field. reflexivity. Qed.

Lemma same_tree_has_handler (w w' : World) (m : oid) (event : string) :
  same_tree w w' -> has_handler w' m event = has_handler w m event.
Proof.
  intros H. unfold has_handler.
  change (from_option (fun o => match handlers o !! event with
                                | Some script => negb (script =? "")%string
                                | None => false
                                end) false (models w' !! m) =
          from_option (fun o => match handlers o !! event with
                                | Some script => negb (script =? "")%string
                                | None => false
                                end) false (models w !! m)).
  apply same_tree_field; [reflexivity | exact H].
Qed.

Lemma same_shown_refl (w : World) : same_shown w w.
Proof. split; [lia | reflexivity]. Qed.

Lemma same_shown_trans (w1 w2 w3 : World) :
  same_shown w1 w2 -> same_shown w2 w3 -> same_shown w1 w3.
Proof.
  intros [Hn12 H12] [Hn23 H23]. split; [lia|].
  intros u Hu. rewrite H23 by lia. apply H12, Hu.
Qed.

Lemma same_shown_model_of (w w' : World) (u : oid) :
  same_shown w w' -> (u < next_oid w)%nat -> model_of w' u = model_of w u.
Proof.
  intros [_ H] Hu. specialize (H u Hu). unfold model_of. revert H.
  destruct (uis w' !! u), (uis w !! u); simpl; congruence.
Qed.

Lemma same_shown_SetSelected (u : oid) (b : bool) (w : World) :
  same_shown w (SetSelected u b w).
Proof.
  split; [reflexivity|]. intros k _. unfold SetSelected, upd_ui. simpl.
  rewrite lookup_alter. case_decide; [|reflexivity]. subst k.
  destruct (uis w !! u); reflexivity.
Qed.

Lemma steady_refl (w : World) : steady w w.
Proof.
  split; [apply same_control_refl|].
  split; [apply same_shown_refl | apply same_tree_refl].
Qed.

Lemma steady_trans (w1 w2 w3 : World) :
  steady w1 w2 -> steady w2 w3 -> steady w1 w3.
Proof.
  intros (Hc12 & Hs12 & Ht12) (Hc23 & Hs23 & Ht23).
  split; [eapply same_control_trans; eassumption|].
  split; [eapply same_shown_trans | eapply same_tree_trans]; eassumption.
Qed.

Lemma fold_left_steady {B} (f : World -> B -> World) (l : list B) (w : World) :
  (forall a b, steady a (f a b)) -> steady w (fold_left f l w).
Proof.
  intros Hstep.
  apply (fold_left_invariant (steady w)); [apply steady_refl|].
  intros a b Ha. eapply steady_trans; [exact Ha | apply Hstep].
Qed.

Lemma SetSelected_steady (u : oid) (b : bool) (w : World) :
  steady w (SetSelected u b w).
Proof.
  split; [repeat split|].
  split; [apply same_shown_SetSelected | apply same_tree_models; reflexivity].
Qed.

Lemma set_selectedViews_steady (l : list oid) (w : World) :
  steady w (set_selectedViews l w).
Proof.
  split; [repeat split|].
  split; [split; [apply Nat.le_refl | reflexivity]
         | apply same_tree_models; reflexivity].
Qed.

Lemma set_uiViews_steady (l : list oid) (w : World) :
  steady w (set_uiViews l w).
Proof.
  split; [repeat split|].
  split; [split; [apply Nat.le_refl | reflexivity]
         | apply same_tree_models; reflexivity].
Qed.

Lemma SelectUiView_steady (uiView : option oid) (extend : bool) (w : World) :
  steady w (SelectUiView uiView extend w).
Proof.
  unfold SelectUiView. destruct (isEditing w); [|apply steady_refl].
  cbv zeta. generalize (effective_extend uiView extend w). intros e.
  match goal with
  | |- steady w (match uiView with Some _ => _ | None => ?X end) =>
      assert (H0 : steady w X); [|revert H0; generalize X; intros w0 H0]
  end.
  - destruct (negb (length (selectedViews w) =? 0)%nat && negb e);
      [|apply steady_refl].
    match goal with
    | |- steady w (set_selectedViews [] ?F) =>
        apply (steady_trans w F);
        [apply fold_left_steady; intros; apply SetSelected_steady
        |apply set_selectedViews_steady]
    end.
  - destruct uiView as [u|]; [|exact H0].
    eapply steady_trans; [exact H0|].
    destruct (e && py_in u (selectedViews w0)).
    + eapply steady_trans;
        [apply (SetSelected_steady u false) | apply set_selectedViews_steady].
    + eapply steady_trans;
        [apply (SetSelected_steady u true) | apply set_selectedViews_steady].
Qed.

Lemma ClearAllViews_steady (w : World) : steady w (ClearAllViews w).
Proof.
  unfold ClearAllViews.
  eapply steady_trans; [apply SelectUiView_steady|].
  apply fold_left_steady. intros a b.
  destruct (negb (ui_type a b =? "card")%string);
    [apply set_uiViews_steady | apply steady_refl].
Qed.

Lemma fold_left_invariant_elem {A B} (P : A -> Prop) (f : A -> B -> A)
      (l : list B) (a : A) :
  P a -> (forall a b, b ∈ l -> P a -> P (f a b)) -> P (fold_left f l a).
Proof.
  revert a. induction l as [|b l IH]; intros a Ha Hstep; simpl; [exact Ha|].
  apply IH.
  - apply Hstep; [left | exact Ha].
  - intros a' b' Hb'. apply Hstep. right. exact Hb'.
Qed.

Lemma steady_manager_ok (w w' : World) :
  steady w w' -> manager_ok w -> manager_ok w'.
Proof.
  intros ((_&_&_&_&Hu&_) & [Hn Hs] & _) [Hex Hlt].
  unfold manager_ok. rewrite Hu. split; [|lia].
  specialize (Hs _ Hlt). destruct Hex as [o Ho]. rewrite Ho in Hs.
  destruct (uis w' !! uiCard w); [eauto | discriminate].
Qed.

Lemma steady_card (w w' : World) :
  steady w w' -> (uiCard w < next_oid w)%nat ->
  model_of w' (uiCard w') = model_of w (uiCard w).
Proof.
  intros ((_&_&_&_&Hu&_) & Hs & _) Hlt. rewrite Hu.
  apply same_shown_model_of; assumption.
Qed.

(** Adding the view of a model that already is a child of the shown card
    touches no child list: only the parent reference is written again. *)
Lemma AddUiViewInternal_steady (ty : string) (m : oid) (w : World) :
  (uiCard w < next_oid w)%nat ->
  py_in m (children_of w (model_of w (uiCard w))) = true ->
  steady w (snd (AddUiViewInternal ty m w)).
Proof.
  intros Hlt Hin. unfold AddUiViewInternal.
  destruct (is_view_type ty); [|apply steady_refl]. cbv zeta.
  set (w3 := set_uiViews _ _).
  assert (H3 : steady w w3).
  { split; [repeat split|]. split; [|apply same_tree_models; reflexivity].
    split; [simpl; lia|]. intros k Hk. simpl.
    rewrite lookup_insert_ne by lia. reflexivity. }
  assert (Hcard : model_of w3 (uiCard w3) = model_of w (uiCard w))
    by (apply steady_card; assumption).
  rewrite Hcard.
  set (w4 := upd_model m _ w3).
  assert (H4 : steady w w4).
  { eapply steady_trans; [exact H3|].
    split; [repeat split|].
    split; [split; [apply Nat.le_refl | reflexivity]|].
    apply same_tree_set_parent. }
  assert (py_in m (children_of w4 (model_of w (uiCard w))) = true) as ->.
  { destruct H4 as (_ & _ & Ht).
    rewrite (same_tree_children _ _ _ Ht). exact Hin. }
  exact H4.
Qed.

Lemma Command_Do_steady (c : Command) (w : World) :
  (uiCard w < next_oid w)%nat ->
  (forall m, m ∈ (match c with AddUiViewsCommand _ ms => ms end) ->
             py_in m (children_of w (model_of w (uiCard w))) = true) ->
  steady w (snd (Command_Do c w)).
Proof.
  intros Hlt Hin. destruct c as [ci ms]. simpl.
  apply (fold_left_invariant_elem (steady w)); [apply steady_refl|].
  intros a m Hm Ha. eapply steady_trans; [exact Ha|].
  assert (Hu : uiCard a = uiCard w) by (destruct Ha as ((_&_&_&_&Hu&_)&_); exact Hu).
  assert (Hn : (next_oid w <= next_oid a)%nat) by (destruct Ha as (_&[Hn _]&_); exact Hn).
  apply AddUiViewInternal_steady; [lia|].
  rewrite (steady_card _ _ Ha Hlt).
  destruct Ha as (_ & _ & Ht).
  rewrite (same_tree_children _ _ _ Ht). apply Hin, Hm.
Qed.

Lemma AddUiViewsFromModels_steady (ms : list oid) (w : World) :
  (uiCard w < next_oid w)%nat ->
  (forall m, m ∈ ms -> py_in m (children_of w (model_of w (uiCard w))) = true) ->
  steady w (snd (AddUiViewsFromModels ms false w)).
Proof.
  intros Hlt Hin. unfold AddUiViewsFromModels. cbv beta iota zeta. cbn [snd].
  match goal with
  | |- steady w (snd (Command_Do (AddUiViewsCommand (cardIndex ?X) ms) ?X)) =>
      assert (Hd : X = w); [|rewrite Hd]
  end.
  - apply (fold_left_invariant_elem (fun x => x = w)); [reflexivity|].
    intros a m Hm ->. rewrite (Hin m Hm). reflexivity.
  - apply Command_Do_steady; assumption.
Qed.

(** [CreateViews] points the card's [UiView] at the card model and builds
    the views of its children; the document itself stays as it is. *)
Lemma CreateViews_loaded (cardModel : oid) (w : World) :
  manager_ok w ->
  same_tree w (CreateViews cardModel w) /\
  model_of (CreateViews cardModel w) (uiCard (CreateViews cardModel w)) = cardModel /\
  manager_ok (CreateViews cardModel w) /\
  (next_oid w <= next_oid (CreateViews cardModel w))%nat.
Proof.
  intros [[o Ho] Hlt]. unfold CreateViews. cbv zeta.
  set (w1 := set_uiViews [] (upd_ui (uiCard w) (set_model cardModel) w)).
  assert (Hshow : uis w1 !! uiCard w1 = Some (set_model cardModel o)).
  { unfold w1, upd_ui. simpl. rewrite lookup_alter.
    case_decide; [|congruence]. rewrite Ho. reflexivity. }
  assert (Hcard : model_of w1 (uiCard w1) = cardModel)
    by (unfold model_of; rewrite Hshow; reflexivity).
  assert (Hst : steady w1 (snd (AddUiViewsFromModels (children_of w1 cardModel) false w1))).
  { apply AddUiViewsFromModels_steady; [exact Hlt|].
    intros m Hm. rewrite Hcard. apply py_in_elem_of, Hm. }
  assert (Hok1 : manager_ok w1) by (split; [rewrite Hshow; eauto | exact Hlt]).
  split; [|split; [|split]].
  - eapply same_tree_trans; [|apply Hst]. apply same_tree_models. reflexivity.
  - rewrite (steady_card _ _ Hst Hlt). exact Hcard.
  - eapply steady_manager_ok; eassumption.
  - destruct Hst as (_ & [Hn _] & _). exact Hn.
Qed.

(** ** Loading a card: selection *)

Lemma LoadCardAtIndex_steps (index : option Z) (reload : bool) :
  LoadCardAtIndex index reload =
  (cur <- gets cardIndex ;;
   when (negb (index_eqb index cur) || reload)
     (editing <- gets isEditing ;;
      hide_old_card cur editing reload ;;;
      show_new_card index editing reload))%py.
Proof. reflexivity. Qed.

(** Of the methods that [LoadCardAtIndex] calls, only [SelectUiView]
    assigns [selectedViews]. *)
Lemma call_current_runner_frame (c : RunnerCall) (w : World) :
  selectedViews (call_current_runner c w) = selectedViews w /\
  isEditing (call_current_runner c w) = isEditing w /\
  cardIndex (call_current_runner c w) = cardIndex w /\
  stackModel (call_current_runner c w) = stackModel w /\
  models (call_current_runner c w) = models w.
Proof. unfold call_current_runner. destruct (runner w); repeat split. Qed.

Lemma ClearAllViews_selection (w : World) :
  isEditing w = false -> selectedViews (ClearAllViews w) = selectedViews w.
Proof.
  intros Hed. unfold ClearAllViews.
  rewrite (SelectUiView_not_editing _ _ _ Hed).
  apply (fold_left_invariant (fun a => selectedViews a = selectedViews w));
    [reflexivity|].
  intros a b Ha. destruct (negb (ui_type a b =? "card")%string); exact Ha.
Qed.

Lemma AddUiViewInternal_selection (ty : string) (m : oid) (w : World) :
  selectedViews (snd (AddUiViewInternal ty m w)) = selectedViews w.
Proof.
  unfold AddUiViewInternal. destruct (is_view_type ty); [|reflexivity].
  cbv zeta.
  match goal with |- context [if ?c then _ else _] => destruct c end;
    reflexivity.
Qed.

Lemma Command_Do_selection (c : Command) (w : World) :
  selectedViews (snd (Command_Do c w)) = selectedViews w.
Proof.
  destruct c as [ci ms]. simpl.
  apply (fold_left_invariant (fun a => selectedViews a = selectedViews w));
    [reflexivity|].
  intros a b Ha. rewrite AddUiViewInternal_selection. exact Ha.
Qed.

Lemma AddUiViewsFromModels_selection (ms : list oid) (w : World) :
  selectedViews (snd (AddUiViewsFromModels ms false w)) = selectedViews w.
Proof.
  unfold AddUiViewsFromModels. cbv beta iota zeta. cbn [snd].
  rewrite Command_Do_selection.
  apply (fold_left_invariant (fun a => selectedViews a = selectedViews w));
    [reflexivity|].
  intros a b Ha.
  destruct (negb (py_in b (children_of a (model_of a (uiCard a)))));
    exact Ha.
Qed.

Lemma CreateViews_selection (cardModel : oid) (w : World) :
  selectedViews (CreateViews cardModel w) = selectedViews w.
Proof.
  unfold CreateViews. cbv zeta. rewrite AddUiViewsFromModels_selection.
  reflexivity.
Qed.

Lemma hide_old_card_frame (cur : option Z) (editing reload : bool)
      (w w' : World) :
  hide_old_card cur editing reload w = Ok (tt, w') ->
  selectedViews w' = selectedViews w /\ isEditing w' = isEditing w /\
  cardIndex w' = cardIndex w /\ stackModel w' = stackModel w /\
  models w' = models w.
Proof.
  unfold hide_old_card, when, bind, modify, ret, lift_res.
  destruct cur as [old|]; [|intros [= <-]; repeat split].
  destruct (negb editing && negb reload); [|intros [= <-]; repeat split].
  destruct (py_index _ old) as [c|e]; [|discriminate].
  intros [= <-]. apply call_current_runner_frame.
Qed.

Lemma show_new_card_selection (index : option Z) (reload : bool)
      (w w' : World) :
  isEditing w = false ->
  show_new_card index false reload w = Ok (tt, w') ->
  selectedViews w' = selectedViews w /\ cardIndex w' = index.
Proof.
  intros Hed. unfold show_new_card, bind, gets, when, modify, ret.
  cbn [negb andb].
  pose proof (ClearAllViews_selection (set_cardIndex index w) Hed) as Hs2.
  pose proof (ClearAllViews_control (set_cardIndex index w))
    as (Hed2 & _ & _ & _ & _ & _ & Hci2 & _).
  destruct index as [i|]; [|intros [= <-]; split; [exact Hs2 | exact Hci2]].
  destruct (lift_res _ _) as [[c w2]|e] eqn:E; [|discriminate].
  unfold lift_res in E.
  destruct (GetCardModel _ i _) as [c'|]; [|discriminate].
  injection E as -> <-.
  set (w2 := set_lastFocusedTextField None
               (ClearAllViews (set_cardIndex (Some i) w))).
  pose proof (CreateViews_selection c w2) as Hs3.
  pose proof (CreateViews_control c w2)
    as (Hed3 & _ & _ & _ & _ & _ & Hci3 & _).
  assert (Hed3' : isEditing (CreateViews c w2) = false)
    by (rewrite Hed3; exact (eq_trans Hed2 Hed)).
  rewrite (SelectUiView_not_editing _ _ _ Hed3').
  set (w3 := CreateViews c w2) in *.
  assert (Hfin : forall x, selectedViews x = selectedViews w3 ->
                           cardIndex x = cardIndex w3 ->
                           selectedViews x = selectedViews w /\
                           cardIndex x = Some i).
  { intros x Hx Hcx. split.
    - rewrite Hx, Hs3. exact Hs2.
    - rewrite Hcx, Hci3. exact Hci2. }
  destruct (bool_decide (is_Some (runner w3)));
    [|intros [= <-]; apply Hfin; reflexivity].
  pose proof (call_current_runner_frame (SetupForCard c) w3)
    as (Hs4 & _ & Hci4 & _).
  destruct reload; cbn [negb].
  - intros [= <-]. apply Hfin; [exact Hs4 | exact Hci4].
  - match goal with
    | |- context [if ?b then _ else _] => destruct b
    end; intros [= <-]; apply Hfin; cbn [selectedViews cardIndex set_noIdling];
      repeat rewrite (proj1 (call_current_runner_frame _ _));
      repeat rewrite (proj1 (proj2 (proj2 (call_current_runner_frame _ _))));
      reflexivity.
Qed.

(** Outside editing mode [LoadCardAtIndex] leaves the selection as it
    was. *)
Lemma LoadCardAtIndex_not_editing_selection (w w' : World) (index : option Z)
      (reload : bool) :
  isEditing w = false ->
  LoadCardAtIndex index reload w = Ok (tt, w') ->
  selectedViews w' = selectedViews w.
Proof.
  intros Hed. rewrite LoadCardAtIndex_steps.
  unfold bind at 1 2 3. unfold gets, when.
  destruct (negb (index_eqb index (cardIndex w)) || reload);
    [|intros [= <-]; reflexivity].
  rewrite Hed.
  destruct (hide_old_card (cardIndex w) false reload w) as [[[] w1]|e] eqn:Eh;
    [|discriminate].
  apply hide_old_card_frame in Eh as (Hs1 & Hed1 & _).
  intros Hshow.
  apply show_new_card_selection in Hshow as [Hs _];
    [|rewrite Hed1; exact Hed].
  rewrite Hs. exact Hs1.
Qed.

(** In editing mode a card that is loaded ends up as the selection. *)
Lemma LoadCardAtIndex_editing_selects_card (w : World) (i : Z) (reload : bool)
      (c : oid) :
  isEditing w = true ->
  manager_ok w ->
  cardIndex w <> Some i \/ reload = true ->
  py_index (children_of w (stackModel w)) i = Ok c ->
  exists w',
    LoadCardAtIndex (Some i) reload w = Ok (tt, w') /\
    selectedViews w' = [uiCard w'] /\
    model_of w' (uiCard w') = c /\
    cardIndex w' = Some i.
Proof.
  intros Hed Hok Hgo Hc.
  unfold LoadCardAtIndex, bind, gets, when, modify, ret.
  assert (negb (index_eqb (Some i) (cardIndex w)) || reload = true) as ->.
  { destruct Hgo as [Hne| ->]; [|apply orb_true_r].
    apply index_eqb_false in Hne. rewrite Hne. reflexivity. }
  rewrite Hed. simpl.
  destruct (cardIndex w) as [old|]; clear Hgo; cbv beta iota.
  all: set (w2 := set_lastFocusedTextField None
                    (ClearAllViews (set_cardIndex (Some i) w))).
  all: pose proof (ClearAllViews_steady (set_cardIndex (Some i) w)) as Hst.
  all: assert (Hok2 : manager_ok w2)
    by (exact (steady_manager_ok _ _ Hst Hok)).
  all: destruct Hst as ((Hed2 & _ & _ & Hsm2 & _ & _ & Hci2 & _) & _ & Ht2).
  all: unfold GetCardModel; fold w2.
  all: change (stackModel w2) with (stackModel (ClearAllViews (set_cardIndex (Some i) w))).
  all: rewrite Hsm2; simpl stackModel.
  all: rewrite (same_tree_children w w2 _ Ht2), Hc; simpl.
  all: destruct (CreateViews_loaded c w2 Hok2) as (_ & Hcard & Hok3 & _).
  all: pose proof (CreateViews_control c w2) as (Hed3 & _ & _ & _ & _ & _ & Hci3 & _).
  all: set (w3 := CreateViews c w2) in *.
  all: pose proof (SelectUiView_steady (Some (uiCard w3)) false w3) as Hsel.
  all: exists (SelectUiView (Some (uiCard w3)) false w3).
  all: split; [reflexivity|].
  all: assert (Hu : uiCard (SelectUiView (Some (uiCard w3)) false w3) = uiCard w3)
    by (destruct Hsel as ((_&_&_&_&Hu&_)&_); exact Hu).
  all: split; [|split].
  all: try (rewrite Hu; apply SelectUiView_alone;
            rewrite Hed3; exact (eq_trans Hed2 Hed)).
  all: try (rewrite (steady_card _ _ Hsel (proj2 Hok3)); exact Hcard).
  all: destruct Hsel as ((_&_&_&_&_&_&Hci4&_)&_);
    rewrite Hci4, Hci3; exact Hci2.
Qed.

(** Loading a card of the stack returns once the farewell to the old
    card has. *)
Lemma show_new_card_returns (w : World) (i : Z) (reload : bool) (c : oid) :
  py_index (children_of w (stackModel w)) i = Ok c ->
  exists w', show_new_card (Some i) false reload w = Ok (tt, w').
Proof.
  intros Hc. unfold show_new_card, bind, gets, when, modify, ret, lift_res.
  cbn [negb andb].
  pose proof (ClearAllViews_steady (set_cardIndex (Some i) w))
    as ((_ & _ & _ & Hsm & _) & _ & Ht).
  set (w2 := set_lastFocusedTextField None
               (ClearAllViews (set_cardIndex (Some i) w))).
  unfold GetCardModel.
  change (stackModel w2)
    with (stackModel (ClearAllViews (set_cardIndex (Some i) w))).
  rewrite Hsm. simpl stackModel.
  rewrite (same_tree_children w w2 _ Ht), Hc.
  destruct (bool_decide _); [|eexists; reflexivity].
  destruct reload; cbn [negb]; [eexists; reflexivity|].
  match goal with
  | |- context [if ?b then _ else _] => destruct b
  end; eexists; reflexivity.
Qed.

Lemma LoadCardAtIndex_not_editing_returns (w : World) (i : Z) (reload : bool)
      (c : oid) :
  isEditing w = false ->
  valid_card w ->
  py_index (children_of w (stackModel w)) i = Ok c ->
  exists w', LoadCardAtIndex (Some i) reload w = Ok (tt, w').
Proof.
  intros Hed Hvalid Hc. rewrite LoadCardAtIndex_steps.
  unfold bind at 1 2 3. unfold gets, when.
  destruct (negb (index_eqb (Some i) (cardIndex w)) || reload);
    [|eexists; reflexivity].
  rewrite Hed.
  assert (Hhide : exists w1,
             hide_old_card (cardIndex w) false reload w = Ok (tt, w1)).
  { unfold hide_old_card, when, bind, modify, lift_res.
    destruct (cardIndex w) as [old|] eqn:Eold; [|eexists; reflexivity].
    destruct (negb false && negb reload); [|eexists; reflexivity].
    destruct (Hvalid old) as [oc Hoc]; [exact Eold|].
    rewrite Hoc. eexists; reflexivity. }
  destruct Hhide as [w1 Hw1]. rewrite Hw1.
  apply hide_old_card_frame in Hw1 as (_ & _ & _ & Hsm1 & Hm1).
  apply (show_new_card_returns w1 i reload c).
  rewrite Hsm1, (children_of_models _ _ _ Hm1). exact Hc.
Qed.

(** C5 (as the code has it). In editing mode, every [LoadCardAtIndex] that
    loads a card (a valid index that differs from the current one, or a
    forced reload) succeeds and leaves the [UiView] of the newly active card
    as the one selected object.  Outside editing mode [SelectUiView] does
    nothing: the same call succeeds (the card that was showing, if any,
    being a card of the stack) and leaves the selection as it was. *)
Theorem LoadCardAtIndex_selects_card (w : World) (i : Z) (reload : bool)
        (c : oid) :
  manager_ok w ->
  cardIndex w <> Some i \/ reload = true ->
  py_index (children_of w (stackModel w)) i = Ok c ->
  (isEditing w = true ->
   exists w',
     LoadCardAtIndex (Some i) reload w = Ok (tt, w') /\
     selectedViews w' = [uiCard w'] /\
     model_of w' (uiCard w') = c /\
     cardIndex w' = Some i) /\
  (isEditing w = false ->
   valid_card w ->
   exists w',
     LoadCardAtIndex (Some i) reload w = Ok (tt, w') /\
     selectedViews w' = selectedViews w).
Proof.
  intros Hok Hgo Hc. split.
  - intros Hed. exact (LoadCardAtIndex_editing_selects_card w i reload c
                         Hed Hok Hgo Hc).
  - intros Hed Hvalid.
    destruct (LoadCardAtIndex_not_editing_returns w i reload c Hed Hvalid Hc)
      as [w' Hw'].
    exists w'. split; [exact Hw'|].
    exact (LoadCardAtIndex_not_editing_selection w w' (Some i) reload Hed Hw').
Qed.

Lemma LoadCardAtIndex_selects_card_witness :
  isEditing Sample.doc3_editing = true /\
  exists w',
    LoadCardAtIndex (Some 1) false Sample.doc3_editing = Ok (tt, w') /\
    selectedViews w' = [uiCard w'] /\
    model_of w' (uiCard w') = 2%nat /\
    cardIndex w' = Some 1.
Proof.
  split; [reflexivity|].
  apply (LoadCardAtIndex_selects_card Sample.doc3_editing 1 false 2%nat).
  - split; [exists {| model := 1%nat; ui_parent := None; isSelected := false |};
            vm_compute; reflexivity | vm_compute; lia].
  - left. discriminate.
  - vm_compute. reflexivity.
  - reflexivity.
Defined.

(** The sentence of the specification fails outside editing mode: in the
    running viewer the selection is not touched, so after loading card 1 the
    card is not selected. *)
Lemma LoadCardAtIndex_running_selects_nothing :
  exists w',
    LoadCardAtIndex (Some 1) false Sample.doc3 = Ok (tt, w') /\
    cardIndex w' = Some 1 /\
    selectedViews w' = [] /\
    selectedViews w' <> [uiCard w'].
Proof.
  eexists. split; [vm_compute; reflexivity|].
  repeat split. discriminate.
Qed.

(** ** Removing a selected view *)

Lemma SelectUiView_model_of (uiView : option oid) (extend : bool) (w : World)
      (u : oid) :
  model_of (SelectUiView uiView extend w) u = model_of w u.
Proof.
  assert (Hset : forall x b a, model_of (SetSelected x b a) u = model_of a u).
  { intros x b a. unfold model_of, SetSelected, upd_ui. simpl.
    rewrite lookup_alter. case_decide; [|reflexivity]. subst x.
    destruct (uis a !! u); reflexivity. }
  unfold SelectUiView. destruct (isEditing w); [|reflexivity].
  cbv zeta. generalize (effective_extend uiView extend w). intros e.
  match goal with
  | |- context [match uiView with Some _ => _ | None => ?X end] =>
      assert (H0 : model_of X u = model_of w u);
      [|revert H0; generalize X; intros w0 H0]
  end.
  - destruct (negb (length (selectedViews w) =? 0)%nat && negb e);
      [|reflexivity].
    change (model_of (fold_left (fun a ui => SetSelected ui false a)
                                (selectedViews w) w) u = model_of w u).
    apply (fold_left_invariant (fun a => model_of a u = model_of w u));
      [reflexivity|].
    intros a b Ha. rewrite Hset. exact Ha.
  - destruct uiView as [x|]; [|exact H0].
    destruct (e && py_in x (selectedViews w0)).
    + change (model_of (SetSelected x false w0) u = model_of w u).
      rewrite Hset. exact H0.
    + change (model_of (SetSelected x true w0) u = model_of w u).
      rewrite Hset. exact H0.
Qed.

(** In editing mode, an extending selection of a view that is already
    selected on the card takes just that view out of the selection. *)
Lemma SelectUiView_toggle_off (ui : oid) (w : World) :
  isEditing w = true ->
  selection_on_card w ->
  ui ∈ selectedViews w ->
  selectedViews (SelectUiView (Some ui) true w) = py_remove ui (selectedViews w).
Proof.
  intros Hed [_ Hall] Hin.
  rewrite Forall_forall in Hall.
  destruct (Hall ui Hin) as [Hg Hc].
  unfold SelectUiView. rewrite Hed. cbv zeta.
  assert (He : effective_extend (Some ui) true w = true).
  { unfold effective_extend, first_selected. simpl. rewrite Hg, Hc. simpl.
    destruct (selectedViews w) as [|s0 sel] eqn:E; [reflexivity|].
    destruct (Hall s0 ltac:(left)) as [Hg0 Hc0].
    rewrite Hg0, Hc0. reflexivity. }
  rewrite He. rewrite andb_false_r.
  apply py_in_elem_of in Hin. rewrite Hin. reflexivity.
Qed.

Lemma children_after_RemoveChild (w : World) (card m : oid) :
  is_Some (models w !! card) ->
  children_of
    (upd_model m (set_parent None)
       (upd_model card (fun o => set_childModels (py_remove m (childModels o)) o) w))
    card
  = py_remove m (children_of w card).
Proof.
  intros [o Ho]. unfold children_of, upd_model. simpl.
  rewrite !lookup_alter. repeat case_decide; subst; rewrite ?Ho;
    try reflexivity; congruence.
Qed.

(** In editing mode a selected view that is removed leaves the
    selection. *)
Lemma RemoveUiViewByModel_editing_deselects (w : World) (m ui : oid) :
  isEditing w = true ->
  selection_on_card w ->
  find (fun u => Nat.eqb (model_of w u) m) (uiViews w) = Some ui ->
  ui ∈ selectedViews w ->
  py_in m (children_of w (model_of w (uiCard w))) = true ->
  exists w',
    RemoveUiViewByModel m w = Ok (tt, w') /\
    (ui ∉ selectedViews w') /\
    selectedViews w' = py_remove ui (selectedViews w) /\
    uiViews w' = py_remove ui (uiViews w) /\
    children_of w' (model_of w (uiCard w)) =
      py_remove m (children_of w (model_of w (uiCard w))).
Proof.
  intros Hed Hsel Hfind Hin Hchild.
  assert (Hm : model_of w ui = m).
  { apply find_some in Hfind. destruct Hfind as [_ Heq].
    apply Nat.eqb_eq in Heq. exact Heq. }
  unfold RemoveUiViewByModel, bind, gets, when, modify, ret.
  rewrite Hfind. apply py_in_elem_of in Hin as Hin'. rewrite Hin'.
  pose proof (SelectUiView_steady (Some ui) true w) as Hst.
  pose proof (SelectUiView_toggle_off ui w Hed Hsel Hin) as Hoff.
  pose proof (SelectUiView_models (Some ui) true w) as (Hmod & _ & Huv).
  pose proof (SelectUiView_model_of (Some ui) true w) as Hmo.
  destruct Hst as ((_&_&_&_&Hcard&_) & _ & _).
  set (w1 := SelectUiView (Some ui) true w) in *.
  unfold RemoveChild. cbn [uiCard uiViews set_uiViews upd_model set_models].
  assert (Hcm : forall u, model_of (set_uiViews (py_remove ui (uiViews w1))
                                      (upd_model (model_of w1 ui) (set_parent None) w1)) u
                          = model_of w u)
    by (intros u; exact (Hmo u)).
  rewrite !Hcm, Hcard, Hm.
  assert (Hkids : children_of
                    (set_uiViews (py_remove ui (uiViews w1))
                       (upd_model (model_of w1 ui) (set_parent None) w1))
                    (model_of w (uiCard w))
                  = children_of w (model_of w (uiCard w))).
  { apply same_tree_children.
    eapply same_tree_trans; [apply same_tree_models; exact Hmod|].
    eapply same_tree_trans; [apply same_tree_set_parent|].
    apply same_tree_models. reflexivity. }
  rewrite Hkids, Hchild.
  eexists. split; [reflexivity|].
  split; [|split; [|split]].
  - cbn. rewrite Hoff. apply py_remove_not_elem_of, Hsel.
  - cbn. exact Hoff.
  - cbn. rewrite Huv. reflexivity.
  - rewrite children_after_RemoveChild.
    + rewrite Hkids. reflexivity.
    + cbn. rewrite Hmo, Hm.
      unfold children_of in Hchild. rewrite lookup_alter, Hmod.
      destruct (models w !! model_of w (uiCard w)) as [o|] eqn:E;
        [|discriminate].
      case_decide as Heq; [rewrite Heq, E; simpl|]; eauto.
Qed.

(** Outside editing mode the removal goes through as well, but the
    selection is not touched. *)
Lemma RemoveUiViewByModel_not_editing (w : World) (m ui : oid) :
  isEditing w = false ->
  find (fun u => Nat.eqb (model_of w u) m) (uiViews w) = Some ui ->
  py_in m (children_of w (model_of w (uiCard w))) = true ->
  exists w',
    RemoveUiViewByModel m w = Ok (tt, w') /\
    selectedViews w' = selectedViews w /\
    uiViews w' = py_remove ui (uiViews w).
Proof.
  intros Hed Hfind Hchild.
  assert (Hm : model_of w ui = m).
  { apply find_some in Hfind. destruct Hfind as [_ Heq].
    apply Nat.eqb_eq in Heq. exact Heq. }
  unfold RemoveUiViewByModel, bind, gets, when, modify, ret.
  rewrite Hfind.
  assert (Hstep : exists w',
             RemoveChild
               (model_of (set_uiViews (py_remove ui (uiViews w))
                            (upd_model (model_of w ui) (set_parent None) w))
                         (uiCard w))
               (model_of (set_uiViews (py_remove ui (uiViews w))
                            (upd_model (model_of w ui) (set_parent None) w))
                         ui)
               (set_uiViews (py_remove ui (uiViews w))
                  (upd_model (model_of w ui) (set_parent None) w))
             = Ok (tt, w') /\
             selectedViews w' = selectedViews w /\
             uiViews w' = py_remove ui (uiViews w)).
  { change (model_of (set_uiViews (py_remove ui (uiViews w))
                        (upd_model (model_of w ui) (set_parent None) w))
                     (uiCard w))
      with (model_of w (uiCard w)).
    change (model_of (set_uiViews (py_remove ui (uiViews w))
                        (upd_model (model_of w ui) (set_parent None) w))
                     ui)
      with (model_of w ui).
    rewrite Hm. unfold RemoveChild.
    assert (children_of
              (set_uiViews (py_remove ui (uiViews w))
                 (upd_model m (set_parent None) w))
              (model_of w (uiCard w))
            = children_of w (model_of w (uiCard w))) as ->.
    { apply same_tree_children.
      eapply same_tree_trans; [apply same_tree_set_parent|].
      apply same_tree_models. reflexivity. }
    rewrite Hchild. eexists. split; [reflexivity|]. split; reflexivity. }
  destruct (py_in ui (selectedViews w)); cbv beta iota;
    rewrite ?(SelectUiView_not_editing _ _ _ Hed); exact Hstep.
Qed.

(** C6 (as the code has it). In editing mode, with a selection made of
    distinct views that sit directly on the card, removing the model of a
    selected view with [RemoveUiViewByModel] takes the view out of the
    selection as part of the removal: afterwards the view is neither selected
    nor among the card's views, and its model is no longer a child of the
    card.  Outside editing mode the view is removed from the card's views
    all the same, but the selection is left as it was, the removed view
    included. *)
Theorem RemoveUiViewByModel_deselects (w : World) (m ui : oid) :
  find (fun u => Nat.eqb (model_of w u) m) (uiViews w) = Some ui ->
  ui ∈ selectedViews w ->
  py_in m (children_of w (model_of w (uiCard w))) = true ->
  (isEditing w = true ->
   selection_on_card w ->
   exists w',
     RemoveUiViewByModel m w = Ok (tt, w') /\
     (ui ∉ selectedViews w') /\
     selectedViews w' = py_remove ui (selectedViews w) /\
     uiViews w' = py_remove ui (uiViews w) /\
     children_of w' (model_of w (uiCard w)) =
       py_remove m (children_of w (model_of w (uiCard w)))) /\
  (isEditing w = false ->
   exists w',
     RemoveUiViewByModel m w = Ok (tt, w') /\
     selectedViews w' = selectedViews w /\
     (ui ∈ selectedViews w') /\
     uiViews w' = py_remove ui (uiViews w)).
Proof.
  intros Hfind Hin Hchild. split.
  - intros Hed Hsel.
    exact (RemoveUiViewByModel_editing_deselects w m ui
             Hed Hsel Hfind Hin Hchild).
  - intros Hed.
    destruct (RemoveUiViewByModel_not_editing w m ui Hed Hfind Hchild)
      as (w' & Hrun & Hs & Hu).
    exists w'. split; [exact Hrun|]. split; [exact Hs|].
    split; [rewrite Hs; exact Hin | exact Hu].
Qed.

Lemma RemoveUiViewByModel_deselects_witness :
  selectedViews Sample.doc3_selected = [11%nat] /\
  exists w',
    RemoveUiViewByModel 4%nat Sample.doc3_selected = Ok (tt, w') /\
    (11%nat ∉ selectedViews w') /\
    selectedViews w' = py_remove 11%nat (selectedViews Sample.doc3_selected) /\
    uiViews w' = py_remove 11%nat (uiViews Sample.doc3_selected) /\
    children_of w' (model_of Sample.doc3_selected (uiCard Sample.doc3_selected)) =
      py_remove 4%nat
        (children_of Sample.doc3_selected
           (model_of Sample.doc3_selected (uiCard Sample.doc3_selected))).
Proof.
  split; [reflexivity|].
  apply (RemoveUiViewByModel_deselects Sample.doc3_selected 4%nat 11%nat).
  - vm_compute. reflexivity.
  - change (selectedViews Sample.doc3_selected) with [11%nat].
    apply list_elem_of_In. left. reflexivity.
  - vm_compute. reflexivity.
  - reflexivity.
  - split.
    + change (NoDup [11%nat]). apply NoDup_singleton.
    + change (selectedViews Sample.doc3_selected) with [11%nat].
      constructor; [split; vm_compute; reflexivity | constructor].
Defined.

(** The sentence of the specification fails outside editing mode: a view
    that was selected in the designer stays in [selectedViews] when editing
    is switched off ([SetEditing] clears the flag before it calls
    [SelectUiView]), and removing its model then leaves the detached view
    selected. *)
Lemma RemoveUiViewByModel_running_keeps_selection :
  Sample.doc3_left_editing =
    SetEditing false (SelectUiView (Some 11%nat) false Sample.doc3_editing) /\
  isEditing Sample.doc3_left_editing = false /\
  selectedViews Sample.doc3_left_editing = [11%nat] /\
  model_of Sample.doc3_left_editing 11%nat = 4%nat /\
  exists w',
    RemoveUiViewByModel 4%nat Sample.doc3_left_editing = Ok (tt, w') /\
    In 11%nat (selectedViews w') /\
    uiViews w' = [] /\
    children_of w' 1%nat = [].
Proof.
  split; [reflexivity|]. split; [reflexivity|].
  split; [reflexivity|]. split; [reflexivity|].
  eexists. split; [vm_compute; reflexivity|].
  split; [left; reflexivity|]. split; reflexivity.
Qed.

(** ** Loading a card: lifecycle events *)

Lemma hide_old_card_running (w : World) (r : oid) (reload : bool) :
  runner w = Some r ->
  (forall old, cardIndex w = Some old -> reload = false ->
               exists oldCard,
                 py_index (children_of w (stackModel w)) old = Ok oldCard) ->
  hide_old_card (cardIndex w) false reload w
  = Ok (tt, made_calls r (hide_calls w reload) w).
Proof.
  intros Hr Hold. unfold hide_old_card, hide_calls.
  destruct (cardIndex w) as [old|]; [|reflexivity].
  destruct reload; [reflexivity|].
  destruct (Hold old eq_refl eq_refl) as [oldCard Hoc].
  unfold when, bind, modify, lift_res. simpl. rewrite Hoc.
  unfold call_current_runner. rewrite Hr. reflexivity.
Qed.

Lemma made_calls_app (r : oid) (cs1 cs2 : list RunnerCall) (w : World) :
  made_calls r (cs1 ++ cs2) w = made_calls r cs2 (made_calls r cs1 w).
Proof. unfold made_calls. apply fold_left_app. Qed.

(** Calls on a runner change the runners and nothing else. *)
Lemma made_calls_frame (r : oid) (cs : list RunnerCall) (w : World) :
  set_runners (runners w) (made_calls r cs w) = w.
Proof.
  revert w. induction cs as [|c cs IH]; intros w; simpl.
  - destruct w; reflexivity.
  - unfold made_calls in *. simpl.
    specialize (IH (call_runner r c w)).
    destruct (fold_left _ cs (call_runner r c w)); simpl in *.
    destruct w; simpl in *. injection IH as -> -> -> -> -> -> -> -> -> -> -> -> -> ->.
    reflexivity.
Qed.

Lemma made_calls_keeps (r : oid) (cs : list RunnerCall) (w : World) :
  models (made_calls r cs w) = models w /\
  uis (made_calls r cs w) = uis w /\
  next_oid (made_calls r cs w) = next_oid w /\
  isEditing (made_calls r cs w) = isEditing w /\
  runner (made_calls r cs w) = runner w /\
  Obj.filename (made_calls r cs w) = Obj.filename w /\
  stackModel (made_calls r cs w) = stackModel w /\
  cardIndex (made_calls r cs w) = cardIndex w /\
  uiCard (made_calls r cs w) = uiCard w /\
  command_processor (made_calls r cs w) = command_processor w.
Proof.
  pose proof (made_calls_frame r cs w) as H.
  destruct (made_calls r cs w), w; simpl in *.
  injection H as -> -> -> -> -> -> -> -> -> -> -> -> -> ->.
  repeat split.
Qed.

Lemma call_current_runner_some (w : World) (r : oid) (c : RunnerCall) :
  runner w = Some r -> call_current_runner c w = call_runner r c w.
Proof. intros H. unfold call_current_runner. rewrite H. reflexivity. Qed.

Lemma show_new_card_running (w : World) (r : oid) (i : Z) (reload : bool)
      (newCard : oid) :
  runner w = Some r ->
  manager_ok w ->
  py_index (children_of w (stackModel w)) i = Ok newCard ->
  exists w',
    show_new_card (Some i) false reload w = Ok (tt, w') /\
    cardIndex w' = Some i /\
    runners w' = runners (made_calls r (show_calls w reload newCard) w) /\
    model_of w' (uiCard w') = newCard /\
    same_tree w w' /\
    manager_ok w' /\
    (next_oid w <= next_oid w')%nat /\
    isEditing w' = isEditing w /\ runner w' = Some r /\
    stackModel w' = stackModel w /\ Obj.filename w' = Obj.filename w /\
    command_processor w' = command_processor w.
Proof.
  intros Hr Hok Hnew.
  unfold show_new_card, bind, gets, when, modify, ret. cbn [negb andb].
  set (w2 := set_lastFocusedTextField None
               (ClearAllViews (set_cardIndex (Some i) w))).
  pose proof (ClearAllViews_steady (set_cardIndex (Some i) w)) as Hst2.
  assert (Hok2 : manager_ok w2) by (exact (steady_manager_ok _ _ Hst2 Hok)).
  destruct Hst2 as ((Hed2 & Hr2 & Hrs2 & Hsm2 & _ & Hfn2 & Hci2 & Hcp2)
                    & [Hn2 _] & Ht2).
  unfold GetCardModel.
  change (stackModel w2) with (stackModel (ClearAllViews (set_cardIndex (Some i) w))).
  rewrite Hsm2. simpl stackModel.
  rewrite (same_tree_children w w2 _ Ht2), Hnew. simpl.
  destruct (CreateViews_loaded newCard w2 Hok2) as (Ht3 & Hcard3 & Hok3 & Hn3).
  pose proof (CreateViews_control newCard w2)
    as (Hed3 & Hr3 & Hrs3 & Hsm3 & _ & Hfn3 & Hci3 & Hcp3).
  set (w3 := CreateViews newCard w2) in *.
  pose proof (SelectUiView_steady (Some (uiCard w3)) false w3) as Hst4.
  assert (Hok4 := steady_manager_ok _ _ Hst4 Hok3).
  assert (Hcard4 := steady_card _ _ Hst4 (proj2 Hok3)).
  destruct Hst4 as ((Hed4 & Hr4 & Hrs4 & Hsm4 & Hu4 & Hfn4 & Hci4 & Hcp4)
                    & [Hn4 _] & Ht4).
  set (w4 := SelectUiView (Some (uiCard w3)) false w3) in *.
  assert (Hrun4 : runner w4 = Some r)
    by (rewrite Hr4, Hr3; exact (eq_trans Hr2 Hr)).
  rewrite Hrun4.
  assert (bool_decide (is_Some (Some r)) = true) as -> by reflexivity.
  cbv beta iota.
  rewrite (call_current_runner_some w4 r _ Hrun4).
  assert (Htree : same_tree w w4).
  { eapply same_tree_trans; [|exact Ht4].
    eapply same_tree_trans; [|exact Ht3]. exact Ht2. }
  assert (Hshow : has_handler (call_runner r (SetupForCard newCard) w4)
                    (model_of (call_runner r (SetupForCard newCard) w4)
                       (uiCard (call_runner r (SetupForCard newCard) w4)))
                    "OnShowCard"
                  = has_handler w newCard "OnShowCard").
  { change (has_handler w4 (model_of w4 (uiCard w4)) "OnShowCard"
            = has_handler w newCard "OnShowCard").
    rewrite Hcard4, Hcard3. apply same_tree_has_handler, Htree. }
  assert (Hrs : runners w4 = runners w)
    by (rewrite Hrs4, Hrs3; exact Hrs2).
  assert (Hfin : forall w',
     models w' = models w4 /\ uis w' = uis w4 /\ next_oid w' = next_oid w4 /\
     uiCard w' = uiCard w4 /\ cardIndex w' = cardIndex w4 /\
     isEditing w' = isEditing w4 /\ runner w' = runner w4 /\
     stackModel w' = stackModel w4 /\ Obj.filename w' = Obj.filename w4 /\
     command_processor w' = command_processor w4 ->
     cardIndex w' = Some i /\
     model_of w' (uiCard w') = newCard /\
     same_tree w w' /\
     manager_ok w' /\
     (next_oid w <= next_oid w')%nat /\
     isEditing w' = isEditing w /\ runner w' = Some r /\
     stackModel w' = stackModel w /\ Obj.filename w' = Obj.filename w /\
     command_processor w' = command_processor w).
  { intros w' (Hm & Hui & Hn & Hu & Hci & Hed & Hrn & Hsm & Hfn & Hcp).
    split; [rewrite Hci, Hci4, Hci3; exact Hci2|].
    split; [unfold model_of; rewrite Hui, Hu; fold (model_of w4 (uiCard w4));
            rewrite Hcard4; exact Hcard3|].
    split; [eapply same_tree_trans; [exact Htree | apply same_tree_models, Hm]|].
    split; [unfold manager_ok; rewrite Hui, Hu, Hn; exact Hok4|].
    split; [rewrite Hn;
            exact (Nat.le_trans _ _ _ Hn2 (Nat.le_trans _ _ _ Hn3 Hn4))|].
    split; [rewrite Hed, Hed4, Hed3; exact Hed2|].
    split; [rewrite Hrn; exact Hrun4|].
    split; [rewrite Hsm, Hsm4, Hsm3; exact Hsm2|].
    split; [rewrite Hfn, Hfn4, Hfn3; exact Hfn2|].
    rewrite Hcp, Hcp4, Hcp3; exact Hcp2. }
  unfold show_calls.
  destruct reload; cbn [negb andb].
  - eexists. split; [reflexivity|].
    destruct (Hfin (set_noIdling false (set_noIdling true
                      (call_runner r (SetupForCard newCard) w4))))
      as [Hci' Hrest]; [repeat split|].
    split; [exact Hci'|]. split; [|exact Hrest].
    simpl. rewrite Hrs. reflexivity.
  - rewrite Hshow.
    destruct (has_handler w newCard "OnShowCard").
    + eexists. split; [reflexivity|].
      rewrite (call_current_runner_some
                 (call_runner r (SetupForCard newCard) w4) r _ Hrun4).
      change (model_of (call_runner r (SetupForCard newCard) w4)
                (uiCard (call_runner r (SetupForCard newCard) w4)))
        with (model_of w4 (uiCard w4)).
      rewrite Hcard4, Hcard3.
      destruct (Hfin (set_noIdling false (set_noIdling true
                        (call_runner r (RunHandler newCard "OnShowCard")
                           (call_runner r (SetupForCard newCard) w4)))))
        as [Hci' Hrest]; [repeat split|].
      split; [exact Hci'|]. split; [|exact Hrest].
      simpl. rewrite Hrs. reflexivity.
    + eexists. split; [reflexivity|].
      destruct (Hfin (set_noIdling false (set_noIdling true
                        (call_runner r (SetupForCard newCard) w4))))
        as [Hci' Hrest]; [repeat split|].
      split; [exact Hci'|]. split; [|exact Hrest].
      simpl. rewrite Hrs. reflexivity.
Qed.

Lemma show_calls_models (w w1 : World) (reload : bool) (newCard : oid) :
  models w1 = models w -> show_calls w1 reload newCard = show_calls w reload newCard.
Proof.
  intros H. unfold show_calls, has_handler. rewrite H. reflexivity.
Qed.

(** A running stack: what one successful [LoadCardAtIndex] does. *)
Lemma LoadCardAtIndex_running (w : World) (r : oid) (i : Z) (reload : bool)
      (newCard : oid) :
  isEditing w = false ->
  runner w = Some r ->
  manager_ok w ->
  cardIndex w <> Some i \/ reload = true ->
  py_index (children_of w (stackModel w)) i = Ok newCard ->
  (forall old, cardIndex w = Some old -> reload = false ->
               exists oldCard,
                 py_index (children_of w (stackModel w)) old = Ok oldCard) ->
  exists w',
    LoadCardAtIndex (Some i) reload w = Ok (tt, w') /\
    cardIndex w' = Some i /\
    runners w' = runners (made_calls r (lifecycle_calls w reload newCard) w) /\
    model_of w' (uiCard w') = newCard /\
    same_tree w w' /\
    manager_ok w' /\
    (next_oid w <= next_oid w')%nat /\
    isEditing w' = false /\ runner w' = Some r /\
    stackModel w' = stackModel w /\ Obj.filename w' = Obj.filename w /\
    command_processor w' = command_processor w.
Proof.
  intros Hed Hr Hok Hgo Hnew Hold.
  rewrite LoadCardAtIndex_steps.
  unfold bind at 1 2 3. unfold gets, when.
  assert (negb (index_eqb (Some i) (cardIndex w)) || reload = true) as ->.
  { destruct Hgo as [Hne| ->]; [|apply orb_true_r].
    apply index_eqb_false in Hne. rewrite Hne. reflexivity. }
  rewrite Hed, (hide_old_card_running w r reload Hr Hold).
  pose proof (made_calls_keeps r (hide_calls w reload) w)
    as (Hm1 & Hui1 & Hn1 & Hed1 & Hr1 & Hfn1 & Hsm1 & Hci1 & Hu1 & Hcp1).
  set (w1 := made_calls r (hide_calls w reload) w) in *.
  destruct (show_new_card_running w1 r i reload newCard) as (w' & Hrun & H').
  - rewrite Hr1. exact Hr.
  - unfold manager_ok. rewrite Hui1, Hu1, Hn1. exact Hok.
  - rewrite Hsm1, (children_of_models _ _ _ Hm1). exact Hnew.
  - exists w'. split; [exact Hrun|].
    destruct H' as (Hci & Hrs & Hcard & Ht & Hok' & Hn & Hed' & Hr' & Hsm & Hfn & Hcp).
    split; [exact Hci|].
    split; [rewrite Hrs, (show_calls_models w w1 _ _ Hm1);
            unfold lifecycle_calls; rewrite made_calls_app; reflexivity|].
    split; [exact Hcard|].
    split; [eapply same_tree_trans; [apply same_tree_models, Hm1 | exact Ht]|].
    split; [exact Hok'|].
    split; [lia|].
    split; [congruence|]. split; [exact Hr'|].
    split; [congruence|]. split; congruence.
Qed.

(** In editing mode [LoadCardAtIndex] makes no call on any runner. *)
Lemma LoadCardAtIndex_editing_silent (w w' : World) (index : option Z)
      (reload : bool) :
  isEditing w = true ->
  LoadCardAtIndex index reload w = Ok (tt, w') ->
  runners w' = runners w.
Proof.
  intros Hed. rewrite LoadCardAtIndex_steps.
  unfold bind at 1 2 3. unfold gets, when.
  destruct (negb (index_eqb index (cardIndex w)) || reload);
    [|intros [= <-]; reflexivity].
  rewrite Hed.
  assert (hide_old_card (cardIndex w) true reload w = Ok (tt, w)) as ->
    by (unfold hide_old_card; destruct (cardIndex w); reflexivity).
  unfold show_new_card, bind, gets, when, modify, ret. cbn [negb andb].
  pose proof (ClearAllViews_control (set_cardIndex index w))
    as (_ & _ & Hrs2 & _).
  destruct index as [i|].
  - destruct (lift_res _ _) as [[c w2]|e] eqn:E; [|discriminate].
    unfold lift_res in E.
    destruct (GetCardModel _ i _) as [c'|]; [|discriminate].
    injection E as -> <-.
    intros [= <-].
    pose proof (CreateViews_control c
                  (set_lastFocusedTextField None
                     (ClearAllViews (set_cardIndex (Some i) w))))
      as (_ & _ & Hrs3 & _).
    match goal with
    | |- runners (SelectUiView ?u ?e ?x) = _ =>
        pose proof (SelectUiView_control u e x) as (_ & _ & Hrs4 & _)
    end.
    rewrite Hrs4, Hrs3. exact Hrs2.
  - intros [= <-]. exact Hrs2.
Qed.

(** C4 (as the code has it). For a running stack (not editing, a runner
    attached) that shows a card: navigating to the index already showing,
    without reload, does nothing at all; navigating without reload to a
    different valid index makes exactly these calls on the runner, in this
    order: one [OnHideCard] for the card that was showing, the set-up of the
    new card, and one [OnShowCard] for the new card if it has such a handler
    (none otherwise); a forced reload fires neither [OnHideCard] nor
    [OnShowCard].  In editing mode no call is made on any runner. *)
Theorem LoadCardAtIndex_lifecycle (w : World) (r : oid) (old : Z)
        (oldCard : oid) :
  runner w = Some r ->
  manager_ok w ->
  cardIndex w = Some old ->
  py_index (children_of w (stackModel w)) old = Ok oldCard ->
  LoadCardAtIndex (Some old) false w = Ok (tt, w) /\
  (isEditing w = false ->
   (forall i newCard,
       i <> old ->
       py_index (children_of w (stackModel w)) i = Ok newCard ->
       exists w',
         LoadCardAtIndex (Some i) false w = Ok (tt, w') /\
         cardIndex w' = Some i /\
         runners w' =
           runners
             (made_calls r
                ([RunHandler oldCard "OnHideCard"; SetupForCard newCard] ++
                 (if has_handler w newCard "OnShowCard"
                  then [RunHandler newCard "OnShowCard"] else []))
                w)) /\
   (forall i newCard,
       py_index (children_of w (stackModel w)) i = Ok newCard ->
       exists w',
         LoadCardAtIndex (Some i) true w = Ok (tt, w') /\
         cardIndex w' = Some i /\
         runners w' = runners (made_calls r [SetupForCard newCard] w))) /\
  (isEditing w = true ->
   forall index reload w',
     LoadCardAtIndex index reload w = Ok (tt, w') ->
     runners w' = runners w).
Proof.
  intros Hr Hok Hcur Hold.
  split; [|split].
  - unfold LoadCardAtIndex, bind, gets, when, ret. rewrite Hcur. simpl.
    rewrite Z.eqb_refl. reflexivity.
  - intros Hed. split.
    + intros i newCard Hne Hnew.
      destruct (LoadCardAtIndex_running w r i false newCard Hed Hr Hok)
        as (w' & Hrun & Hci & Hrs & _).
      * left. rewrite Hcur. congruence.
      * exact Hnew.
      * intros old' Hold' _. rewrite Hcur in Hold'. injection Hold' as <-.
        exists oldCard. exact Hold.
      * exists w'. split; [exact Hrun|]. split; [exact Hci|].
        rewrite Hrs. unfold lifecycle_calls, hide_calls, show_calls.
        rewrite Hcur, Hold. reflexivity.
    + intros i newCard Hnew.
      destruct (LoadCardAtIndex_running w r i true newCard Hed Hr Hok)
        as (w' & Hrun & Hci & Hrs & _).
      * right. reflexivity.
      * exact Hnew.
      * intros old' _ [=].
      * exists w'. split; [exact Hrun|]. split; [exact Hci|].
        rewrite Hrs. unfold lifecycle_calls, hide_calls, show_calls.
        rewrite Hcur. reflexivity.
  - intros Hed index reload w'. apply LoadCardAtIndex_editing_silent, Hed.
Qed.

Lemma LoadCardAtIndex_lifecycle_witness :
  LoadCardAtIndex (Some 0) false Sample.doc3 = Ok (tt, Sample.doc3) /\
  (exists w',
      LoadCardAtIndex (Some 1) false Sample.doc3 = Ok (tt, w') /\
      cardIndex w' = Some 1 /\
      calls <$> runners w' !! 20%nat =
        Some [RunHandler 1%nat "OnHideCard"; SetupForCard 2%nat;
              RunHandler 2%nat "OnShowCard"]) /\
  (exists w',
      LoadCardAtIndex (Some 2) false Sample.doc3 = Ok (tt, w') /\
      cardIndex w' = Some 2 /\
      calls <$> runners w' !! 20%nat =
        Some [RunHandler 1%nat "OnHideCard"; SetupForCard 3%nat]) /\
  (exists w',
      LoadCardAtIndex (Some 1) true Sample.doc3 = Ok (tt, w') /\
      cardIndex w' = Some 1 /\
      calls <$> runners w' !! 20%nat = Some [SetupForCard 2%nat]).
Proof.
  assert (Hok : manager_ok Sample.doc3).
  { split; [exists {| model := 1%nat; ui_parent := None; isSelected := false |};
            vm_compute; reflexivity | vm_compute; lia]. }
  destruct (LoadCardAtIndex_lifecycle Sample.doc3 20%nat 0 1%nat
              eq_refl Hok eq_refl eq_refl) as (Hsame & Hrun & _).
  destruct (Hrun eq_refl) as [Hgo Hreload].
  split; [exact Hsame|]. split; [|split].
  - destruct (Hgo 1 2%nat ltac:(lia) eq_refl) as (w' & H1 & H2 & H3).
    exists w'. split; [exact H1|]. split; [exact H2|]. rewrite H3. reflexivity.
  - destruct (Hgo 2 3%nat ltac:(lia) eq_refl) as (w' & H1 & H2 & H3).
    exists w'. split; [exact H1|]. split; [exact H2|]. rewrite H3. reflexivity.
  - destruct (Hreload 1 2%nat eq_refl) as (w' & H1 & H2 & H3).
    exists w'. split; [exact H1|]. split; [exact H2|]. rewrite H3. reflexivity.
Defined.

(** The sentence of the specification fails for a card without an
    [OnShowCard] handler: going from card 0 to card 2 of the running
    three-card stack, the runner is told to hide card 0 but gets no
    [OnShowCard] for card 2.  It also fails in editing mode, where the
    navigation from card 0 to card 1 (which has an [OnShowCard] handler)
    makes no call on the runner at all. *)
Lemma LoadCardAtIndex_no_show_event :
  (exists w',
      LoadCardAtIndex (Some 2) false Sample.doc3 = Ok (tt, w') /\
      cardIndex Sample.doc3 = Some 0 /\ cardIndex w' = Some 2 /\
      calls <$> runners w' !! 20%nat =
        Some [RunHandler 1%nat "OnHideCard"; SetupForCard 3%nat]) /\
  (exists w',
      LoadCardAtIndex (Some 1) false Sample.doc3_editing_with_runner
        = Ok (tt, w') /\
      cardIndex Sample.doc3_editing_with_runner = Some 0 /\
      cardIndex w' = Some 1 /\
      runner w' = Some 20%nat /\
      calls <$> runners w' !! 20%nat = Some []).
Proof.
  split.
  - eexists. split; [vm_compute; reflexivity|]. repeat split.
  - eexists. split; [vm_compute; reflexivity|]. repeat split.
Qed.

(** ** Call and return of nested stacks *)




(* ===================================================================== *)
(** ** The selection: invariants of [SelectUiView]                        *)
(* ===================================================================== *)

Lemma SetSelected_lookup (x u : oid) (b : bool) (w : World) :
  uis (SetSelected x b w) !! u =
  if decide (x = u) then set_isSelected b <$> uis w !! u else uis w !! u.
Proof.
  unfold SetSelected, upd_ui. simpl. rewrite lookup_alter.
  case_decide; subst; reflexivity.
Qed.

(** Deselecting every view of a list clears the flag of exactly these
    views. *)
Lemma deselect_all_lookup (l : list oid) (w : World) (u : oid) :
  uis (fold_left (fun a ui => SetSelected ui false a) l w) !! u =
  if decide (u ∈ l) then set_isSelected false <$> uis w !! u else uis w !! u.
Proof.
  revert w. induction l as [|x l IH]; intros w; cbn [fold_left].
  - destruct (decide (u ∈ [])) as [H|_]; [inversion H | reflexivity].
  - rewrite IH, SetSelected_lookup.
    repeat case_decide; subst; try reflexivity;
      try (exfalso;
           match goal with
           | H : ¬ (_ ∈ _ :: _) |- _ => apply H; rewrite elem_of_cons; tauto
           end);
      try (exfalso;
           match goal with
           | H : _ ∈ _ :: _ |- _ =>
               rewrite elem_of_cons in H; destruct H; congruence
           end);
      destruct (uis w !! u); reflexivity.
Qed.

Lemma deselect_all_selectedViews (l : list oid) (w : World) :
  selectedViews (fold_left (fun a ui => SetSelected ui false a) l w)
  = selectedViews w.
Proof.
  apply (fold_left_invariant (fun a => selectedViews a = selectedViews w));
    [reflexivity|]. intros a b Ha. exact Ha.
Qed.

Lemma NoDup_py_remove (x : oid) (l : list oid) :
  NoDup l -> NoDup (py_remove x l).
Proof.
  induction 1 as [|y l Hy Hnd IH]; simpl; [constructor|].
  destruct (Nat.eqb_spec x y) as [->|Hne]; [exact Hnd|].
  constructor; [|exact IH].
  intros Hin. apply Hy. clear -Hin. induction l as [|z l IHl]; simpl in *.
  - inversion Hin.
  - destruct (Nat.eqb x z); rewrite ?elem_of_cons in *; [tauto|].
    destruct Hin; [left; assumption | right; auto].
Qed.

Lemma elem_of_py_remove (x y : oid) (l : list oid) :
  NoDup l -> (y ∈ py_remove x l <-> y ∈ l /\ y <> x).
Proof.
  intros Hnd. split.
  - intros Hin. split.
    + clear Hnd. induction l as [|z l IHl]; simpl in *; [inversion Hin|].
      destruct (Nat.eqb x z); rewrite ?elem_of_cons in *; [tauto|].
      destruct Hin; [left; assumption | right; auto].
    + intros ->. exact (py_remove_not_elem_of x l Hnd Hin).
  - intros [Hin Hne]. apply py_remove_elem_of_other; [congruence | exact Hin].
Qed.

(** The selection [SelectUiView] works on after its clearing step, in
    editing mode, for the value [e] of [extend] that the guards leave. *)
Lemma SelectUiView_editing (uiView : option oid) (extend : bool) (w : World) :
  isEditing w = true ->
  let e := effective_extend uiView extend w in
  let w1 := if negb (length (selectedViews w) =? 0)%nat && negb e
            then set_selectedViews []
                   (fold_left (fun a ui => SetSelected ui false a)
                      (selectedViews w) w)
            else w in
  SelectUiView uiView extend w =
  match uiView with
  | Some u =>
      if e && py_in u (selectedViews w1)
      then set_selectedViews (py_remove u (selectedViews w1))
             (SetSelected u false w1)
      else set_selectedViews (selectedViews w1 ++ [u]) (SetSelected u true w1)
  | None => w1
  end.
Proof. intros Hed. unfold SelectUiView. rewrite Hed. reflexivity. Qed.

Lemma clearing_step (e : bool) (w : World) :
  let w1 := if negb (length (selectedViews w) =? 0)%nat && negb e
            then set_selectedViews []
                   (fold_left (fun a ui => SetSelected ui false a)
                      (selectedViews w) w)
            else w in
  (e = false -> selectedViews w1 = []) /\
  (e = true -> w1 = w) /\
  (selection_consistent w -> selection_consistent w1).
Proof.
  cbv zeta. destruct e; cbn [negb andb].
  - rewrite andb_false_r.
    split; [discriminate|]. split; [reflexivity | auto].
  - rewrite andb_true_r.
    destruct (selectedViews w) as [|s l] eqn:Es; cbn [length Nat.eqb negb].
    + split; [intros _; exact Es|]. split; [discriminate | auto].
    + split; [reflexivity|]. split; [discriminate|].
      intros [Hnd Hfl]. split; [constructor|].
      intros u o Hu. cbn [uis set_selectedViews selectedViews] in *.
      rewrite deselect_all_lookup in Hu.
      split; [|intros H; inversion H].
      destruct (decide (u ∈ s :: l)) as [Hin|Hin].
      * destruct (uis w !! u) as [o'|]; [|discriminate].
        injection Hu as <-. discriminate.
      * intros Hsel. exfalso. apply Hin.
        pose proof (proj1 (Hfl u o Hu) Hsel) as H'.
        rewrite ?Es in H'. exact H'.
Qed.

(** X1. [SelectUiView] keeps the selection list and the selection flags in
    step: if no view was listed twice and exactly the listed views carried
    the flag, the same holds afterwards, whatever view and [extend] it is
    called with and in whichever mode. *)
Theorem SelectUiView_keeps_consistent (uiView : option oid) (extend : bool)
        (w : World) :
  selection_consistent w ->
  selection_consistent (SelectUiView uiView extend w).
Proof.
  intros Hc. destruct (isEditing w) eqn:Hed;
    [|rewrite (SelectUiView_not_editing _ _ _ Hed); exact Hc].
  rewrite (SelectUiView_editing _ _ _ Hed). cbv zeta.
  generalize (effective_extend uiView extend w). intros e.
  destruct (clearing_step e w) as (Hempty & _ & Hkeep). cbv zeta in *.
  specialize (Hkeep Hc). revert Hempty Hkeep.
  match goal with
  | |- (_ -> selectedViews ?X = []) -> _ => generalize X
  end.
  intros w1 Hempty [Hnd Hfl]. destruct uiView as [u|]; [|split; assumption].
  destruct (e && py_in u (selectedViews w1)) eqn:Ec.
  - apply andb_true_iff in Ec as [_ Hin]. apply py_in_elem_of in Hin.
    split; cbn [selectedViews set_selectedViews uis].
    + apply NoDup_py_remove, Hnd.
    + intros x o Hx.
      change (selectedViews (SetSelected u false w1)) with (selectedViews w1).
      rewrite SetSelected_lookup in Hx.
      rewrite (elem_of_py_remove _ _ _ Hnd).
      destruct (decide (u = x)) as [->|Hne].
      * destruct (uis w1 !! x); [|discriminate]. injection Hx as <-.
        simpl. split; [discriminate | tauto].
      * rewrite (Hfl x o Hx). split; [intros H; split; congruence | tauto].
  - assert (Hnot : u ∉ selectedViews w1).
    { destruct e; [|rewrite (Hempty eq_refl); apply not_elem_of_nil].
      simpl in Ec. intros Hin. apply py_in_elem_of in Hin. congruence. }
    split; cbn [selectedViews set_selectedViews uis].
    + change (selectedViews (SetSelected u true w1)) with (selectedViews w1).
      apply NoDup_app. split; [exact Hnd|]. split; [|apply NoDup_singleton].
      intros x Hx Hx'. apply list_elem_of_singleton in Hx'. subst. tauto.
    + intros x o Hx.
      change (selectedViews (SetSelected u true w1)) with (selectedViews w1).
      rewrite SetSelected_lookup in Hx.
      rewrite elem_of_app, list_elem_of_singleton.
      destruct (decide (u = x)) as [->|Hne].
      * destruct (uis w1 !! x); [|discriminate]. injection Hx as <-.
        simpl. tauto.
      * rewrite (Hfl x o Hx). split; [tauto | intros [H|H]; congruence].
Qed.

(** The checker [selection_consistentb] (on finite heaps) is sound. *)
Lemma selection_consistentb_sound (w : World) :
  selection_consistentb w = true -> selection_consistent w.
Proof.
  unfold selection_consistentb. rewrite andb_true_iff.
  intros [Hnd Hall]. apply bool_decide_eq_true in Hnd. split; [exact Hnd|].
  intros u o Hu. rewrite forallb_forall in Hall.
  specialize (Hall (u, o)). cbv beta iota in Hall.
  rewrite <- py_in_elem_of.
  assert (Hin : In (u, o) (map_to_list (uis w)))
    by (apply list_elem_of_In, elem_of_map_to_list, Hu).
  specialize (Hall Hin). apply Bool.eqb_prop in Hall. simpl in Hall.
  rewrite Hall. tauto.
Qed.

Lemma SelectUiView_keeps_consistent_witness :
  selectedViews (SelectUiView (Some 11%nat) true Sample.doc3_selected) = [] /\
  selection_consistent (SelectUiView (Some 11%nat) true Sample.doc3_selected).
Proof.
  split; [reflexivity|].
  apply (SelectUiView_keeps_consistent (Some 11%nat) true Sample.doc3_selected).
  apply selection_consistentb_sound. vm_compute. reflexivity.
Defined.

(** [SelectUiView] changes selection flags and the selection list, and
    nothing else about the views. *)
Lemma SelectUiView_same_views (uiView : option oid) (extend : bool) (w : World) :
  models (SelectUiView uiView extend w) = models w /\
  forall u, set_isSelected false <$> uis (SelectUiView uiView extend w) !! u
            = set_isSelected false <$> uis w !! u.
Proof.
  split; [apply SelectUiView_models|]. intros u.
  destruct (isEditing w) eqn:Hed;
    [|rewrite (SelectUiView_not_editing _ _ _ Hed); reflexivity].
  rewrite (SelectUiView_editing _ _ _ Hed). cbv zeta.
  generalize (effective_extend uiView extend w). intros e.
  match goal with
  | |- context [match uiView with Some _ => _ | None => ?X end] =>
      assert (H1 : set_isSelected false <$> uis X !! u
                   = set_isSelected false <$> uis w !! u);
      [|revert H1; generalize X; intros w1 H1]
  end.
  - destruct (negb (length (selectedViews w) =? 0)%nat && negb e);
      [|reflexivity].
    cbn [uis set_selectedViews]. rewrite deselect_all_lookup.
    case_decide; [|reflexivity]. destruct (uis w !! u); reflexivity.
  - destruct uiView as [x|]; [|exact H1].
    destruct (e && py_in x (selectedViews w1));
      cbn [uis set_selectedViews]; rewrite SetSelected_lookup;
      (case_decide; [|exact H1]); rewrite <- H1;
      destruct (uis w1 !! u); reflexivity.
Qed.

(** What the guards of [SelectUiView] look at does not depend on the
    selection flags. *)
Lemma same_views_attributes (w w' : World) :
  models w' = models w ->
  (forall u, set_isSelected false <$> uis w' !! u
             = set_isSelected false <$> uis w !! u) ->
  forall u, model_of w' u = model_of w u /\ ui_type w' u = ui_type w u /\
            parent_is_group w' u = parent_is_group w u.
Proof.
  intros Hm Hu.
  assert (Hmo : forall u, model_of w' u = model_of w u).
  { intros u. unfold model_of. specialize (Hu u).
    destruct (uis w' !! u), (uis w !! u); try discriminate; [|reflexivity].
    injection Hu as Hmodel _. exact Hmodel. }
  assert (Hty : forall u, ui_type w' u = ui_type w u).
  { intros u. unfold ui_type, type_of. rewrite Hmo, Hm. reflexivity. }
  intros u. split; [apply Hmo|]. split; [apply Hty|].
  unfold parent_is_group. specialize (Hu u).
  destruct (uis w' !! u) as [o'|], (uis w !! u) as [o|]; try discriminate;
    [|reflexivity].
  injection Hu as _ Hparent.
  rewrite Hparent. destruct (ui_parent o); [rewrite Hty|]; reflexivity.
Qed.

Lemma effective_extend_true (uiView : option oid) (extend : bool) (w : World) :
  effective_extend uiView extend w = true ->
  from_option (parent_is_group w) false uiView = false /\
  first_selected (parent_is_group w) w = false /\
  from_option
    (fun u => xorb (ui_type w u =? "card")%string
                   (first_selected (fun s => (ui_type w s =? "card")%string) w))
    false uiView = false.
Proof.
  unfold effective_extend. cbv zeta.
  destruct extend; cbn [andb]; [|discriminate].
  destruct (from_option (parent_is_group w) false uiView); [discriminate|].
  cbn [andb].
  destruct (first_selected (parent_is_group w) w); [discriminate|].
  cbn [andb].
  destruct (from_option _ false uiView); [discriminate|]. auto.
Qed.

Lemma elem_of_py_remove_subset (x y : oid) (l : list oid) :
  y ∈ py_remove x l -> y ∈ l.
Proof.
  induction l as [|z l IH]; simpl; [tauto|].
  destruct (Nat.eqb x z); rewrite ?elem_of_cons; [tauto|].
  intros [H|H]; [left; exact H | right; exact (IH H)].
Qed.

(** X2. [SelectUiView] keeps the selection within one scope: a view that
    sits in a group is only ever selected alone, and the card is never
    selected together with views of another type.  If this holds before
    a call it holds after it, whatever the arguments. *)
Theorem SelectUiView_keeps_scoped (uiView : option oid) (extend : bool)
        (w : World) :
  selection_scoped w ->
  selection_scoped (SelectUiView uiView extend w).
Proof.
  intros [Hg Hc].
  destruct (SelectUiView_same_views uiView extend w) as [Hm Hu].
  pose proof (same_views_attributes w _ Hm Hu) as Hattr.
  assert (Hone : forall x, selectedViews (SelectUiView uiView extend w) = [x] ->
                           selection_scoped (SelectUiView uiView extend w)).
  { intros x Hx. split; rewrite Hx.
    - intros s Hs _. apply list_elem_of_singleton in Hs. subst. reflexivity.
    - intros s t Hs Ht. apply list_elem_of_singleton in Hs, Ht. subst.
      reflexivity. }
  assert (Hnil : selectedViews (SelectUiView uiView extend w) = [] ->
                 selection_scoped (SelectUiView uiView extend w)).
  { intros Hx. split; rewrite Hx.
    - intros s Hs. inversion Hs.
    - intros s t Hs. inversion Hs. }
  assert (Hsub : (forall s, s ∈ selectedViews (SelectUiView uiView extend w) ->
                            s ∈ selectedViews w) ->
                 first_selected (parent_is_group w) w = false ->
                 selection_scoped (SelectUiView uiView extend w)).
  { intros Hin Hfirst. split.
    - intros s Hs Hpg. apply Hin in Hs. rewrite (proj2 (proj2 (Hattr s))) in Hpg.
      specialize (Hg s Hs Hpg). unfold first_selected in Hfirst.
      rewrite Hg in Hfirst. congruence.
    - intros s t Hs Ht. rewrite !(proj1 (proj2 (Hattr _))).
      apply Hc; apply Hin; assumption. }
  revert Hattr Hone Hnil Hsub. clear Hm Hu.
  destruct (isEditing w) eqn:Hed;
    [|rewrite (SelectUiView_not_editing _ _ _ Hed); intros; split; assumption].
  rewrite (SelectUiView_editing _ _ _ Hed). cbv zeta.
  pose proof (effective_extend_true uiView extend w) as Htrue.
  revert Htrue. generalize (effective_extend uiView extend w). intros e Htrue.
  destruct (clearing_step e w) as (Hempty & Hsame & _). cbv zeta in *.
  revert Hempty Hsame.
  match goal with
  | |- (_ -> selectedViews ?X = []) -> _ => generalize X
  end.
  intros w1 Hempty Hsame Hattr Hone Hnil Hsub.
  destruct e.
  - rewrite (Hsame eq_refl) in *. clear Hempty Hsame.
    destruct (Htrue eq_refl) as (Hpu & Hfirst & Hxor).
    destruct uiView as [u|]; [|split; assumption].
    cbn [andb] in *. destruct (py_in u (selectedViews w)) eqn:Ein.
    + apply Hsub; [|exact Hfirst]. intros s.
      cbn [selectedViews set_selectedViews].
      apply elem_of_py_remove_subset.
    + cbn [from_option] in Hpu, Hxor. split.
      * intros s. cbn [selectedViews set_selectedViews].
        change (selectedViews (SetSelected u true w)) with (selectedViews w).
        rewrite elem_of_app, list_elem_of_singleton.
        rewrite (proj2 (proj2 (Hattr s))). intros [Hs| ->] Hpg.
        -- specialize (Hg s Hs Hpg). unfold first_selected in Hfirst.
           rewrite Hg in Hfirst. congruence.
        -- congruence.
      * assert (Hu : forall s, s ∈ selectedViews w ->
                       (ui_type w s =? "card")%string
                       = (ui_type w u =? "card")%string).
        { intros s Hs. unfold first_selected in Hxor.
          destruct (selectedViews w) as [|s0 l] eqn:Es; [inversion Hs|].
          rewrite <- Es in *.
          assert (Hs0 : s0 ∈ selectedViews w) by (rewrite Es; left).
          rewrite (Hc s s0 Hs Hs0).
          destruct (ui_type w u =? "card")%string,
                   (ui_type w s0 =? "card")%string;
            simpl in Hxor; congruence. }
        intros s t. cbn [selectedViews set_selectedViews].
        change (selectedViews (SetSelected u true w)) with (selectedViews w).
        rewrite !elem_of_app, !list_elem_of_singleton.
        rewrite !(proj1 (proj2 (Hattr _))).
        intros [Hs| ->] [Ht| ->];
          [ apply Hc; assumption | apply Hu; assumption
          | symmetry; apply Hu; assumption | reflexivity ].
  - specialize (Hempty eq_refl). destruct uiView as [u|]; [|apply Hnil, Hempty].
    cbn [andb] in *. apply (Hone u).
    cbn [selectedViews set_selectedViews].
    change (selectedViews (SetSelected u true w1)) with (selectedViews w1).
    rewrite Hempty. reflexivity.
Qed.

Lemma SelectUiView_keeps_scoped_witness :
  selectedViews (SelectUiView (Some 10%nat) true Sample.doc3_selected)
    = [10%nat] /\
  selection_scoped (SelectUiView (Some 10%nat) true Sample.doc3_selected).
Proof.
  split; [reflexivity|].
  apply (SelectUiView_keeps_scoped (Some 10%nat) true Sample.doc3_selected).
  change (selectedViews Sample.doc3_selected) with [11%nat].
  split.
  - intros s Hs _. apply list_elem_of_singleton in Hs. subst. reflexivity.
  - intros s t Hs Ht. apply list_elem_of_singleton in Hs, Ht. subst.
    reflexivity.
Defined.

(** With views that sit directly on the card, nothing stops a selection
    from being extended. *)
Lemma effective_extend_on_card (u : oid) (w : World) :
  Forall (fun s => parent_is_group w s = false /\
                   (ui_type w s =? "card")%string = false)
         (selectedViews w) ->
  parent_is_group w u = false ->
  (ui_type w u =? "card")%string = false ->
  effective_extend (Some u) true w = true.
Proof.
  intros Hall Hpg Hty. unfold effective_extend, first_selected. cbv zeta.
  cbn [from_option andb]. rewrite Hpg, Hty.
  destruct (selectedViews w) as [|s l]; [reflexivity|].
  apply Forall_cons in Hall as [[Hs1 Hs2] _]. rewrite Hs1, Hs2. reflexivity.
Qed.

Lemma py_remove_snoc (u : oid) (l : list oid) :
  u ∉ l -> py_remove u (l ++ [u]) = l.
Proof.
  induction l as [|x l IH]; simpl; intros Hn.
  - rewrite Nat.eqb_refl. reflexivity.
  - rewrite not_elem_of_cons in Hn. destruct Hn as [Hne Hn].
    destruct (Nat.eqb_spec u x) as [->|_]; [congruence|].
    rewrite (IH Hn). reflexivity.
Qed.

(** X3. Extending a selection and taking the extension back.  Assume
    editing mode, a selection whose list and flags agree, and a selection
    made only of views that sit directly on the card (no member of a
    group, not the card's own view).  For a view that also sits directly
    on the card, is not the card's view and is not selected,
    [SelectUiView(view, extend=True)] appends it to the selection, and
    the same call once more gives back exactly the state before: the view
    leaves the selection again and its flag is cleared.  (Without the
    assumption on the selection this fails: with the card selected, the
    first call replaces the selection.) *)
Theorem SelectUiView_extend_twice (u : oid) (w : World) :
  isEditing w = true ->
  selection_consistent w ->
  Forall (fun s => parent_is_group w s = false /\
                   (ui_type w s =? "card")%string = false)
         (selectedViews w) ->
  parent_is_group w u = false ->
  (ui_type w u =? "card")%string = false ->
  u ∉ selectedViews w ->
  selectedViews (SelectUiView (Some u) true w) = selectedViews w ++ [u] /\
  SelectUiView (Some u) true (SelectUiView (Some u) true w) = w.
Proof.
  intros Hed [Hnd Hfl] Hall Hpg Hty Hnot.
  pose proof (effective_extend_on_card u w Hall Hpg Hty) as He.
  assert (Hin : py_in u (selectedViews w) = false).
  { destruct (py_in u (selectedViews w)) eqn:E; [|reflexivity].
    apply py_in_elem_of in E. tauto. }
  assert (H1 : SelectUiView (Some u) true w
               = set_selectedViews (selectedViews w ++ [u])
                   (SetSelected u true w)).
  { rewrite (SelectUiView_editing _ _ _ Hed). cbv zeta. rewrite He.
    rewrite andb_false_r. cbn [andb]. rewrite Hin. reflexivity. }
  split; [rewrite H1; reflexivity|].
  destruct (SelectUiView_same_views (Some u) true w) as [Hm Hu].
  pose proof (same_views_attributes w _ Hm Hu) as Hattr.
  pose proof (SelectUiView_control (Some u) true w) as (Hed' & _).
  rewrite Hed in Hed'.
  revert Hattr Hed'. rewrite H1. intros Hattr Hed'.
  set (w' := set_selectedViews (selectedViews w ++ [u]) (SetSelected u true w))
    in *.
  assert (He' : effective_extend (Some u) true w' = true).
  { apply effective_extend_on_card.
    - change (selectedViews w') with (selectedViews w ++ [u]).
      apply Forall_app. split.
      + eapply Forall_impl; [exact Hall|]. intros s [Hs1 Hs2].
        rewrite (proj2 (proj2 (Hattr s))), (proj1 (proj2 (Hattr s))). auto.
      + constructor; [|constructor].
        rewrite (proj2 (proj2 (Hattr u))), (proj1 (proj2 (Hattr u))). auto.
    - rewrite (proj2 (proj2 (Hattr u))). exact Hpg.
    - rewrite (proj1 (proj2 (Hattr u))). exact Hty. }
  rewrite (SelectUiView_editing _ _ _ Hed'). cbv zeta. rewrite He'.
  rewrite andb_false_r. cbn [andb].
  change (selectedViews w') with (selectedViews w ++ [u]).
  assert (py_in u (selectedViews w ++ [u]) = true) as ->.
  { apply py_in_elem_of, elem_of_app. right. left. }
  rewrite (py_remove_snoc u _ Hnot).
  assert (Huis : uis (SetSelected u false w') = uis w).
  { apply map_eq. intros x. rewrite SetSelected_lookup.
    change (uis w') with (uis (SetSelected u true w)).
    rewrite SetSelected_lookup.
    destruct (decide (u = x)) as [->|_]; [|reflexivity].
    destruct (uis w !! x) as [o|] eqn:Eo; [|reflexivity].
    simpl. f_equal.
    assert (Hflag : isSelected o = false).
    { destruct (isSelected o) eqn:E; [|reflexivity].
      exfalso. apply Hnot. apply (Hfl x o Eo). exact E. }
    destruct o as [m p f]. simpl in *. subst f. reflexivity. }
  destruct w as [wm wu wr wn we wru wf ws wsel wv wci wc wl wno wcp].
  unfold set_selectedViews. simpl in *. rewrite Huis. reflexivity.
Qed.

(** On the second card of the sample stack, with its button (view 100)
    selected, the field (view 101) is added to the selection and taken
    out again. *)
Lemma SelectUiView_extend_twice_witness :
  selectedViews Sample2.doc3_card2_selected = [100%nat] /\
  selectedViews (SelectUiView (Some 101%nat) true Sample2.doc3_card2_selected)
    = [100%nat; 101%nat] /\
  SelectUiView (Some 101%nat) true
    (SelectUiView (Some 101%nat) true Sample2.doc3_card2_selected)
  = Sample2.doc3_card2_selected.
Proof.
  split; [vm_compute; reflexivity|].
  apply (SelectUiView_extend_twice 101%nat Sample2.doc3_card2_selected).
  - vm_compute. reflexivity.
  - apply selection_consistentb_sound. vm_compute. reflexivity.
  - apply Forall_forall. intros s Hs.
    assert (Hsel : selectedViews Sample2.doc3_card2_selected = [100%nat])
      by (vm_compute; reflexivity).
    rewrite Hsel in Hs. apply list_elem_of_singleton in Hs. subst s.
    split; vm_compute; reflexivity.
  - vm_compute. reflexivity.
  - vm_compute. reflexivity.
  - assert (Hsel : selectedViews Sample2.doc3_card2_selected = [100%nat])
      by (vm_compute; reflexivity).
    rewrite Hsel. intros Hin. apply list_elem_of_singleton in Hin.
    discriminate Hin.
Defined.

(** ** [SelectAll] and [ClearAllViews] *)

Lemma SelectUiView_extend_add (u : oid) (w : World) :
  isEditing w = true ->
  Forall (fun s => parent_is_group w s = false /\
                   (ui_type w s =? "card")%string = false)
         (selectedViews w) ->
  parent_is_group w u = false ->
  (ui_type w u =? "card")%string = false ->
  u ∉ selectedViews w ->
  SelectUiView (Some u) true w
  = set_selectedViews (selectedViews w ++ [u]) (SetSelected u true w).
Proof.
  intros Hed Hall Hpg Hty Hnot.
  rewrite (SelectUiView_editing _ _ _ Hed). cbv zeta.
  rewrite (effective_extend_on_card u w Hall Hpg Hty).
  rewrite andb_false_r. cbn [andb].
  destruct (py_in u (selectedViews w)) eqn:E; [|reflexivity].
  apply py_in_elem_of in E. tauto.
Qed.

Lemma SelectUiView_None_clears (w : World) :
  isEditing w = true -> selectedViews (SelectUiView None false w) = [].
Proof.
  intros Hed. rewrite (SelectUiView_editing _ _ _ Hed). cbv zeta.
  destruct (clearing_step (effective_extend None false w) w) as (Hempty & _).
  apply Hempty. reflexivity.
Qed.

Lemma select_each (l : list oid) (w a : World) :
  isEditing a = true ->
  (forall u, ui_type a u = ui_type w u /\
             parent_is_group a u = parent_is_group w u) ->
  Forall (fun s => parent_is_group w s = false /\
                   (ui_type w s =? "card")%string = false)
         (selectedViews a ++ l) ->
  NoDup (selectedViews a ++ l) ->
  let a' := fold_left (fun a ui => SelectUiView (Some ui) true a) l a in
  selectedViews a' = selectedViews a ++ l /\
  forall x o, x ∈ l -> uis a' !! x = Some o -> isSelected o = true.
Proof.
  revert a. induction l as [|x l IH]; intros a Hed Hattr Hall Hnd; cbv zeta.
  - simpl. rewrite app_nil_r. split; [reflexivity|].
    intros y o Hy. inversion Hy.
  - apply Forall_app in Hall as Hall'. destruct Hall' as [Hsel Hl].
    apply Forall_cons in Hl as [[Hx1 Hx2] Hl].
    apply NoDup_app in Hnd as Hnd'. destruct Hnd' as (_ & Hdisj & Hndl).
    assert (Hxn : x ∉ selectedViews a).
    { intros Hx. apply (Hdisj x Hx). left. }
    assert (Hstep : SelectUiView (Some x) true a
                    = set_selectedViews (selectedViews a ++ [x])
                        (SetSelected x true a)).
    { apply SelectUiView_extend_add; [exact Hed| | | |exact Hxn].
      - eapply Forall_impl; [exact Hsel|]. intros s [Hs1 Hs2].
        rewrite (proj2 (Hattr s)), (proj1 (Hattr s)). auto.
      - rewrite (proj2 (Hattr x)). exact Hx1.
      - rewrite (proj1 (Hattr x)). exact Hx2. }
    cbn [fold_left]. rewrite Hstep.
    set (a1 := set_selectedViews (selectedViews a ++ [x]) (SetSelected x true a)).
    destruct (SelectUiView_same_views (Some x) true a) as [Hm Hu].
    pose proof (same_views_attributes a _ Hm Hu) as Hattr1.
    rewrite Hstep in Hattr1. fold a1 in Hattr1.
    destruct (IH a1) as [Hsel' Hflags].
    + exact Hed.
    + intros u. rewrite (proj1 (proj2 (Hattr1 u))), (proj2 (proj2 (Hattr1 u))).
      apply Hattr.
    + change (selectedViews a1) with (selectedViews a ++ [x]).
      rewrite <- app_assoc. exact Hall.
    + change (selectedViews a1) with (selectedViews a ++ [x]).
      rewrite <- app_assoc. exact Hnd.
    + split.
      * rewrite Hsel'. change (selectedViews a1) with (selectedViews a ++ [x]).
        rewrite <- app_assoc. reflexivity.
      * intros y o Hy Ho. apply elem_of_cons in Hy as [->|Hy];
          [|exact (Hflags y o Hy Ho)].
        (* the flag set on [x] is not touched by the later calls *)
        assert (Hkeep : forall (l' : list oid) (b : World),
                   isEditing b = true ->
                   (forall u, ui_type b u = ui_type w u /\
                              parent_is_group b u = parent_is_group w u) ->
                   Forall (fun s => parent_is_group w s = false /\
                                    (ui_type w s =? "card")%string = false)
                          (selectedViews b ++ l') ->
                   NoDup (selectedViews b ++ l') ->
                   x ∉ l' ->
                   isSelected <$> uis (fold_left
                                (fun a ui => SelectUiView (Some ui) true a) l' b) !! x
                   = isSelected <$> uis b !! x).
        { clear. induction l' as [|z l' IHl]; intros b Hedb Hattrb Hallb Hndb Hxl;
            [reflexivity|].
          apply not_elem_of_cons in Hxl as [Hxz Hxl].
          apply Forall_app in Hallb as Hallb'. destruct Hallb' as [Hselb Hlb].
          apply Forall_cons in Hlb as [[Hz1 Hz2] Hlb].
          apply NoDup_app in Hndb as Hndb'. destruct Hndb' as (_ & Hdisjb & _).
          assert (Hstepb : SelectUiView (Some z) true b
                           = set_selectedViews (selectedViews b ++ [z])
                               (SetSelected z true b)).
          { apply SelectUiView_extend_add; [exact Hedb| | | |].
            - eapply Forall_impl; [exact Hselb|]. intros s [Hs1 Hs2].
              rewrite (proj2 (Hattrb s)), (proj1 (Hattrb s)). auto.
            - rewrite (proj2 (Hattrb z)). exact Hz1.
            - rewrite (proj1 (Hattrb z)). exact Hz2.
            - intros Hz. apply (Hdisjb z Hz). left. }
          cbn [fold_left]. rewrite Hstepb.
          destruct (SelectUiView_same_views (Some z) true b) as [Hmb Hub].
          pose proof (same_views_attributes b _ Hmb Hub) as Hattrb1.
          rewrite Hstepb in Hattrb1.
          rewrite IHl.
          - cbn [uis set_selectedViews]. rewrite SetSelected_lookup.
            destruct (decide (z = x)) as [->|_]; [congruence | reflexivity].
          - exact Hedb.
          - intros u. rewrite (proj1 (proj2 (Hattrb1 u))),
                               (proj2 (proj2 (Hattrb1 u))).
            apply Hattrb.
          - cbn [selectedViews set_selectedViews].
            change (selectedViews (SetSelected z true b)) with (selectedViews b).
            rewrite <- app_assoc. exact Hallb.
          - cbn [selectedViews set_selectedViews].
            change (selectedViews (SetSelected z true b)) with (selectedViews b).
            rewrite <- app_assoc. exact Hndb.
          - exact Hxl. }
        assert (Hxl : x ∉ l).
        { apply NoDup_cons in Hndl. tauto. }
        assert (Hk : isSelected <$> uis (fold_left
                          (fun a ui => SelectUiView (Some ui) true a) l a1) !! x
                     = isSelected <$> uis a1 !! x).
        { apply Hkeep; [exact Hed| | | |exact Hxl].
          - intros u. rewrite (proj1 (proj2 (Hattr1 u))),
                               (proj2 (proj2 (Hattr1 u))).
            apply Hattr.
          - change (selectedViews a1) with (selectedViews a ++ [x]).
            rewrite <- app_assoc. exact Hall.
          - change (selectedViews a1) with (selectedViews a ++ [x]).
            rewrite <- app_assoc. exact Hnd. }
        rewrite Ho in Hk.
        change (uis a1) with (uis (SetSelected x true a)) in Hk.
        rewrite SetSelected_lookup in Hk.
        destruct (decide (x = x)) as [_|]; [|congruence].
        destruct (uis a !! x); [|discriminate].
        simpl in Hk. congruence.
Qed.

(** X4. In editing mode, [SelectAll] on a card whose views are distinct
    and sit directly on the card selects exactly the views of the card, in
    their order (the card itself is not among them), and each of them
    carries the selection flag; outside editing mode it does nothing. *)
Theorem SelectAll_selects_views (w : World) :
  NoDup (uiViews w) ->
  Forall (fun s => parent_is_group w s = false /\
                   (ui_type w s =? "card")%string = false)
         (uiViews w) ->
  (isEditing w = true ->
   selectedViews (SelectAll w) = uiViews w /\
   forall x o, x ∈ uiViews w -> uis (SelectAll w) !! x = Some o ->
               isSelected o = true) /\
  (isEditing w = false -> SelectAll w = w).
Proof.
  intros Hnd Hall. split.
  - intros Hed. unfold SelectAll. cbv zeta.
    destruct (SelectUiView_same_views None false w) as [Hm Hu].
    pose proof (same_views_attributes w _ Hm Hu) as Hattr.
    pose proof (SelectUiView_control None false w) as (Hed' & _).
    pose proof (SelectUiView_models None false w) as (_ & _ & Hv).
    pose proof (SelectUiView_None_clears w Hed) as Hnil.
    rewrite Hv.
    destruct (select_each (uiViews w) w (SelectUiView None false w)) as [H1 H2].
    + rewrite Hed'. exact Hed.
    + intros u. split; apply Hattr.
    + rewrite Hnil. exact Hall.
    + rewrite Hnil. exact Hnd.
    + cbv zeta in H1, H2. rewrite H1, Hnil. split; [reflexivity | exact H2].
  - intros Hed. unfold SelectAll. cbv zeta.
    rewrite (SelectUiView_not_editing _ _ _ Hed).
    apply (fold_left_invariant (fun a => a = w)); [reflexivity|].
    intros a b ->. apply SelectUiView_not_editing, Hed.
Qed.

Lemma SelectAll_selects_views_witness :
  selectedViews (SelectAll Sample.doc3_editing) = [11%nat] /\
  forall x o, x ∈ [11%nat] ->
              uis (SelectAll Sample.doc3_editing) !! x = Some o ->
              isSelected o = true.
Proof.
  apply (SelectAll_selects_views Sample.doc3_editing).
  - change (uiViews Sample.doc3_editing) with [11%nat]. apply NoDup_singleton.
  - change (uiViews Sample.doc3_editing) with [11%nat].
    constructor; [split; vm_compute; reflexivity | constructor].
  - reflexivity.
Defined.

Lemma py_remove_head_of_rest (x : oid) (l1 l2 : list oid) :
  x ∉ l1 -> py_remove x (l1 ++ x :: l2) = l1 ++ l2.
Proof.
  induction l1 as [|y l1 IH]; simpl; intros Hn.
  - rewrite Nat.eqb_refl. reflexivity.
  - rewrite not_elem_of_cons in Hn. destruct Hn as [Hne Hn].
    destruct (Nat.eqb_spec x y) as [->|_]; [congruence|].
    rewrite (IH Hn). reflexivity.
Qed.

(** The loop of [ClearAllViews], started with the views still to visit at
    the end of the list of views. *)
Lemma ClearAllViews_loop (p : oid -> bool) (rest kept : list oid) :
  Forall (fun u => p u = true) kept ->
  forall a,
    uiViews a = kept ++ rest ->
    (forall u, (ui_type a u =? "card")%string = p u) ->
    (forall l u, (ui_type (set_uiViews l a) u =? "card")%string = p u) ->
    uiViews
      (fold_left
         (fun w ui =>
            if negb (ui_type w ui =? "card")%string
            then set_uiViews (py_remove ui (uiViews w)) w
            else w)
         rest a)
    = kept ++ filter (fun u => p u = true) rest.
Proof.
  revert kept. induction rest as [|x rest IH];
    intros kept Hkept a Hv Hp Hp'.
  - simpl. exact Hv.
  - cbn [fold_left]. rewrite Hp.
    destruct (p x) eqn:Ex; cbn [negb].
    + rewrite (IH (kept ++ [x])).
      * rewrite filter_cons. rewrite decide_True by exact Ex.
        rewrite <- app_assoc. reflexivity.
      * apply Forall_app. split; [exact Hkept|]. constructor; [exact Ex|constructor].
      * rewrite Hv, <- app_assoc. reflexivity.
      * exact Hp.
      * exact Hp'.
    + rewrite (IH kept).
      * rewrite filter_cons. rewrite decide_False by congruence. reflexivity.
      * exact Hkept.
      * cbn [uiViews set_uiViews]. rewrite Hv.
        apply py_remove_head_of_rest.
        intros Hin. rewrite Forall_forall in Hkept.
        specialize (Hkept x Hin). congruence.
      * intros u. apply Hp'.
      * intros l u. apply (Hp' l u).
Qed.

(** X5. [ClearAllViews] leaves in [uiViews] exactly the views of type
    card, in their order, whether or not a view is listed more than once;
    in editing mode it also empties the selection, and outside editing
    mode it leaves the selection alone. *)
Theorem ClearAllViews_keeps_cards (w : World) :
  uiViews (ClearAllViews w)
    = filter (fun u => (ui_type w u =? "card")%string = true) (uiViews w) /\
  (isEditing w = true -> selectedViews (ClearAllViews w) = []) /\
  (isEditing w = false -> selectedViews (ClearAllViews w) = selectedViews w).
Proof.
  destruct (SelectUiView_same_views None false w) as [Hm Hu].
  pose proof (same_views_attributes w _ Hm Hu) as Hattr.
  pose proof (SelectUiView_models None false w) as (_ & _ & Hv).
  split; [|split].
  - unfold ClearAllViews. cbv zeta.
    rewrite (ClearAllViews_loop (fun u => (ui_type w u =? "card")%string)
               (uiViews (SelectUiView None false w)) []).
    + rewrite Hv. reflexivity.
    + constructor.
    + reflexivity.
    + intros u. rewrite (proj1 (proj2 (Hattr u))). reflexivity.
    + intros l u.
      change (ui_type (set_uiViews l (SelectUiView None false w)) u)
        with (ui_type (SelectUiView None false w) u).
      rewrite (proj1 (proj2 (Hattr u))). reflexivity.
  - intros Hed. unfold ClearAllViews. cbv zeta.
    apply (fold_left_invariant (fun a => selectedViews a = [])).
    + apply SelectUiView_None_clears, Hed.
    + intros a b Ha. destruct (negb (ui_type a b =? "card")%string); exact Ha.
  - apply ClearAllViews_selection.
Qed.

(* ===================================================================== *)
(** ** Building the views of a card                                       *)
(* ===================================================================== *)

(** X6. When every model handed to [AddUiViewsFromModels] has a view type,
    one new view per model is appended to [uiViews], in the order of the
    models, and these are the views returned; except that for an empty
    list of models the slice [uiViews[-0:]] returns every view of the
    card, not none. *)
Theorem AddUiViewsFromModels_returns_new_views (ms : list oid)
        (canUndo : bool) (w : World) :
  Forall (fun m => is_view_type (type_of w m) = true) ms ->
  let views := fst (AddUiViewsFromModels ms canUndo w) in
  let w' := snd (AddUiViewsFromModels ms canUndo w) in
  uiViews w' = uiViews w ++ seq (next_oid w) (length ms) /\
  map (model_of w') (seq (next_oid w) (length ms)) = ms /\
  (ms <> [] -> views = seq (next_oid w) (length ms)) /\
  (ms = [] -> views = uiViews w).
Proof.
  intros Hall. cbv zeta.
  destruct (AddUiViewsFromModels_views ms canUndo w) as (Hv & Hm & Hret).
  cbv zeta in *.
  assert (Hf : filter (fun m => is_view_type (type_of w m) = true) ms = ms).
  { clear -Hall. induction Hall as [|m ms Hm _ IH]; [reflexivity|].
    rewrite filter_cons, decide_True by exact Hm. rewrite IH. reflexivity. }
  rewrite Hf in *.
  split; [exact Hv|]. split; [exact Hm|].
  rewrite Hret, Hv. split.
  - intros Hne. unfold py_last_n.
    destruct (length ms) as [|k] eqn:Ek;
      [destruct ms; [congruence | discriminate]|].
    rewrite length_app, length_seq.
    replace (length (uiViews w) + S k - S k)%nat with (length (uiViews w)) by lia.
    rewrite drop_app_length. reflexivity.
  - intros ->. simpl. rewrite app_nil_r. reflexivity.
Qed.

Lemma AddUiViewsFromModels_returns_new_views_witness :
  uiViews (snd (AddUiViewsFromModels [7%nat] true Sample.doc3_new_button))
    = [11%nat; 100%nat] /\
  map (model_of (snd (AddUiViewsFromModels [7%nat] true Sample.doc3_new_button)))
      [100%nat] = [7%nat] /\
  fst (AddUiViewsFromModels [7%nat] true Sample.doc3_new_button) = [100%nat].
Proof.
  destruct (AddUiViewsFromModels_returns_new_views [7%nat] true
              Sample.doc3_new_button) as (H1 & H2 & H3 & _).
  - constructor; [vm_compute; reflexivity | constructor].
  - split; [exact H1|]. split; [exact H2|]. apply H3. discriminate.
Defined.

Lemma same_tree_name_of (w w' : World) (m : oid) :
  same_tree w w' -> name_of w' m = name_of w m.
Proof. apply same_tree_field. reflexivity. Qed.

Lemma same_tree_type_of (w w' : World) (m : oid) :
  same_tree w w' -> type_of w' m = type_of w m.
Proof. apply same_tree_field. reflexivity. Qed.

(** X7. [CreateViews] shows a card as it is: it replaces the views by one
    new view for each child of the card that has a view type, in the order
    of the children, makes the card's own view show the card, and neither
    renames nor reorders nor adds a child of any model. *)
Theorem CreateViews_one_view_per_child (cardModel : oid) (w : World) :
  manager_ok w ->
  let w' := CreateViews cardModel w in
  let made := filter (fun m => is_view_type (type_of w m) = true)
                     (children_of w cardModel) in
  uiViews w' = seq (next_oid w) (length made) /\
  map (model_of w') (uiViews w') = made /\
  model_of w' (uiCard w') = cardModel /\
  (forall m, children_of w' m = children_of w m) /\
  (forall m, name_of w' m = name_of w m).
Proof.
  intros Hok. cbv zeta.
  destruct (CreateViews_loaded cardModel w Hok) as (Ht & Hcard & _ & _).
  unfold CreateViews in *. cbv zeta in *.
  set (w0 := set_uiViews [] (upd_ui (uiCard w) (set_model cardModel) w)) in *.
  destruct (AddUiViewsFromModels_views (children_of w0 cardModel) false w0)
    as (Hv & Hm & _).
  cbv zeta in *.
  change (children_of w0 cardModel) with (children_of w cardModel) in *.
  assert (Hf : filter (fun m => is_view_type (type_of w0 m) = true)
                      (children_of w cardModel)
               = filter (fun m => is_view_type (type_of w m) = true)
                        (children_of w cardModel)) by reflexivity.
  rewrite Hf in *. clear Hf.
  change (uiViews w0) with (@nil oid) in Hv.
  change (next_oid w0) with (next_oid w) in *.
  rewrite app_nil_l in Hv.
  split; [exact Hv|]. split; [rewrite Hv; exact Hm|].
  split; [exact Hcard|].
  split; intros m.
  - apply same_tree_children, Ht.
  - apply same_tree_name_of, Ht.
Qed.

Lemma CreateViews_one_view_per_child_witness :
  uiViews (CreateViews 2%nat Sample.doc3) = [100%nat; 101%nat] /\
  map (model_of (CreateViews 2%nat Sample.doc3))
      (uiViews (CreateViews 2%nat Sample.doc3)) = [5%nat; 6%nat] /\
  model_of (CreateViews 2%nat Sample.doc3) (uiCard (CreateViews 2%nat Sample.doc3))
    = 2%nat.
Proof.
  destruct (CreateViews_one_view_per_child 2%nat Sample.doc3)
    as (H1 & H2 & H3 & _).
  - split; [exists {| model := 1%nat; ui_parent := None; isSelected := false |};
            vm_compute; reflexivity | vm_compute; lia].
  - split; [exact H1|]. split; [exact H2 | exact H3].
Defined.

(* ===================================================================== *)
(** ** [LoadCardAtIndex] and the index it is given                        *)
(* ===================================================================== *)

Lemma py_index_out_of_range {A} (l : list A) (i : Z) :
  i < - Z.of_nat (length l) \/ Z.of_nat (length l) <= i ->
  py_index l i = Raise IndexError.
Proof.
  intros Hi. unfold py_index. cbv zeta.
  destruct (Z.ltb_spec i 0) as [Hneg|Hpos].
  - destruct (Z.leb_spec 0 (i + Z.of_nat (length l))); [lia | reflexivity].
  - destruct (Z.leb_spec 0 i); [|lia].
    destruct (Z.ltb_spec i (Z.of_nat (length l))); [lia | reflexivity].
Qed.

Lemma py_index_negative {A} (l : list A) (i : Z) :
  - Z.of_nat (length l) <= i < 0 ->
  py_index l i = py_index l (i + Z.of_nat (length l)).
Proof.
  intros Hi. unfold py_index. cbv zeta.
  destruct (Z.ltb_spec i 0) as [_|]; [|lia].
  destruct (Z.ltb_spec (i + Z.of_nat (length l)) 0) as [|_]; [lia|].
  reflexivity.
Qed.

Lemma py_index_raises {A} (l : list A) (i : Z) (e : Exn) :
  py_index l i = Raise e -> e = IndexError.
Proof.
  unfold py_index. cbv zeta.
  destruct (_ && _); [destruct (nth_error _ _)|]; congruence.
Qed.

Lemma hide_old_card_raises (cur : option Z) (editing reload : bool)
      (w : World) (e : Exn) :
  hide_old_card cur editing reload w = Raise e -> e = IndexError.
Proof.
  unfold hide_old_card, when, bind, modify, ret, lift_res.
  destruct cur as [old|]; [|discriminate].
  destruct (negb editing && negb reload); [|discriminate].
  destruct (py_index _ old) as [c|e'] eqn:E; [discriminate|].
  intros [= <-]. exact (py_index_raises _ _ _ E).
Qed.

Lemma show_new_card_out_of_range (w : World) (i : Z) (editing reload : bool) :
  py_index (children_of w (stackModel w)) i = Raise IndexError ->
  show_new_card (Some i) editing reload w = Raise IndexError.
Proof.
  intros Hc. unfold show_new_card, bind, gets, when, modify, ret, lift_res.
  pose proof (ClearAllViews_steady (set_cardIndex (Some i) w))
    as ((_ & _ & _ & Hsm & _) & _ & Ht).
  set (w2 := set_lastFocusedTextField None
               (ClearAllViews (set_cardIndex (Some i) w))).
  unfold GetCardModel.
  change (stackModel w2)
    with (stackModel (ClearAllViews (set_cardIndex (Some i) w))).
  rewrite Hsm. simpl stackModel.
  rewrite (same_tree_children w w2 _ Ht), Hc. reflexivity.
Qed.

Lemma LoadCardAtIndex_no_such_card (w : World) (i : Z) (reload : bool) :
  i < - Z.of_nat (length (children_of w (stackModel w))) \/
  Z.of_nat (length (children_of w (stackModel w))) <= i ->
  cardIndex w <> Some i \/ reload = true ->
  LoadCardAtIndex (Some i) reload w = Raise IndexError.
Proof.
  intros Hi Hgo. apply py_index_out_of_range in Hi.
  rewrite LoadCardAtIndex_steps.
  unfold bind at 1 2 3. unfold gets, when.
  assert (negb (index_eqb (Some i) (cardIndex w)) || reload = true) as ->.
  { destruct Hgo as [Hne| ->]; [|apply orb_true_r].
    apply index_eqb_false in Hne. rewrite Hne. reflexivity. }
  destruct (hide_old_card (cardIndex w) (isEditing w) reload w)
    as [[[] w1]|e] eqn:Eh.
  - apply hide_old_card_frame in Eh as (_ & _ & _ & Hsm1 & Hm1).
    apply show_new_card_out_of_range.
    rewrite Hsm1, (children_of_models _ _ _ Hm1). exact Hi.
  - apply hide_old_card_raises in Eh. subst. reflexivity.
Qed.

(** X8. [LoadCardAtIndex] with an index that no card has (below [-n] or
    from [n] on, for a stack of [n] cards) raises [IndexError], in editing
    mode and in the running viewer alike, unless the call is skipped
    because the index is the current one and no reload is forced. *)
Theorem LoadCardAtIndex_out_of_range (w : World) (i : Z) (reload : bool) :
  i < - Z.of_nat (length (children_of w (stackModel w))) \/
  Z.of_nat (length (children_of w (stackModel w))) <= i ->
  cardIndex w <> Some i \/ reload = true ->
  LoadCardAtIndex (Some i) reload w = Raise IndexError.
Proof. exact (LoadCardAtIndex_no_such_card w i reload). Qed.

Lemma LoadCardAtIndex_out_of_range_witness :
  LoadCardAtIndex (Some 3) false Sample.doc3 = Raise IndexError /\
  LoadCardAtIndex (Some (-4)) false Sample.doc3_editing = Raise IndexError.
Proof.
  split.
  - apply (LoadCardAtIndex_out_of_range Sample.doc3 3 false).
    + right. vm_compute. discriminate.
    + left. discriminate.
  - apply (LoadCardAtIndex_out_of_range Sample.doc3_editing (-4) false).
    + left. vm_compute. reflexivity.
    + left. discriminate.
Defined.

(** X9. [LoadCardAtIndex] takes a negative index the way a Python list
    does: in a running stack of [n] cards an index [i] with [-n <= i < 0]
    shows the card at position [i + n], but [cardIndex] keeps the negative
    number.  Asking for the same card by its position [i + n] afterwards
    is therefore not skipped: the card is hidden, set up and shown
    again. *)
Theorem LoadCardAtIndex_negative_index (w : World) (r : oid) (i : Z)
        (c : oid) :
  isEditing w = false ->
  runner w = Some r ->
  manager_ok w ->
  valid_card w ->
  cardIndex w <> Some i ->
  - Z.of_nat (length (children_of w (stackModel w))) <= i < 0 ->
  nth_error (children_of w (stackModel w))
            (Z.to_nat (i + Z.of_nat (length (children_of w (stackModel w)))))
    = Some c ->
  exists w',
    LoadCardAtIndex (Some i) false w = Ok (tt, w') /\
    cardIndex w' = Some i /\
    model_of w' (uiCard w') = c /\
    exists w'',
      LoadCardAtIndex
        (Some (i + Z.of_nat (length (children_of w (stackModel w))))) false w'
        = Ok (tt, w'') /\
      cardIndex w''
        = Some (i + Z.of_nat (length (children_of w (stackModel w)))) /\
      model_of w'' (uiCard w'') = c /\
      runners w'' =
        runners
          (made_calls r
             ([RunHandler c "OnHideCard"; SetupForCard c] ++
              (if has_handler w c "OnShowCard"
               then [RunHandler c "OnShowCard"] else []))
             w').
Proof.
  intros Hed Hr Hok Hvalid Hne Hi Hnth.
  set (n := Z.of_nat (length (children_of w (stackModel w)))) in *.
  assert (Hpos : py_index (children_of w (stackModel w)) (i + n) = Ok c).
  { destruct (py_index_in_range (children_of w (stackModel w)) (i + n))
      as (a & Ha & Hpa); [unfold n; lia|].
    fold n in Hnth. rewrite Hnth in Ha. injection Ha as <-. exact Hpa. }
  assert (Hneg : py_index (children_of w (stackModel w)) i = Ok c).
  { rewrite py_index_negative by (fold n; lia). exact Hpos. }
  destruct (LoadCardAtIndex_running w r i false c Hed Hr Hok (or_introl Hne) Hneg)
    as (w' & Hrun & Hci & _ & Hcard & Ht & Hok' & _ & Hed' & Hr' & Hsm' & _).
  { intros old Hold _. exact (Hvalid old Hold). }
  exists w'. split; [exact Hrun|]. split; [exact Hci|]. split; [exact Hcard|].
  assert (Hch : children_of w' (stackModel w') = children_of w (stackModel w)).
  { rewrite Hsm'. apply same_tree_children, Ht. }
  destruct (LoadCardAtIndex_running w' r (i + n) false c Hed' Hr' Hok')
    as (w'' & Hrun2 & Hci2 & Hrs2 & Hcard2 & _).
  - left. rewrite Hci. intros [= H]. lia.
  - rewrite Hch. exact Hpos.
  - intros old Hold _. rewrite Hci in Hold. injection Hold as <-.
    exists c. rewrite Hch. exact Hneg.
  - exists w''. split; [exact Hrun2|]. split; [exact Hci2|].
    split; [exact Hcard2|].
    rewrite Hrs2. unfold lifecycle_calls, hide_calls, show_calls.
    rewrite Hci, Hch, Hneg. cbn [negb andb].
    rewrite (same_tree_has_handler w w' c "OnShowCard" Ht).
    reflexivity.
Qed.

Lemma LoadCardAtIndex_negative_index_witness :
  exists w',
    LoadCardAtIndex (Some (-1)) false Sample.doc3 = Ok (tt, w') /\
    cardIndex w' = Some (-1) /\
    model_of w' (uiCard w') = 3%nat /\
    exists w'',
      LoadCardAtIndex (Some 2) false w' = Ok (tt, w'') /\
      cardIndex w'' = Some 2 /\
      model_of w'' (uiCard w'') = 3%nat /\
      runners w'' =
        runners
          (made_calls 20%nat
             ([RunHandler 3%nat "OnHideCard"; SetupForCard 3%nat] ++ []) w').
Proof.
  apply (LoadCardAtIndex_negative_index Sample.doc3 20%nat (-1) 3%nat).
  - reflexivity.
  - reflexivity.
  - split; [exists {| model := 1%nat; ui_parent := None; isSelected := false |};
            vm_compute; reflexivity | vm_compute; lia].
  - intros old Hold. injection Hold as <-. exists 1%nat. reflexivity.
  - discriminate.
  - vm_compute. split; [discriminate | reflexivity].
  - reflexivity.
Defined.

(** What [LoadCardAtIndex] leaves alone in every mode. *)
Lemma show_new_card_control (index : option Z) (editing reload : bool)
      (w w' : World) :
  show_new_card index editing reload w = Ok (tt, w') ->
  isEditing w' = isEditing w /\ runner w' = runner w /\
  stackModel w' = stackModel w /\ uiCard w' = uiCard w /\
  Obj.filename w' = Obj.filename w /\
  command_processor w' = command_processor w /\ cardIndex w' = index.
Proof.
  unfold show_new_card, bind, gets, when, modify, ret.
  pose proof (ClearAllViews_control (set_cardIndex index w))
    as (He2 & Hr2 & _ & Hs2 & Hu2 & Hf2 & Hci2 & Hcp2).
  destruct index as [i|]; [|intros [= <-]; repeat split; assumption].
  destruct (lift_res _ _) as [[c w2]|e] eqn:E; [|discriminate].
  unfold lift_res in E.
  destruct (GetCardModel _ i _) as [c'|]; [|discriminate].
  injection E as -> <-.
  set (w2 := set_lastFocusedTextField None
               (ClearAllViews (set_cardIndex (Some i) w))).
  pose proof (CreateViews_control c w2)
    as (He3 & Hr3 & _ & Hs3 & Hu3 & Hf3 & Hci3 & Hcp3).
  pose proof (SelectUiView_control (Some (uiCard (CreateViews c w2))) false
                (CreateViews c w2))
    as (He4 & Hr4 & _ & Hs4 & Hu4 & Hf4 & Hci4 & Hcp4).
  set (w4 := SelectUiView (Some (uiCard (CreateViews c w2))) false
               (CreateViews c w2)) in *.
  assert (Hfin : forall x,
             isEditing x = isEditing w4 -> runner x = runner w4 ->
             stackModel x = stackModel w4 -> uiCard x = uiCard w4 ->
             Obj.filename x = Obj.filename w4 ->
             command_processor x = command_processor w4 ->
             cardIndex x = cardIndex w4 ->
             isEditing x = isEditing w /\ runner x = runner w /\
             stackModel x = stackModel w /\ uiCard x = uiCard w /\
             Obj.filename x = Obj.filename w /\
             command_processor x = command_processor w /\
             cardIndex x = Some i).
  { intros x H1 H2 H3 H4 H5 H6 H7.
    split; [rewrite H1, He4, He3; exact He2|].
    split; [rewrite H2, Hr4, Hr3; exact Hr2|].
    split; [rewrite H3, Hs4, Hs3; exact Hs2|].
    split; [rewrite H4, Hu4, Hu3; exact Hu2|].
    split; [rewrite H5, Hf4, Hf3; exact Hf2|].
    split; [rewrite H6, Hcp4, Hcp3; exact Hcp2|].
    rewrite H7, Hci4, Hci3. exact Hci2. }
  assert (Hcall : forall k x,
             isEditing (call_current_runner k x) = isEditing x /\
             runner (call_current_runner k x) = runner x /\
             stackModel (call_current_runner k x) = stackModel x /\
             uiCard (call_current_runner k x) = uiCard x /\
             Obj.filename (call_current_runner k x) = Obj.filename x /\
             command_processor (call_current_runner k x) = command_processor x /\
             cardIndex (call_current_runner k x) = cardIndex x).
  { intros k x. unfold call_current_runner.
    destruct (runner x) eqn:E; repeat split; exact E. }
  destruct (negb editing && bool_decide (is_Some (runner w4)));
    [|intros [= <-]; apply Hfin; reflexivity].
  destruct (Hcall (SetupForCard c) w4) as (A1 & A2 & A3 & A4 & A5 & A6 & A7).
  destruct (negb reload).
  - match goal with
    | |- context [if ?b then _ else _] => destruct b
    end; intros [= <-];
      [|apply Hfin; assumption].
    match goal with
    | |- context [call_current_runner ?k (call_current_runner ?k0 w4)] =>
        destruct (Hcall k (call_current_runner k0 w4))
          as (B1 & B2 & B3 & B4 & B5 & B6 & B7)
    end.
    apply Hfin; cbn [isEditing runner stackModel uiCard Obj.filename
                     command_processor cardIndex set_noIdling]; congruence.
  - intros [= <-]. apply Hfin; assumption.
Qed.

Lemma LoadCardAtIndex_control (index : option Z) (reload : bool)
      (w w' : World) :
  LoadCardAtIndex index reload w = Ok (tt, w') ->
  isEditing w' = isEditing w /\ runner w' = runner w /\
  stackModel w' = stackModel w /\ uiCard w' = uiCard w /\
  Obj.filename w' = Obj.filename w /\
  command_processor w' = command_processor w.
Proof.
  rewrite LoadCardAtIndex_steps.
  unfold bind at 1 2 3. unfold gets, when.
  destruct (negb (index_eqb index (cardIndex w)) || reload);
    [|intros [= <-]; repeat split].
  destruct (hide_old_card (cardIndex w) (isEditing w) reload w)
    as [[[] w1]|e] eqn:Eh; [|discriminate].
  intros Hshow.
  apply show_new_card_control in Hshow
    as (H1 & H2 & H3 & H4 & H5 & H6 & _).
  assert (Hh : isEditing w1 = isEditing w /\ runner w1 = runner w /\
               stackModel w1 = stackModel w /\ uiCard w1 = uiCard w /\
               Obj.filename w1 = Obj.filename w /\
               command_processor w1 = command_processor w).
  { revert Eh. unfold hide_old_card, when, bind, modify, ret, lift_res.
    destruct (cardIndex w) as [old|]; [|intros [= <-]; repeat split].
    destruct (negb (isEditing w) && negb reload);
      [|intros [= <-]; repeat split].
    destruct (py_index _ old) as [c|e]; [|discriminate].
    intros [= <-]. unfold call_current_runner.
    destruct (runner w) eqn:E; repeat split; exact E. }
  destruct Hh as (G1 & G2 & G3 & G4 & G5 & G6).
  repeat split; congruence.
Qed.

(** X10. [SetStackModel] installs a stack on its first card: in editing
    mode, for a stack with at least one card, it succeeds, the card
    showing is the stack's first card with index 0, that card is the
    selection, and the undo history is empty.  A stack without cards makes
    it raise [IndexError], in every mode. *)
Theorem SetStackModel_first_card (m : oid) (w : World) :
  (children_of w m = [] -> SetStackModel m w = Raise IndexError) /\
  (forall c0 rest,
      children_of w m = c0 :: rest ->
      isEditing w = true ->
      manager_ok w ->
      exists w',
        SetStackModel m w = Ok (tt, w') /\
        stackModel w' = m /\ cardIndex w' = Some 0 /\
        model_of w' (uiCard w') = c0 /\
        selectedViews w' = [uiCard w'] /\
        command_processor w' = {| commands := []; redoCommands := [] |}).
Proof.
  pose proof (ClearAllViews_steady w) as Hst.
  pose proof Hst as ((He & _) & _ & Ht).
  set (w1 := set_cardIndex None (set_stackModel m (ClearAllViews w))).
  assert (Hch : children_of w1 (stackModel w1) = children_of w m).
  { change (children_of w1 (stackModel w1))
      with (children_of (ClearAllViews w) m).
    apply same_tree_children, Ht. }
  split.
  - intros Hnil. unfold SetStackModel, bind, modify. fold w1.
    rewrite (LoadCardAtIndex_no_such_card w1 0 false); [reflexivity| |].
    + right. rewrite Hch, Hnil. simpl. lia.
    + left. discriminate.
  - intros c0 rest Hkids Hed Hok.
    destruct (LoadCardAtIndex_editing_selects_card w1 0 false c0)
      as (w' & Hrun & Hsel & Hcard & Hci).
    + change (isEditing w1) with (isEditing (ClearAllViews w)).
      rewrite He. exact Hed.
    + exact (steady_manager_ok _ _ Hst Hok).
    + left. discriminate.
    + rewrite Hch, Hkids. reflexivity.
    + destruct (LoadCardAtIndex_control _ _ _ _ Hrun) as (_ & _ & Hsm & _).
      exists (ClearCommands w').
      unfold SetStackModel, bind, modify. fold w1. rewrite Hrun.
      split; [reflexivity|]. split; [exact Hsm|]. split; [exact Hci|].
      split; [exact Hcard|]. split; [exact Hsel | reflexivity].
Qed.

Lemma SetStackModel_first_card_witness :
  exists w',
    SetStackModel 0%nat Sample.doc3_editing = Ok (tt, w') /\
    stackModel w' = 0%nat /\ cardIndex w' = Some 0 /\
    model_of w' (uiCard w') = 1%nat /\
    selectedViews w' = [uiCard w'] /\
    command_processor w' = {| commands := []; redoCommands := [] |}.
Proof.
  apply (proj2 (SetStackModel_first_card 0%nat Sample.doc3_editing)
           1%nat [2%nat; 3%nat]).
  - reflexivity.
  - reflexivity.
  - split; [exists {| model := 1%nat; ui_parent := None; isSelected := false |};
            vm_compute; reflexivity | vm_compute; lia].
Defined.

(* ===================================================================== *)
(** ** Calling and returning: what [GosubStack] does and does not do      *)
(* ===================================================================== *)


(** X12. A [Call] ([GosubStack] with a file name): a relative name is
    looked up in the directory of the calling stack's own file and an
    absolute name is taken as it is.  From a stack that has no file yet a
    relative name answers [False]; so does a target for which [open]
    raises [FileNotFoundError].  A target that cannot be opened or read
    for another reason ([NotADirectoryError], [IsADirectoryError],
    [PermissionError], [UnicodeDecodeError]) raises that exception to the
    calling script, and text that is not JSON raises
    [json.JSONDecodeError].  A file whose JSON value is empty ([{}], [[]],
    [null], [0], ...) answers [None] and queues nothing.  A file with any
    other JSON value answers [True], and the one task queued carries the
    loaded data, the resolved path, the card number and the value. *)
Theorem GosubStack_push_cases (fname : string) (cardNumber : option Z)
        (ioValue : PyVal) (v : Viewer) :
  fname <> "" ->
  (isabs fname = false -> Obj.filename (world v) = None ->
   GosubStack (Some fname) cardNumber ioValue v = Ok (PyBool false, v)) /\
  (forall path,
      (isabs fname = true /\ path = fname) \/
      (isabs fname = false /\
       exists own, Obj.filename (world v) = Some own /\
                   path = join (dirname own) fname) ->
      (files v !! path = None ->
       GosubStack (Some fname) cardNumber ioValue v = Ok (PyBool false, v)) /\
      (forall e, files v !! path = Some (Unreadable e) ->
                 GosubStack (Some fname) cardNumber ioValue v
                 = match e with
                   | TypeError | FileNotFoundError => Ok (PyBool false, v)
                   | _ => Raise e
                   end) /\
      (files v !! path = Some NotJSON ->
       GosubStack (Some fname) cardNumber ioValue v = Raise JSONDecodeError) /\
      (forall d, files v !! path = Some (IsJSON d) -> truthy d = false ->
                 GosubStack (Some fname) cardNumber ioValue v = Ok (PyNone, v)) /\
      (forall d, files v !! path = Some (IsJSON d) -> truthy d = true ->
                 GosubStack (Some fname) cardNumber ioValue v
                 = Ok (PyBool true,
                       set_main_queue
                         (main_queue v ++ [PushTask d path cardNumber ioValue])
                         v))).
Proof.
  intros Hne. destruct fname as [|c s]; [congruence|]. clear Hne.
  unfold GosubStack, except_TypeError_FileNotFoundError, bind, gets, modify,
    ret, raise, lift_res, open_and_load.
  split.
  - intros Hrel Hown. rewrite Hrel. cbn [negb]. cbv beta iota.
    rewrite Hown. reflexivity.
  - intros path [[Habs ->]|(Hrel & own & Hown & ->)].
    + rewrite Habs. cbn [negb]. cbv beta iota.
      split; [intros ->; reflexivity|].
      split; [intros e ->; destruct e; reflexivity|].
      split; [intros ->; reflexivity|].
      split; intros d -> ->; reflexivity.
    + rewrite Hrel. cbn [negb]. cbv beta iota. rewrite Hown.
      split; [intros ->; reflexivity|].
      split; [intros e ->; destruct e; reflexivity|].
      split; [intros ->; reflexivity|].
      split; intros d -> ->; reflexivity.
Qed.

(** From [/stacks/main.cds]: [sub.cds] is found next to it and queued;
    [main.cds/sub.cds] runs through a regular file and raises
    [NotADirectoryError]; [missing.cds] answers [False]; [empty.cds]
    answers [None]; [bad.cds] raises [JSONDecodeError]. *)
Lemma GosubStack_push_cases_witness :
  let v := Sample2.viewer1_more_files in
  GosubStack (Some "sub.cds") (Some 0) (PyInt 42) v
    = Ok (PyBool true,
          set_main_queue
            [PushTask (JObj [("CardStock_stack_format", JInt 1)])
                      "/stacks/sub.cds" (Some 0) (PyInt 42)] v) /\
  GosubStack (Some "main.cds/sub.cds") (Some 0) (PyInt 42) v
    = Raise NotADirectoryError /\
  GosubStack (Some "missing.cds") (Some 0) (PyInt 42) v = Ok (PyBool false, v) /\
  GosubStack (Some "empty.cds") (Some 0) (PyInt 42) v = Ok (PyNone, v) /\
  GosubStack (Some "bad.cds") (Some 0) (PyInt 42) v = Raise JSONDecodeError.
Proof.
  cbv zeta.
  assert (Hpath : forall name,
    isabs name = false ->
    isabs name = true /\ join "/stacks" name = name \/
    isabs name = false /\
    exists own, Obj.filename (world Sample2.viewer1_more_files) = Some own /\
                join "/stacks" name = join (dirname own) name).
  { intros name Hrel. right. split; [exact Hrel|].
    exists "/stacks/main.cds". split; reflexivity. }
  split.
  - destruct (GosubStack_push_cases "sub.cds" (Some 0) (PyInt 42)
                Sample2.viewer1_more_files) as [_ H]; [discriminate|].
    destruct (H (join "/stacks" "sub.cds") (Hpath "sub.cds" eq_refl))
      as (_ & _ & _ & _ & Hyes).
    apply (Hyes (JObj [("CardStock_stack_format", JInt 1)]));
      vm_compute; reflexivity.
  - split.
    + destruct (GosubStack_push_cases "main.cds/sub.cds" (Some 0) (PyInt 42)
                  Sample2.viewer1_more_files) as [_ H]; [discriminate|].
      destruct (H (join "/stacks" "main.cds/sub.cds")
                  (Hpath "main.cds/sub.cds" eq_refl))
        as (_ & Herr & _).
      apply (Herr NotADirectoryError). vm_compute. reflexivity.
    + split.
      * destruct (GosubStack_push_cases "missing.cds" (Some 0) (PyInt 42)
                    Sample2.viewer1_more_files) as [_ H]; [discriminate|].
        destruct (H (join "/stacks" "missing.cds")
                    (Hpath "missing.cds" eq_refl)) as (Hno & _).
        apply Hno. vm_compute. reflexivity.
      * split.
        -- destruct (GosubStack_push_cases "empty.cds" (Some 0) (PyInt 42)
                       Sample2.viewer1_more_files) as [_ H]; [discriminate|].
           destruct (H (join "/stacks" "empty.cds")
                       (Hpath "empty.cds" eq_refl)) as (_ & _ & _ & Hfalsy & _).
           apply (Hfalsy (JObj [])); vm_compute; reflexivity.
        -- destruct (GosubStack_push_cases "bad.cds" (Some 0) (PyInt 42)
                       Sample2.viewer1_more_files) as [_ H]; [discriminate|].
           destruct (H (join "/stacks" "bad.cds")
                       (Hpath "bad.cds" eq_refl)) as (_ & _ & Hbad & _).
           apply Hbad. vm_compute. reflexivity.
Defined.
